(** * Firebase deployment verification script: check aggregation model

    Shallow embedding of [scripts/verify_firebase_deployment.py].  The
    [FirebaseDeploymentVerifier] object is a record of its four fields, the
    console is the list of the lines printed so far, and every method is a
    function in a state-and-exception monad over the two.  The file system
    and the outcome of the [flutter build] subprocess are the environment of
    a run. *)

From Stdlib Require Import ZArith Ascii String List Lia DecimalString.
From stdpp Require Import base gmap strings list fin_maps.

Local Open Scope Z_scope.

(** ** Python strings *)

Module Str.

(** [sub in s] on [str]. *)
Fixpoint str_in (sub s : string) : bool :=
  String.prefix sub s ||
  match s with
  | EmptyString => false
  | String _ s' => str_in sub s'
  end.

Definition upper_ascii (c : ascii) : ascii :=
  let n := nat_of_ascii c in
  if (97 <=? n)%nat && (n <=? 122)%nat then ascii_of_nat (n - 32) else c.

Definition lower_ascii (c : ascii) : ascii :=
  let n := nat_of_ascii c in
  if (65 <=? n)%nat && (n <=? 90)%nat then ascii_of_nat (n + 32) else c.

Fixpoint map_ascii (f : ascii -> ascii) (s : string) : string :=
  match s with
  | EmptyString => EmptyString
  | String c s' => String (f c) (map_ascii f s')
  end.

(** [s.lower()], on the ASCII letters. *)
Definition lower (s : string) : string := map_ascii lower_ascii s.

(** [s.capitalize()]: first character upper-cased, the rest lower-cased. *)
Definition capitalize (s : string) : string :=
  match s with
  | EmptyString => EmptyString
  | String c s' => String (upper_ascii c) (lower s')
  end.

(** ["=" * n] *)
Fixpoint repeat (s : string) (n : nat) : string :=
  match n with
  | O => EmptyString
  | S n' => s +:+ repeat s n'
  end.

(** [str(n)] for an [int]. *)
Definition of_Z (n : Z) : string := NilZero.string_of_int (Z.to_int n).

(** The newline character of ["\n"]. *)
Definition nl : string := String (ascii_of_nat 10) EmptyString.

(** The patterns handed to [re.search] by this script are built from
    ordinary characters and backslash-escaped characters only; such a
    pattern matches exactly the occurrences of its unescaped text. *)
Fixpoint re_unescape (pattern : string) : string :=
  match pattern with
  | String "\" (String c rest) => String c (re_unescape rest)
  | String c rest => String c (re_unescape rest)
  | EmptyString => EmptyString
  end.

Definition re_search (pattern content : string) : bool :=
  str_in (re_unescape pattern) content.

End Str.

(** ** Environment of a run *)

Inductive exn_class :=
| TimeoutExpired
| FileNotFoundError
| PermissionError
| IsADirectoryError
| UnicodeDecodeError
| RuntimeError.

(** An exception: its class and what [str(e)] gives. *)
Record exn := Exn { exn_cls : exn_class; exn_str : string }.

(** What the file system has at a path: text that [read_text] returns;
    something [read_text] fails on (a directory, a file without read
    permission, bytes that do not decode); or something that cannot even be
    examined, because [stat] fails on the path with an error other than a
    missing entry (no search permission on a directory above it, an I/O
    error), which [exists()] lets through. *)
Inductive file :=
| Text (content : string)
| Unreadable (e : exn)
| Inaccessible (e : exn).

(** What [subprocess.run] does: it returns a completed process, or raises. *)
Inductive build_outcome :=
| Completed (returncode : Z) (stderr : string)
| BuildRaises (e : exn).

Record env := Env {
  fs : gmap string file;       (* paths relative to [project_root] *)
  flutter_build : build_outcome
}.

(** ** The verifier object and the console *)

Record state := State {
  issues : list string;
  warnings : list string;
  success_count : Z;
  total_checks : Z;
  console : list string        (* one entry per [print] call, oldest first *)
}.

(** [FirebaseDeploymentVerifier.__init__], with nothing printed yet. *)
Definition init : state :=
  {| issues := []; warnings := []; success_count := 0; total_checks := 0;
     console := [] |}.

(** ** State and exception monad *)

Inductive result (A : Type) :=
| Ok (a : A) (s : state)
| Raise (e : exn) (s : state).
Arguments Ok {A} a s.
Arguments Raise {A} e s.

Definition M (A : Type) : Type := state -> result A.

Definition ret {A} (a : A) : M A := fun s => Ok a s.

Definition bind {A B} (m : M A) (k : A -> M B) : M B :=
  fun s => match m s with
           | Ok a s' => k a s'
           | Raise e s' => Raise e s'
           end.

Definition raise {A} (e : exn) : M A := fun s => Raise e s.

(** [try: body except ...: handler]; a handler that answers [None] does not
    match the exception, which then propagates. *)
Definition try_except {A} (body : M A) (handler : exn -> option (M A)) : M A :=
  fun s => match body s with
           | Ok a s' => Ok a s'
           | Raise e s' =>
               match handler e with
               | Some h => h s'
               | None => Raise e s'
               end
           end.

Definition modify (f : state -> state) : M unit := fun s => Ok tt (f s).

Declare Scope monad_scope.
Delimit Scope monad_scope with monad.
Notation "x <- c ;; k" := (bind c (fun x => k))
  (at level 20, c at level 99, k at level 200, only parsing) : monad_scope.
Notation "c ;; k" := (bind c (fun _ => k))
  (at level 100, k at level 200, only parsing, right associativity) : monad_scope.
Local Open Scope monad_scope.

Fixpoint for_each {A} (l : list A) (body : A -> M unit) : M unit :=
  match l with
  | [] => ret tt
  | x :: l' => body x ;; for_each l' body
  end.

Definition state_of {A} (r : result A) : state :=
  match r with
  | Ok _ s => s
  | Raise _ s => s
  end.

Definition print (line : string) : M unit :=
  modify (fun s => {| issues := issues s; warnings := warnings s;
                      success_count := success_count s;
                      total_checks := total_checks s;
                      console := console s ++ [line] |}).

(** ** [FirebaseDeploymentVerifier] *)

Definition log_success (message : string) : M unit :=
  print ("✅ " +:+ message) ;;
  modify (fun s => {| issues := issues s; warnings := warnings s;
                      success_count := success_count s + 1;
                      total_checks := total_checks s + 1;
                      console := console s |}).

Definition log_warning (message : string) : M unit :=
  print ("⚠️  " +:+ message) ;;
  modify (fun s => {| issues := issues s;
                      warnings := warnings s ++ [message];
                      success_count := success_count s;
                      total_checks := total_checks s + 1;
                      console := console s |}).

Definition log_error (message : string) : M unit :=
  print ("❌ " +:+ message) ;;
  modify (fun s => {| issues := issues s ++ [message];
                      warnings := warnings s;
                      success_count := success_count s;
                      total_checks := total_checks s + 1;
                      console := console s |}).

Definition get : M state := fun s => Ok s s.

(** [self.project_root]; every path below is kept relative to it. *)
Definition project_root : string := "".

(** The [/] operator of [pathlib]. *)
Definition path_div (p name : string) : string :=
  match p with
  | EmptyString => name
  | _ => p +:+ "/" +:+ name
  end.
Notation "p </> name" := (path_div p name) (at level 40, left associativity).

(** [path.exists()]: [pathlib] answers [False] when [stat] finds nothing at
    the path, [True] when it finds something, and re-raises every other
    error of [stat]. *)
Definition path_exists (e : env) (p : string) : M bool :=
  match fs e !! p with
  | Some (Inaccessible x) => raise x
  | Some _ => ret true
  | None => ret false
  end.

(** [path.read_text()] *)
Definition read_text (e : env) (p : string) : M string :=
  match fs e !! p with
  | Some (Text content) => ret content
  | Some (Unreadable x) => raise x
  | Some (Inaccessible x) => raise x
  | None => raise (Exn FileNotFoundError p)
  end.

(** [subprocess.run(['flutter', 'build', 'apk', '--debug'], ...)]: the
    return code and the captured standard error. *)
Definition subprocess_run (e : env) : M (Z * string) :=
  match flutter_build e with
  | Completed returncode stderr => ret (returncode, stderr)
  | BuildRaises x => raise x
  end.

Definition check_file_exists (e : env) (file_path description : string) : M bool :=
  let full_path := project_root </> file_path in
  found <- path_exists e full_path ;;
  if found then
    log_success (description +:+ ": " +:+ file_path) ;;
    ret true
  else
    log_error (description +:+ ": " +:+ file_path +:+ " - FILE MISSING") ;;
    ret false.

Definition placeholder_patterns : list string :=
  [ "placeholder-project-id";
    "your-project-id";
    "your-app-id";
    "your-api-key";
    "example\.com";
    "com\.example\." ].

Definition platforms : list string :=
  [ "android"; "ios"; "web"; "macos"; "windows" ].

Definition check_firebase_options (e : env) : M unit :=
  print (Str.nl +:+ "🔧 Checking Firebase Options Configuration...") ;;
  let options_file := project_root </> "lib" </> "firebase_options.dart" in
  found <- path_exists e options_file ;;
  if negb found then
    log_error "Firebase options file not found"
  else
    content <- read_text e options_file ;;
    for_each placeholder_patterns (fun pattern =>
      if Str.re_search pattern content then
        log_error ("Found placeholder pattern: " +:+ pattern)
      else ret tt) ;;
    (if Str.str_in "lca5kr3efmasxydmsi1rvyjoizifj4" content then
       log_success "Real Firebase project ID found"
     else
       log_error "Real Firebase project ID not found") ;;
    for_each platforms (fun platform =>
      if Str.str_in ("static const FirebaseOptions " +:+ platform) content then
        log_success (Str.capitalize platform +:+ " configuration present")
      else
        log_warning (Str.capitalize platform +:+ " configuration missing")).

Definition check_android_config (e : env) : M unit :=
  print (Str.nl +:+ "🤖 Checking Android Configuration...") ;;
  _ <- check_file_exists e "android/app/google-services.json"
         "Google Services JSON" ;;
  let build_gradle := project_root </> "android" </> "app" </> "build.gradle" in
  found <- path_exists e build_gradle ;;
  if found then
    content <- read_text e build_gradle ;;
    (if Str.str_in "com.google.gms.google-services" content then
       log_success "Google Services plugin integrated"
     else
       log_error "Google Services plugin not integrated") ;;
    (if Str.str_in "firebase-bom" content then
       log_success "Firebase BoM dependency present"
     else
       log_warning "Firebase BoM dependency missing")
  else ret tt.

Definition check_ios_config (e : env) : M unit :=
  print (Str.nl +:+ "🍎 Checking iOS Configuration...") ;;
  _ <- check_file_exists e "ios/Runner/GoogleService-Info.plist"
         "GoogleService-Info.plist" ;;
  let info_plist := project_root </> "ios" </> "Runner" </> "Info.plist" in
  found <- path_exists e info_plist ;;
  if found then
    content <- read_text e info_plist ;;
    if Str.str_in "CFBundleURLTypes" content then
      log_success "URL schemes configured"
    else
      log_warning "URL schemes not configured"
  else ret tt.

Definition check_web_config (e : env) : M unit :=
  print (Str.nl +:+ "🌐 Checking Web Configuration...") ;;
  let index_html := project_root </> "web" </> "index.html" in
  found <- path_exists e index_html ;;
  if found then
    content <- read_text e index_html ;;
    if Str.str_in "firebase" (Str.lower content) then
      log_success "Firebase scripts in index.html"
    else
      log_warning "Firebase scripts not found in index.html"
  else
    log_warning "Web index.html not found".

Definition firebase_packages : list string :=
  [ "firebase_core";
    "firebase_auth";
    "cloud_firestore";
    "firebase_storage";
    "firebase_messaging";
    "firebase_analytics";
    "firebase_remote_config" ].

Definition check_dependencies (e : env) : M unit :=
  print (Str.nl +:+ "📦 Checking Dependencies...") ;;
  let pubspec := project_root </> "pubspec.yaml" in
  found <- path_exists e pubspec ;;
  if negb found then
    log_error "pubspec.yaml not found"
  else
    content <- read_text e pubspec ;;
    for_each firebase_packages (fun package =>
      if Str.str_in package content then
        log_success (package +:+ " dependency present")
      else
        log_warning (package +:+ " dependency missing")).

Definition check_build_status (e : env) : M unit :=
  print (Str.nl +:+ "🔨 Checking Build Status...") ;;
  try_except
    (result <- subprocess_run e ;;
     let '(returncode, stderr) := result in
     if returncode =? 0 then
       log_success "App builds successfully"
     else
       log_error ("Build failed: " +:+ stderr))
    (fun x =>
       match exn_cls x with
       | TimeoutExpired =>
           Some (log_warning "Build timed out (this is normal for first build)")
       | FileNotFoundError =>
           Some (log_error "Flutter not found in PATH")
       | _ =>
           Some (log_error ("Build check failed: " +:+ exn_str x))
       end).

Definition check_security_rules (e : env) : M unit :=
  print (Str.nl +:+ "🔒 Checking Security Rules...") ;;
  let firestore_rules := project_root </> "firestore.rules" in
  (found <- path_exists e firestore_rules ;;
   if found then
     log_success "Firestore security rules present"
   else
     log_warning "Firestore security rules not found") ;;
  let storage_rules := project_root </> "storage.rules" in
  found <- path_exists e storage_rules ;;
  if found then
    log_success "Storage security rules present"
  else
    log_warning "Storage security rules not found".

(** [if xs:] on a list. *)
Definition nonempty {A} (l : list A) : bool :=
  match l with
  | [] => false
  | _ :: _ => true
  end.

Definition len {A} (l : list A) : Z := Z.of_nat (length l).

Definition generate_report : M unit :=
  print (Str.nl +:+ Str.repeat "=" 60) ;;
  print "📊 FIREBASE DEPLOYMENT READINESS REPORT" ;;
  print (Str.repeat "=" 60) ;;
  self <- get ;;
  print (Str.nl +:+ "Total Checks: " +:+ Str.of_Z (total_checks self)) ;;
  print ("✅ Successful: " +:+ Str.of_Z (success_count self)) ;;
  print ("⚠️  Warnings: " +:+ Str.of_Z (len (warnings self))) ;;
  print ("❌ Issues: " +:+ Str.of_Z (len (issues self))) ;;
  (if nonempty (issues self) then
     print (Str.nl +:+ "❌ CRITICAL ISSUES TO FIX:") ;;
     for_each (issues self) (fun issue => print ("   • " +:+ issue))
   else ret tt) ;;
  (if nonempty (warnings self) then
     print (Str.nl +:+ "⚠️  WARNINGS TO ADDRESS:") ;;
     for_each (warnings self) (fun warning => print ("   • " +:+ warning))
   else ret tt) ;;
  (if negb (nonempty (issues self)) then
     print (Str.nl +:+ "🎉 DEPLOYMENT STATUS: READY!") ;;
     print "   Your Firebase configuration is ready for production deployment."
   else
     print (Str.nl +:+ "🚨 DEPLOYMENT STATUS: NOT READY") ;;
     print "   Please fix the critical issues before deploying.") ;;
  print (Str.nl +:+ Str.repeat "=" 60).

Definition run_all_checks (e : env) : M bool :=
  print "🚀 Starting Firebase Deployment Verification..." ;;
  print (Str.repeat "=" 60) ;;
  check_firebase_options e ;;
  check_android_config e ;;
  check_ios_config e ;;
  check_web_config e ;;
  check_dependencies e ;;
  check_security_rules e ;;
  check_build_status e ;;
  generate_report ;;
  self <- get ;;
  ret (len (issues self) =? 0).

(** How the process ends: [sys.exit(code)], or an exception that nothing
    caught, on which the interpreter prints a traceback and leaves with
    status 1. *)
Inductive process_end :=
| SysExit (code : Z)
| Traceback (x : exn).

Definition exit_status (p : process_end) : Z :=
  match p with
  | SysExit code => code
  | Traceback _ => 1
  end.

Definition main (e : env) : process_end * state :=
  match run_all_checks e init with
  | Ok success s =>
      if success then
        (SysExit 0,
         state_of (print (Str.nl +:+ "🎯 All checks passed! Your Firebase configuration is ready for deployment.") s))
      else
        (SysExit 1,
         state_of (print (Str.nl +:+ "⚠️  Some issues were found. Please fix them before deploying.") s))
  | Raise x s => (Traceback x, s)
  end.

(** ** Notions used by the statements *)

(** States of the aggregator that some sequence of [log_success],
    [log_warning] and [log_error] calls builds from the initial one. *)
Inductive reachable : state -> Prop :=
| reach_init : reachable init
| reach_success message s :
    reachable s -> reachable (state_of (log_success message s))
| reach_warning message s :
    reachable s -> reachable (state_of (log_warning message s))
| reach_error message s :
    reachable s -> reachable (state_of (log_error message s)).

(** The counter invariant of the aggregator. *)
Definition counted (s : state) : Prop :=
  total_checks s = success_count s + len (warnings s) + len (issues s).

(** [I] survives the computation [m], whether [m] returns or raises. *)
Definition stable {A} (I : state -> Prop) (m : M A) : Prop :=
  forall s, I s -> I (state_of (m s)).

(** [m] returns: it raises from no state. *)
Definition returns {A} (m : M A) : Prop :=
  forall s, exists a s', m s = Ok a s'.

(** The banners of the report. *)
Definition ready_banner : string :=
  Str.nl +:+ "🎉 DEPLOYMENT STATUS: READY!".
Definition not_ready_banner : string :=
  Str.nl +:+ "🚨 DEPLOYMENT STATUS: NOT READY".

(** The state once [lines] have been printed. *)
Definition add_lines (lines : list string) (s : state) : state :=
  {| issues := issues s; warnings := warnings s;
     success_count := success_count s; total_checks := total_checks s;
     console := console s ++ lines |}.

(** The states a run of [run_all_checks] from [s] goes through when every
    check group returns: after the two opening lines, after each of the seven
    groups, and after the report. *)
Definition run_through (e : env) (s s1 s2 s3 s4 s5 s6 s7 s' : state) : Prop :=
  check_firebase_options e
    (add_lines [ "🚀 Starting Firebase Deployment Verification...";
                 Str.repeat "=" 60 ] s) = Ok tt s1 /\
  check_android_config e s1 = Ok tt s2 /\
  check_ios_config e s2 = Ok tt s3 /\
  check_web_config e s3 = Ok tt s4 /\
  check_dependencies e s4 = Ok tt s5 /\
  check_security_rules e s5 = Ok tt s6 /\
  check_build_status e s6 = Ok tt s7 /\
  generate_report s7 = Ok tt s'.

(** There is something at [p] that [exists()] sees. *)
Definition present (e : env) (p : string) : bool :=
  match fs e !! p with
  | Some (Text _) | Some (Unreadable _) => true
  | Some (Inaccessible _) | None => false
  end.

(** The files whose text the check groups read. *)
Definition options_path : string := "lib/firebase_options.dart".
Definition build_gradle_path : string := "android/app/build.gradle".
Definition info_plist_path : string := "ios/Runner/Info.plist".
Definition index_html_path : string := "web/index.html".
Definition pubspec_path : string := "pubspec.yaml".

Definition read_paths : list string :=
  [ options_path; build_gradle_path; info_plist_path; index_html_path;
    pubspec_path ].

(** The files of which the check groups only ask whether they exist. *)
Definition google_services_path : string := "android/app/google-services.json".
Definition google_service_info_path : string :=
  "ios/Runner/GoogleService-Info.plist".
Definition firestore_rules_path : string := "firestore.rules".
Definition storage_rules_path : string := "storage.rules".

(** Every path handed to [exists()], in the order of a run. *)
Definition probed_paths : list string :=
  [ options_path; google_services_path; build_gradle_path;
    google_service_info_path; info_plist_path; index_html_path; pubspec_path;
    firestore_rules_path; storage_rules_path ].

(** Every path that a check group probes can be examined, and every file
    that a check group reads is absent or holds readable text. *)
Definition readable (e : env) : Prop :=
  (forall p x, In p probed_paths -> fs e !! p <> Some (Inaccessible x)) /\
  (forall p x, In p read_paths -> fs e !! p <> Some (Unreadable x)).

(** The check groups, in the order of [run_all_checks], and the line each
    one prints when it starts. *)
Inductive group :=
| Options | Android | Ios | Web | Dependencies | SecurityRules | BuildStatus.

Definition all_groups : list group :=
  [ Options; Android; Ios; Web; Dependencies; SecurityRules; BuildStatus ].

Definition header (g : group) : string :=
  match g with
  | Options => Str.nl +:+ "🔧 Checking Firebase Options Configuration..."
  | Android => Str.nl +:+ "🤖 Checking Android Configuration..."
  | Ios => Str.nl +:+ "🍎 Checking iOS Configuration..."
  | Web => Str.nl +:+ "🌐 Checking Web Configuration..."
  | Dependencies => Str.nl +:+ "📦 Checking Dependencies..."
  | SecurityRules => Str.nl +:+ "🔒 Checking Security Rules..."
  | BuildStatus => Str.nl +:+ "🔨 Checking Build Status..."
  end.

Definition group_of_line (line : string) : option group :=
  List.find (fun g => String.eqb line (header g)) all_groups.

(** The groups that have started, read off the console. *)
Definition groups_started (lines : list string) : list group :=
  omap group_of_line lines.

Definition report_title : string := "📊 FIREBASE DEPLOYMENT READINESS REPORT".

(** Lines that only the report prints. *)
Definition is_report_line (line : string) : bool :=
  String.eqb line report_title || String.eqb line ready_banner ||
  String.eqb line not_ready_banner.

(** Nothing of the report is on the console. *)
Definition no_report (s : state) : Prop :=
  Forall (fun line => is_report_line line = false) (console s).

(** How often [message] was recorded as an error, or as a warning. *)
Definition error_count (message : string) (s : state) : Z :=
  Z.of_nat (count_occ string_dec (issues s) message).
Definition warning_count (message : string) (s : state) : Z :=
  Z.of_nat (count_occ string_dec (warnings s) message).

(** When [m] returns, it has raised the observation [f] by [d]. *)
Definition adds {A} (f : state -> Z) (d : Z) (m : M A) : Prop :=
  forall s a s', m s = Ok a s' -> f s' = f s + d.

(** [m] leaves the observation [f] as it was, whether it returns or raises. *)
Definition keeps {A X} (f : state -> X) (m : M A) : Prop :=
  forall v, stable (fun s => f s = v) m.

(** ** Sample environments *)

(** A project with every file in place and a build that succeeds. *)
Definition env_complete : env :=
  {| fs := list_to_map
       [ ("lib/firebase_options.dart",
          Text "static const FirebaseOptions android = FirebaseOptions(projectId: 'lca5kr3efmasxydmsi1rvyjoizifj4'); static const FirebaseOptions ios static const FirebaseOptions web static const FirebaseOptions macos static const FirebaseOptions windows");
         ("android/app/google-services.json", Text "{}");
         ("android/app/build.gradle",
          Text "apply plugin: 'com.google.gms.google-services' implementation platform('com.google.firebase:firebase-bom:32.0.0')");
         ("ios/Runner/GoogleService-Info.plist", Text "<plist/>");
         ("ios/Runner/Info.plist", Text "<key>CFBundleURLTypes</key>");
         ("web/index.html", Text "<script src='Firebase-app.js'></script>");
         ("pubspec.yaml",
          Text "firebase_core firebase_auth cloud_firestore firebase_storage firebase_messaging firebase_analytics firebase_remote_config");
         ("firestore.rules", Text "rules_version = '2';");
         ("storage.rules", Text "rules_version = '2';") ];
     flutter_build := Completed 0 "" |}.

(** An empty directory on a machine without Flutter. *)
Definition env_bare : env :=
  {| fs := ∅;
     flutter_build := BuildRaises (Exn FileNotFoundError "No such file or directory: 'flutter'") |}.

(** The options file exists but its bytes do not decode as text. *)
Definition env_undecodable : env :=
  {| fs := {[ "lib/firebase_options.dart" :=
                Unreadable (Exn UnicodeDecodeError "'utf-8' codec can't decode byte 0xff in position 0: invalid start byte") ]};
     flutter_build := Completed 0 "" |}.

(** The complete project, with a build that runs into the timeout. *)
Definition env_timeout : env :=
  {| fs := fs env_complete;
     flutter_build := BuildRaises (Exn TimeoutExpired "Command '['flutter', 'build', 'apk', '--debug']' timed out after 300 seconds") |}.

(** The complete project, with placeholder values left in the options file
    and nothing else in it. *)
Definition env_placeholder : env :=
  {| fs := <[ "lib/firebase_options.dart" :=
                Text "const projectId = 'your-project-id'; const apiKey = 'your-api-key';" ]>
           (fs env_complete);
     flutter_build := Completed 0 "" |}.

(** The lines of the report as a function of the state it is rendered from;
    [generate_report_eq] shows that [generate_report] prints exactly these
    and changes nothing else. *)
Definition report_lines (s : state) : list string :=
  [ Str.nl +:+ Str.repeat "=" 60;
    report_title;
    Str.repeat "=" 60;
    Str.nl +:+ "Total Checks: " +:+ Str.of_Z (total_checks s);
    "✅ Successful: " +:+ Str.of_Z (success_count s);
    "⚠️  Warnings: " +:+ Str.of_Z (len (warnings s));
    "❌ Issues: " +:+ Str.of_Z (len (issues s)) ] ++
  (if nonempty (issues s) then
     (Str.nl +:+ "❌ CRITICAL ISSUES TO FIX:") ::
     map (fun issue => "   • " +:+ issue) (issues s)
   else []) ++
  (if nonempty (warnings s) then
     (Str.nl +:+ "⚠️  WARNINGS TO ADDRESS:") ::
     map (fun warning => "   • " +:+ warning) (warnings s)
   else []) ++
  (if negb (nonempty (issues s)) then
     [ ready_banner;
       "   Your Firebase configuration is ready for production deployment." ]
   else
     [ not_ready_banner;
       "   Please fix the critical issues before deploying." ]) ++
  [ Str.nl +:+ Str.repeat "=" 60 ].

(** The two lines [run_all_checks] prints before the first group. *)
Definition opening_lines : list string :=
  [ "🚀 Starting Firebase Deployment Verification..."; Str.repeat "=" 60 ].

(** The complete project without [android/app/build.gradle], and without
    [ios/Runner/Info.plist]. *)
Definition env_no_build_gradle : env :=
  {| fs := delete "android/app/build.gradle" (fs env_complete);
     flutter_build := flutter_build env_complete |}.

Definition env_no_info_plist : env :=
  {| fs := delete "ios/Runner/Info.plist" (fs env_complete);
     flutter_build := flutter_build env_complete |}.

(** The environment [e] with the file [f] put at path [p]. *)
Definition with_file (p : string) (f : file) (e : env) : env :=
  {| fs := <[p := f]> (fs e); flutter_build := flutter_build e |}.

(** Two results end the same way: both return the same value, or both raise
    the same exception. *)
Definition same_outcome {A} (r1 r2 : result A) : Prop :=
  match r1, r2 with
  | Ok a _, Ok b _ => a = b
  | Raise x _, Raise y _ => x = y
  | _, _ => False
  end.

(** [m] does not look at the state: from every state it ends as it does
    from the initial one and performs as many checks. *)
Definition uniform {A} (m : M A) : Prop :=
  forall s,
    same_outcome (m s) (m init) /\
    total_checks (state_of (m s))
    = total_checks s + total_checks (state_of (m init)).

(** The number of checks [m] performs. *)
Definition checks_of {A} (m : M A) : Z := total_checks (state_of (m init)).

(** [m] and [m'] do the same from every state. *)
Definition agree {A} (m m' : M A) : Prop := forall s, m s = m' s.

(** The state [s] with [ws] as its list of warnings. *)
Definition set_warnings (ws : list string) (s : state) : state :=
  {| issues := issues s; warnings := ws; success_count := success_count s;
     total_checks := total_checks s; console := console s |}.

(** [s] is [s0] with more recorded and printed after it: both lists and the
    console of [s0] are kept as prefixes, and no count is lower. *)
Definition extends (s0 s : state) : Prop :=
  issues s0 `prefix_of` issues s /\
  warnings s0 `prefix_of` warnings s /\
  success_count s0 <= success_count s /\
  total_checks s0 <= total_checks s /\
  console s0 `prefix_of` console s.

(** The console lines that start with [mark]. *)
Definition lines_with (mark : string) (lines : list string) : list string :=
  List.filter (String.prefix mark) lines.

(** What was printed while checking agrees with what was recorded: the
    lines marked as errors are the issues, the lines marked as warnings are
    the warnings, and there are as many lines marked as successes as
    [success_count] says. *)
Definition console_agrees (s : state) : Prop :=
  lines_with "❌ " (console s) = map (String.append "❌ ") (issues s) /\
  lines_with "⚠️  " (console s) = map (String.append "⚠️  ") (warnings s) /\
  len (lines_with "✅ " (console s)) = success_count s.

(** The exception a check group meets at the path [p]: the one [exists()]
    raises or, when the group goes on to read the text of [p], the one
    [read_text] raises. *)
Definition fault_at (e : env) (reads : bool) (p : string) : option exn :=
  match fs e !! p with
  | Some (Inaccessible x) => Some x
  | Some (Unreadable x) => if reads then Some x else None
  | Some (Text _) | None => None
  end.

Definition or_else {A} (o1 o2 : option A) : option A :=
  match o1 with
  | Some x => Some x
  | None => o2
  end.

(** The first fault a check group runs into, following its calls of
    [exists()] and [read_text()] in order.  The build check has none: it
    catches whatever its subprocess raises. *)
Definition group_fault (e : env) (g : group) : option exn :=
  match g with
  | Options => fault_at e true options_path
  | Android =>
      or_else (fault_at e false google_services_path)
        (fault_at e true build_gradle_path)
  | Ios =>
      or_else (fault_at e false google_service_info_path)
        (fault_at e true info_plist_path)
  | Web => fault_at e true index_html_path
  | Dependencies => fault_at e true pubspec_path
  | SecurityRules =>
      or_else (fault_at e false firestore_rules_path)
        (fault_at e false storage_rules_path)
  | BuildStatus => None
  end.

Fixpoint first_some {A B} (f : A -> option B) (l : list A) : option B :=
  match l with
  | [] => None
  | x :: l' =>
      match f x with
      | Some y => Some y
      | None => first_some f l'
      end
  end.

(** The first fault of a run, in the order of its check groups. *)
Definition first_fault (e : env) : option exn :=
  first_some (group_fault e) all_groups.

(** The method of [FirebaseDeploymentVerifier] behind each check group. *)
Definition run_group (e : env) (g : group) : M unit :=
  match g with
  | Options => check_firebase_options e
  | Android => check_android_config e
  | Ios => check_ios_config e
  | Web => check_web_config e
  | Dependencies => check_dependencies e
  | SecurityRules => check_security_rules e
  | BuildStatus => check_build_status e
  end.

(** The complete project with [android/app] closed to the user who runs the
    script: [stat] fails on the paths below it with a permission error. *)
Definition env_no_permission : env :=
  {| fs := <[ "android/app/google-services.json" :=
                Inaccessible (Exn PermissionError "[Errno 13] Permission denied: 'android/app/google-services.json'") ]>
           (<[ "android/app/build.gradle" :=
                 Inaccessible (Exn PermissionError "[Errno 13] Permission denied: 'android/app/build.gradle'") ]>
              (fs env_complete));
     flutter_build := Completed 0 "" |}.

(** ** The issues a project must end with

    Each check group's errors as a function of the environment, in the
    order the group logs them; [run_issues_expected] shows that the issues
    of a completed run are exactly these. *)

Definition options_issues (e : env) : list string :=
  match fs e !! "lib/firebase_options.dart" with
  | None => [ "Firebase options file not found" ]
  | Some (Text content) =>
      map (fun pattern => "Found placeholder pattern: " +:+ pattern)
        (List.filter (fun pattern => Str.re_search pattern content)
           placeholder_patterns) ++
      (if Str.str_in "lca5kr3efmasxydmsi1rvyjoizifj4" content then []
       else [ "Real Firebase project ID not found" ])
  | Some (Unreadable _) | Some (Inaccessible _) => []
  end.

Definition android_issues (e : env) : list string :=
  (if present e "android/app/google-services.json" then []
   else [ "Google Services JSON: android/app/google-services.json - FILE MISSING" ]) ++
  match fs e !! "android/app/build.gradle" with
  | Some (Text content) =>
      if Str.str_in "com.google.gms.google-services" content then []
      else [ "Google Services plugin not integrated" ]
  | _ => []
  end.

Definition ios_issues (e : env) : list string :=
  if present e "ios/Runner/GoogleService-Info.plist" then []
  else [ "GoogleService-Info.plist: ios/Runner/GoogleService-Info.plist - FILE MISSING" ].

Definition dependencies_issues (e : env) : list string :=
  if present e "pubspec.yaml" then [] else [ "pubspec.yaml not found" ].

Definition build_issues (e : env) : list string :=
  match flutter_build e with
  | Completed returncode stderr =>
      if returncode =? 0 then [] else [ "Build failed: " +:+ stderr ]
  | BuildRaises x =>
      match exn_cls x with
      | TimeoutExpired => []
      | FileNotFoundError => [ "Flutter not found in PATH" ]
      | _ => [ "Build check failed: " +:+ exn_str x ]
      end
  end.

Definition expected_issues (e : env) : list string :=
  options_issues e ++ android_issues e ++ ios_issues e ++
  dependencies_issues e ++ build_issues e.

(** When [m] returns it has performed between [lo] and [hi] checks. *)
Definition checks_between {A} (lo hi : Z) (m : M A) : Prop :=
  forall s a s',
    m s = Ok a s' ->
    total_checks s + lo <= total_checks s' <= total_checks s + hi.

(** The complete project with every placeholder left in the options file. *)
Definition env_all_placeholders : env :=
  {| fs := <[ "lib/firebase_options.dart" :=
                Text "placeholder-project-id your-project-id your-app-id your-api-key example.com com.example.app lca5kr3efmasxydmsi1rvyjoizifj4" ]>
           (fs env_complete);
     flutter_build := Completed 0 "" |}.

(** ** The warnings a project must end with

    Each check group's warnings as a function of the environment, in the
    order the group logs them. *)

Definition options_warnings (e : env) : list string :=
  match fs e !! "lib/firebase_options.dart" with
  | Some (Text content) =>
      map (fun platform => Str.capitalize platform +:+ " configuration missing")
        (List.filter
           (fun platform =>
              negb (Str.str_in ("static const FirebaseOptions " +:+ platform)
                      content))
           platforms)
  | _ => []
  end.

Definition android_warnings (e : env) : list string :=
  match fs e !! "android/app/build.gradle" with
  | Some (Text content) =>
      if Str.str_in "firebase-bom" content then []
      else [ "Firebase BoM dependency missing" ]
  | _ => []
  end.

Definition ios_warnings (e : env) : list string :=
  match fs e !! "ios/Runner/Info.plist" with
  | Some (Text content) =>
      if Str.str_in "CFBundleURLTypes" content then []
      else [ "URL schemes not configured" ]
  | _ => []
  end.

Definition web_warnings (e : env) : list string :=
  match fs e !! "web/index.html" with
  | None => [ "Web index.html not found" ]
  | Some (Text content) =>
      if Str.str_in "firebase" (Str.lower content) then []
      else [ "Firebase scripts not found in index.html" ]
  | Some (Unreadable _) | Some (Inaccessible _) => []
  end.

Definition dependencies_warnings (e : env) : list string :=
  match fs e !! "pubspec.yaml" with
  | Some (Text content) =>
      map (fun package => package +:+ " dependency missing")
        (List.filter (fun package => negb (Str.str_in package content))
           firebase_packages)
  | _ => []
  end.

Definition security_warnings (e : env) : list string :=
  (if present e "firestore.rules" then []
   else [ "Firestore security rules not found" ]) ++
  (if present e "storage.rules" then []
   else [ "Storage security rules not found" ]).

Definition build_warnings (e : env) : list string :=
  match flutter_build e with
  | BuildRaises x =>
      match exn_cls x with
      | TimeoutExpired => [ "Build timed out (this is normal for first build)" ]
      | _ => []
      end
  | Completed _ _ => []
  end.

Definition expected_warnings (e : env) : list string :=
  options_warnings e ++ android_warnings e ++ ios_warnings e ++
  web_warnings e ++ dependencies_warnings e ++ security_warnings e ++
  build_warnings e.

(** * Properties *)

(** ** The monad *)

Lemma bind_Ok_inv {A B} (m : M A) (k : A -> M B) s b s' :
  bind m k s = Ok b s' -> exists a s1, m s = Ok a s1 /\ k a s1 = Ok b s'.
Proof. unfold bind. destruct (m s) as [a s1|x s1]; [eauto | discriminate]. Qed.

Lemma bind_Ok {A B} (m : M A) (k : A -> M B) s a s1 :
  m s = Ok a s1 -> bind m k s = k a s1.
Proof. unfold bind. now intros ->. Qed.

Lemma bind_Raise {A B} (m : M A) (k : A -> M B) s x s1 :
  m s = Raise x s1 -> bind m k s = Raise x s1.
Proof. unfold bind. now intros ->. Qed.

Lemma bind_ret {A B} (a : A) (k : A -> M B) : bind (ret a) k = k a.
Proof. reflexivity. Qed.

Lemma bind_raise {A B} x (k : A -> M B) : bind (raise x) k = raise x.
Proof. reflexivity. Qed.

Lemma print_eq line s : print line s = Ok tt (add_lines [line] s).
Proof. reflexivity. Qed.

(** ** The existence test *)

(** [exists()] raises on a path that cannot be examined, and on no other;
    when it answers, the answer is [present]. *)
Lemma path_exists_cases e p :
  (exists x, fs e !! p = Some (Inaccessible x) /\ path_exists e p = raise x) \/
  ((forall x, fs e !! p <> Some (Inaccessible x)) /\
   path_exists e p = ret (present e p)).
Proof.
  unfold path_exists, present.
  destruct (fs e !! p) as [[c|x|x]|]; [right|right|left|right];
    try (split; [discriminate | reflexivity]).
  now exists x.
Qed.

Lemma path_exists_accessible e p :
  (forall x, fs e !! p <> Some (Inaccessible x)) ->
  path_exists e p = ret (present e p).
Proof.
  intros Ha. destruct (path_exists_cases e p) as [(x & Hx & _)|[_ E]];
    [now destruct (Ha x) | exact E].
Qed.

Lemma path_exists_Inaccessible e p x :
  fs e !! p = Some (Inaccessible x) -> path_exists e p = raise x.
Proof. unfold path_exists. now intros ->. Qed.

(** The answer of [exists()], when it gives one. *)
Lemma path_exists_Ok e p s b s' :
  path_exists e p s = Ok b s' ->
  s' = s /\ b = present e p /\ forall x, fs e !! p <> Some (Inaccessible x).
Proof.
  unfold path_exists, present.
  destruct (fs e !! p) as [[c|x|x]|]; intros H; try discriminate H;
    injection H as <- <-; repeat split; discriminate.
Qed.

Lemma for_each_print {A} (f : A -> string) l s :
  for_each l (fun x => print (f x)) s = Ok tt (add_lines (map f l) s).
Proof.
  revert s. induction l as [|x l IH]; intros s; cbn [for_each map].
  - unfold ret, add_lines. destruct s; cbn. now rewrite app_nil_r.
  - unfold bind. rewrite print_eq, IH. unfold add_lines; cbn.
    now rewrite <- app_assoc.
Qed.

(** ** Invariants carried through a computation *)

Section Stable.
Context (I : state -> Prop).

Lemma stable_ret {A} (a : A) : stable I (ret a).
Proof. now intros s. Qed.

Lemma stable_raise {A} x : stable I (@raise A x).
Proof. now intros s. Qed.

Lemma stable_get : stable I get.
Proof. now intros s. Qed.

Lemma stable_bind {A B} (m : M A) (k : A -> M B) :
  stable I m -> (forall a, stable I (k a)) -> stable I (bind m k).
Proof.
  intros Hm Hk s Hs. unfold bind. specialize (Hm s Hs).
  destruct (m s) as [a s1|x s1]; cbn in *; [now apply Hk | assumption].
Qed.

Lemma stable_if {A} (c : bool) (m1 m2 : M A) :
  stable I m1 -> stable I m2 -> stable I (if c then m1 else m2).
Proof. now destruct c. Qed.

Lemma stable_for_each {A} (l : list A) body :
  (forall x, In x l -> stable I (body x)) -> stable I (for_each l body).
Proof.
  induction l as [|x l IH]; intros Hb; cbn.
  - apply stable_ret.
  - apply stable_bind; [apply Hb; now left | intros _; apply IH].
    intros y Hy. apply Hb. now right.
Qed.

Lemma stable_try_except {A} (body : M A) handler :
  stable I body ->
  (forall x, match handler x with Some h => stable I h | None => True end) ->
  stable I (try_except body handler).
Proof.
  intros Hb Hh s Hs. unfold try_except. specialize (Hb s Hs).
  destruct (body s) as [a s1|x s1]; cbn in *; [assumption|].
  specialize (Hh x). destruct (handler x) as [h|]; [now apply Hh | assumption].
Qed.

Lemma stable_path_exists e p : stable I (path_exists e p).
Proof.
  unfold path_exists. destruct (fs e !! p) as [[c|x|x]|];
    first [apply stable_ret | apply stable_raise].
Qed.

Lemma stable_read_text e p : stable I (read_text e p).
Proof.
  unfold read_text. destruct (fs e !! p) as [[c|x|x]|];
    first [apply stable_ret | apply stable_raise].
Qed.

Lemma stable_subprocess_run e : stable I (subprocess_run e).
Proof.
  unfold subprocess_run.
  destruct (flutter_build e); [apply stable_ret | apply stable_raise].
Qed.

Lemma stable_check_file_exists e p d :
  stable I (log_success (d +:+ ": " +:+ p)) ->
  stable I (log_error (d +:+ ": " +:+ p +:+ " - FILE MISSING")) ->
  stable I (check_file_exists e p d).
Proof.
  intros Hs He. unfold check_file_exists.
  apply stable_bind; [apply stable_path_exists | intros found].
  apply stable_if; (apply stable_bind; [assumption | intros _; apply stable_ret]).
Qed.
End Stable.

(** Splits a goal [stable I m] along the structure of [m], down to the
    [print] and [log_*] calls. *)
Ltac stable_split :=
  repeat match goal with
    | |- stable _ (ret _) => apply stable_ret
    | |- stable _ (raise _) => apply stable_raise
    | |- stable _ get => apply stable_get
    | |- stable _ (path_exists _ _) => apply stable_path_exists
    | |- stable _ (read_text _ _) => apply stable_read_text
    | |- stable _ (subprocess_run _) => apply stable_subprocess_run
    | |- stable _ (check_file_exists _ _ _) => apply stable_check_file_exists
    | |- stable _ (if _ then _ else _) => apply stable_if
    | |- stable _ (bind _ _) => apply stable_bind; [| intros ?]
    | |- stable _ (try_except _ _) =>
        apply stable_try_except;
        [| let x := fresh "x" in intros x; destruct (exn_cls x)]
    | |- stable _ (for_each _ _) => apply stable_for_each; intros ? ?
    | |- stable _ (let '(_, _) := ?r in _) => destruct r
    end.

Ltac unfold_groups :=
  unfold check_firebase_options, check_android_config, check_ios_config,
    check_web_config, check_dependencies, check_security_rules,
    check_build_status, generate_report.

Lemma counted_stable_groups e :
  stable counted (check_firebase_options e) /\
  stable counted (check_android_config e) /\
  stable counted (check_ios_config e) /\
  stable counted (check_web_config e) /\
  stable counted (check_dependencies e) /\
  stable counted (check_security_rules e) /\
  stable counted (check_build_status e).
Proof.
  repeat split; unfold_groups; stable_split.
  all: intros ? ?; unfold counted, len in *; cbn; rewrite ?length_app; cbn; lia.
Qed.

(** ** The report *)

(** Membership of a line in an explicit list of lines. *)
Ltac in_lines_refute H :=
  repeat (cbn [In] in H || rewrite in_app_iff in H);
  repeat (destruct H as [H|H]);
  try contradiction;
  try (apply in_map_iff in H; destruct H as [? [H _]]);
  cbn in H; discriminate H.

Ltac in_lines_find :=
  repeat (cbn [In] || rewrite in_app_iff);
  repeat first [left; reflexivity | right].

Lemma generate_report_eq s :
  generate_report s = Ok tt (add_lines (report_lines s) s).
Proof.
  unfold generate_report, report_lines, report_title, ready_banner,
    not_ready_banner.
  destruct s as [iss ws sc tc con].
  destruct iss as [|i iss]; destruct ws as [|w ws];
    unfold bind, get; cbn -[Str.of_Z Str.repeat Str.nl for_each String.append];
    rewrite ?for_each_print;
    cbn -[Str.of_Z Str.repeat Str.nl for_each String.append];
    rewrite ?for_each_print;
    cbn -[Str.of_Z Str.repeat Str.nl for_each String.append];
    rewrite ?print_eq;
    unfold add_lines; cbn [issues warnings success_count total_checks console];
    rewrite <- ?app_assoc; reflexivity.
Qed.

Lemma report_lines_ready s : In ready_banner (report_lines s) <-> issues s = [].
Proof.
  unfold report_lines, report_title, ready_banner, not_ready_banner.
  destruct (issues s) as [|i iss]; destruct (warnings s) as [|w ws];
    cbn [nonempty negb app];
    (split; intros H;
     [ first [reflexivity | exfalso; in_lines_refute H]
     | first [discriminate H | in_lines_find] ]).
Qed.

Lemma report_lines_not_ready s :
  In not_ready_banner (report_lines s) <-> issues s <> [].
Proof.
  unfold report_lines, report_title, ready_banner, not_ready_banner.
  destruct (issues s) as [|i iss]; destruct (warnings s) as [|w ws];
    cbn [nonempty negb app];
    (split; intros H;
     [ first [discriminate | exfalso; in_lines_refute H]
     | first [exfalso; now apply H | in_lines_find] ]).
Qed.

Lemma report_lines_title s : In report_title (report_lines s).
Proof. unfold report_lines. right; left; reflexivity. Qed.

Lemma generate_report_lines s :
  exists lines,
    generate_report s = Ok tt (add_lines lines s) /\
    (In ready_banner lines <-> issues s = []) /\
    (In not_ready_banner lines <-> issues s <> []).
Proof.
  exists (report_lines s).
  split; [apply generate_report_eq|].
  split; [apply report_lines_ready | apply report_lines_not_ready].
Qed.

(** ** The run *)

Lemma add_lines_add_lines l1 l2 s :
  add_lines l2 (add_lines l1 s) = add_lines (l1 ++ l2) s.
Proof. unfold add_lines; cbn. now rewrite app_assoc. Qed.

Lemma run_all_checks_Ok_inv e s b s' :
  run_all_checks e s = Ok b s' ->
  b = (len (issues s') =? 0) /\
  exists s1 s2 s3 s4 s5 s6 s7, run_through e s s1 s2 s3 s4 s5 s6 s7 s'.
Proof.
  unfold run_all_checks. intros H.
  apply bind_Ok_inv in H as ([] & t0 & H0 & H).
  apply bind_Ok_inv in H as ([] & t1 & H1 & H).
  apply bind_Ok_inv in H as ([] & s1 & G1 & H).
  apply bind_Ok_inv in H as ([] & s2 & G2 & H).
  apply bind_Ok_inv in H as ([] & s3 & G3 & H).
  apply bind_Ok_inv in H as ([] & s4 & G4 & H).
  apply bind_Ok_inv in H as ([] & s5 & G5 & H).
  apply bind_Ok_inv in H as ([] & s6 & G6 & H).
  apply bind_Ok_inv in H as ([] & s7 & G7 & H).
  apply bind_Ok_inv in H as ([] & s8 & G8 & H).
  unfold bind, get, ret in H. injection H as <- <-.
  split; [reflexivity|].
  exists s1, s2, s3, s4, s5, s6, s7. unfold run_through.
  rewrite print_eq in H0. injection H0 as <-.
  rewrite print_eq in H1. injection H1 as <-.
  rewrite add_lines_add_lines in G1.
  repeat split; assumption.
Qed.

Lemma len_zero_iff {A} (l : list A) : (len l =? 0) = true <-> l = [].
Proof.
  unfold len. destruct l; cbn; [tauto|].
  split; [intros H; apply Z.eqb_eq in H; lia | discriminate].
Qed.

(** ** Computations that return *)

Lemma returns_ret {A} (a : A) : returns (ret a).
Proof. intros s. now exists a, s. Qed.

Lemma returns_bind {A B} (m : M A) (k : A -> M B) :
  returns m -> (forall a, returns (k a)) -> returns (bind m k).
Proof.
  intros Hm Hk s. destruct (Hm s) as (a & s1 & E).
  rewrite (bind_Ok _ _ _ _ _ E). apply Hk.
Qed.

Lemma returns_if {A} (c : bool) (m1 m2 : M A) :
  returns m1 -> returns m2 -> returns (if c then m1 else m2).
Proof. now destruct c. Qed.

Lemma returns_for_each {A} (l : list A) body :
  (forall x, returns (body x)) -> returns (for_each l body).
Proof.
  intros Hb. induction l as [|x l IH]; cbn [for_each].
  - apply returns_ret.
  - apply returns_bind; [apply Hb | intros _; apply IH].
Qed.

Lemma returns_print line : returns (print line).
Proof. intros s. now eexists _, _. Qed.

Lemma returns_log_success message : returns (log_success message).
Proof. intros s. now eexists _, _. Qed.

Lemma returns_log_warning message : returns (log_warning message).
Proof. intros s. now eexists _, _. Qed.

Lemma returns_log_error message : returns (log_error message).
Proof. intros s. now eexists _, _. Qed.

Lemma returns_path_exists e p :
  (forall x, fs e !! p <> Some (Inaccessible x)) -> returns (path_exists e p).
Proof.
  intros Ha s. rewrite (path_exists_accessible _ _ Ha). now eexists _, _.
Qed.

Lemma returns_check_file_exists e p d :
  (forall x, fs e !! p <> Some (Inaccessible x)) ->
  returns (check_file_exists e p d).
Proof.
  intros Ha. unfold check_file_exists.
  apply returns_bind; [now apply returns_path_exists | intros found].
  apply returns_if; (apply returns_bind; [| intros _; apply returns_ret]).
  - apply returns_log_success.
  - apply returns_log_error.
Qed.

(** A handler for every exception makes [try] return whatever the body does. *)
Lemma returns_try_except {A} (body : M A) handler :
  (forall x, exists h, handler x = Some h /\ returns h) ->
  returns (try_except body handler).
Proof.
  intros Hh s. unfold try_except.
  destruct (body s) as [a s1|x s1]; [now exists a, s1|].
  destruct (Hh x) as (h & -> & Hr). apply Hr.
Qed.

Lemma returns_generate_report : returns generate_report.
Proof.
  intros s. destruct (generate_report_lines s) as (lines & E & _).
  rewrite E. now eexists _, _.
Qed.

Ltac returns_split :=
  repeat first
    [ apply returns_ret
    | apply returns_print
    | apply returns_log_success
    | apply returns_log_warning
    | apply returns_log_error
    | apply returns_generate_report
    | apply returns_if
    | apply returns_for_each; intros ?
    | apply returns_bind; [| intros ?] ].

Lemma readable_accessible e p :
  readable e -> In p probed_paths ->
  forall x, fs e !! p <> Some (Inaccessible x).
Proof. intros [Ha _] Hp x. now apply Ha. Qed.

(** On a path that is there and readable, [read_text] gives its text. *)
Lemma read_text_readable e p :
  readable e -> In p read_paths -> present e p = true ->
  exists content, fs e !! p = Some (Text content) /\ read_text e p = ret content.
Proof.
  intros [_ Hr] Hp. unfold present, read_text. specialize (Hr p).
  destruct (fs e !! p) as [[c|x|x]|]; intros Hx.
  - now exists c.
  - now destruct (Hr x Hp).
  - discriminate.
  - discriminate.
Qed.

Lemma read_text_absent e p :
  fs e !! p = None -> path_exists e p = ret false.
Proof. unfold path_exists. now intros ->. Qed.

Lemma read_text_Text e p content :
  fs e !! p = Some (Text content) ->
  path_exists e p = ret true /\ read_text e p = ret content.
Proof. unfold path_exists, read_text. now intros ->. Qed.

(** In a goal [returns (found <- path_exists e p ;; ...)] over a readable
    project: the two answers of [exists()], with the text of the file when
    it is there. *)
Ltac read_file e p :=
  let E := fresh "E" in
  rewrite (path_exists_accessible e p)
    by (apply readable_accessible; [assumption | cbn; tauto]);
  rewrite bind_ret; cbv beta;
  destruct (present e p) eqn:E; cbn [negb];
  [ let c := fresh "content" in
    let Hc := fresh "Hc" in
    let Hf := fresh "Hf" in
    destruct (read_text_readable e p) as (c & Hf & Hc);
    [ assumption | cbn; tauto | assumption | rewrite Hc ]
  | ].

Ltac probe_file e p :=
  rewrite (path_exists_accessible e p)
    by (apply readable_accessible; [assumption | cbn; tauto]);
  rewrite bind_ret; cbv beta.

Lemma returns_check_firebase_options e :
  readable e -> returns (check_firebase_options e).
Proof.
  intros Hr. unfold check_firebase_options.
  apply returns_bind; [apply returns_print | intros _].
  change (project_root </> "lib" </> "firebase_options.dart") with options_path.
  read_file e options_path; returns_split.
Qed.

Lemma returns_check_android_config e :
  readable e -> returns (check_android_config e).
Proof.
  intros Hr. unfold check_android_config.
  apply returns_bind; [apply returns_print | intros _].
  apply returns_bind; [| intros _].
  { apply returns_check_file_exists.
    apply (readable_accessible e google_services_path Hr). cbn; tauto. }
  change (project_root </> "android" </> "app" </> "build.gradle")
    with build_gradle_path.
  read_file e build_gradle_path; returns_split.
Qed.

Lemma returns_check_ios_config e :
  readable e -> returns (check_ios_config e).
Proof.
  intros Hr. unfold check_ios_config.
  apply returns_bind; [apply returns_print | intros _].
  apply returns_bind; [| intros _].
  { apply returns_check_file_exists.
    apply (readable_accessible e google_service_info_path Hr). cbn; tauto. }
  change (project_root </> "ios" </> "Runner" </> "Info.plist")
    with info_plist_path.
  read_file e info_plist_path; returns_split.
Qed.

Lemma returns_check_web_config e :
  readable e -> returns (check_web_config e).
Proof.
  intros Hr. unfold check_web_config.
  apply returns_bind; [apply returns_print | intros _].
  change (project_root </> "web" </> "index.html") with index_html_path.
  read_file e index_html_path; returns_split.
Qed.

Lemma returns_check_dependencies e :
  readable e -> returns (check_dependencies e).
Proof.
  intros Hr. unfold check_dependencies.
  apply returns_bind; [apply returns_print | intros _].
  change (project_root </> "pubspec.yaml") with pubspec_path.
  read_file e pubspec_path; returns_split.
Qed.

Lemma returns_check_security_rules e :
  readable e -> returns (check_security_rules e).
Proof.
  intros Hr. unfold check_security_rules.
  apply returns_bind; [apply returns_print | intros _].
  change (project_root </> "firestore.rules") with firestore_rules_path.
  change (project_root </> "storage.rules") with storage_rules_path.
  probe_file e firestore_rules_path. probe_file e storage_rules_path.
  returns_split.
Qed.

(** Whatever [subprocess.run] does, the build check returns. *)
Lemma returns_check_build_status e : returns (check_build_status e).
Proof.
  unfold check_build_status.
  apply returns_bind; [apply returns_print | intros _].
  apply returns_try_except. intros x.
  destruct (exn_cls x); eexists; (split; [reflexivity|]); returns_split.
Qed.

Lemma returns_run_all_checks e : readable e -> returns (run_all_checks e).
Proof.
  intros Hr. unfold run_all_checks.
  apply returns_bind; [apply returns_print | intros _].
  apply returns_bind; [apply returns_print | intros _].
  apply returns_bind; [now apply returns_check_firebase_options | intros _].
  apply returns_bind; [now apply returns_check_android_config | intros _].
  apply returns_bind; [now apply returns_check_ios_config | intros _].
  apply returns_bind; [now apply returns_check_web_config | intros _].
  apply returns_bind; [now apply returns_check_dependencies | intros _].
  apply returns_bind; [now apply returns_check_security_rules | intros _].
  apply returns_bind; [apply returns_check_build_status | intros _].
  apply returns_bind; [apply returns_generate_report | intros _].
  intros s. now eexists _, _.
Qed.

(** ** What the record operations do to the counts of one message *)

Lemma error_count_log_error message m s :
  m <> message ->
  error_count message (state_of (log_error m s)) = error_count message s.
Proof.
  intros Hne. unfold error_count; cbn. rewrite count_occ_app; cbn.
  destruct (string_dec m message); [contradiction | lia].
Qed.

Lemma error_count_log_error_same message s :
  error_count message (state_of (log_error message s)) =
  error_count message s + 1.
Proof.
  unfold error_count; cbn. rewrite count_occ_app; cbn.
  destruct (string_dec message message); [lia | contradiction].
Qed.

Lemma warning_count_log_warning message m s :
  m <> message ->
  warning_count message (state_of (log_warning m s)) = warning_count message s.
Proof.
  intros Hne. unfold warning_count; cbn. rewrite count_occ_app; cbn.
  destruct (string_dec m message); [contradiction | lia].
Qed.

Lemma warning_count_log_warning_same message s :
  warning_count message (state_of (log_warning message s)) =
  warning_count message s + 1.
Proof.
  unfold warning_count; cbn. rewrite count_occ_app; cbn.
  destruct (string_dec message message); [lia | contradiction].
Qed.

(** Closes [stable (fun s => error_count msg s = n) (print _ / log_* _)]
    when the message logged differs from [msg] on its face. *)
Ltac stable_error_count :=
  let s := fresh "s" in
  let Hs := fresh "Hs" in
  intros s Hs;
  first
    [ exact Hs
    | rewrite error_count_log_error; [exact Hs | cbn; discriminate] ].

Ltac stable_warning_count :=
  let s := fresh "s" in
  let Hs := fresh "Hs" in
  intros s Hs;
  first
    [ exact Hs
    | rewrite warning_count_log_warning; [exact Hs | cbn; discriminate] ].

Ltac unroll_lists :=
  unfold placeholder_patterns, platforms, firebase_packages;
  cbn [for_each].


Lemma stable_Ok {A} (I : state -> Prop) (m : M A) s a s' :
  stable I m -> m s = Ok a s' -> I s -> I s'.
Proof. intros Hm E Hs. specialize (Hm s Hs). now rewrite E in Hm. Qed.

(** ** The report is printed by [generate_report] only *)

Ltac stable_no_report :=
  let s := fresh "s" in
  let Hs := fresh "Hs" in
  intros s Hs; unfold no_report in *; cbn;
  apply Forall_app; split; [exact Hs | repeat constructor].

Lemma no_report_groups e :
  stable no_report (check_firebase_options e) /\
  stable no_report (check_android_config e) /\
  stable no_report (check_ios_config e) /\
  stable no_report (check_web_config e) /\
  stable no_report (check_dependencies e) /\
  stable no_report (check_security_rules e) /\
  stable no_report (check_build_status e).
Proof.
  repeat split; unfold_groups; unroll_lists; stable_split; stable_no_report.
Qed.

Lemma no_report_before_report e s1 s2 s3 s4 s5 s6 s7 s' :
  run_through e init s1 s2 s3 s4 s5 s6 s7 s' -> no_report s7.
Proof.
  intros (G1 & G2 & G3 & G4 & G5 & G6 & G7 & _).
  destruct (no_report_groups e) as (H1 & H2 & H3 & H4 & H5 & H6 & H7).
  eapply stable_Ok; [exact H7 | exact G7 |].
  eapply stable_Ok; [exact H6 | exact G6 |].
  eapply stable_Ok; [exact H5 | exact G5 |].
  eapply stable_Ok; [exact H4 | exact G4 |].
  eapply stable_Ok; [exact H3 | exact G3 |].
  eapply stable_Ok; [exact H2 | exact G2 |].
  eapply stable_Ok; [exact H1 | exact G1 |].
  unfold no_report; cbn. repeat constructor.
Qed.

Lemma no_report_not_In line s :
  no_report s -> is_report_line line = true -> ~ In line (console s).
Proof.
  unfold no_report. rewrite List.Forall_forall. intros H Hl Hin.
  specialize (H _ Hin). congruence.
Qed.

(** ** Observations raised by a computation *)

Lemma adds_keeps {A} (f : state -> Z) (m : M A) : keeps f m -> adds f 0 m.
Proof.
  intros Hk s a s' E. rewrite Z.add_0_r.
  exact (stable_Ok _ _ _ _ _ (Hk (f s)) E eq_refl).
Qed.

Lemma adds_bind {A B} (f : state -> Z) d1 d2 d (m : M A) (k : A -> M B) :
  adds f d1 m -> (forall a, adds f d2 (k a)) -> d = d1 + d2 ->
  adds f d (bind m k).
Proof.
  intros Hm Hk -> s b s' E.
  apply bind_Ok_inv in E as (a & s1 & E1 & E2).
  rewrite (Hk _ _ _ _ E2), (Hm _ _ _ E1). lia.
Qed.

Lemma adds_if {A} (f : state -> Z) d (c : bool) (m1 m2 : M A) :
  adds f d m1 -> adds f d m2 -> adds f d (if c then m1 else m2).
Proof. now destruct c. Qed.

Lemma adds_ret {A} (f : state -> Z) (a : A) : adds f 0 (ret a).
Proof. intros s b s' E. injection E as _ <-. lia. Qed.

Lemma adds_log_warning_same message :
  adds (warning_count message) 1 (log_warning message).
Proof.
  intros s a s' E. injection E as _ <-.
  apply (warning_count_log_warning_same message s).
Qed.

Lemma adds_total_log_success message : adds total_checks 1 (log_success message).
Proof. intros s a s' E. now injection E as _ <-. Qed.

Lemma adds_total_log_warning message : adds total_checks 1 (log_warning message).
Proof. intros s a s' E. now injection E as _ <-. Qed.

Lemma adds_total_log_error message : adds total_checks 1 (log_error message).
Proof. intros s a s' E. now injection E as _ <-. Qed.

Lemma adds_total_print line : adds total_checks 0 (print line).
Proof. intros s a s' E. injection E as _ <-. cbn. lia. Qed.

Lemma adds_path_exists (f : state -> Z) e p : adds f 0 (path_exists e p).
Proof. intros s a s' E. apply path_exists_Ok in E as [-> _]. lia. Qed.

Lemma adds_total_check_file_exists e p d :
  adds total_checks 1 (check_file_exists e p d).
Proof.
  unfold check_file_exists.
  apply (adds_bind _ 0 1 1); [apply adds_path_exists | intros found | reflexivity].
  apply adds_if.
  - eapply adds_bind;
      [apply adds_total_log_success | intros _; apply adds_ret | reflexivity].
  - eapply adds_bind;
      [apply adds_total_log_error | intros _; apply adds_ret | reflexivity].
Qed.

(** A completed run raises an observation that the report leaves alone by
    what its seven groups raise it by. *)
Lemma run_through_adds (f : state -> Z) d1 d2 d3 d4 d5 d6 d7
    e s s1 s2 s3 s4 s5 s6 s7 s' :
  run_through e s s1 s2 s3 s4 s5 s6 s7 s' ->
  (forall lines t, f (add_lines lines t) = f t) ->
  adds f d1 (check_firebase_options e) ->
  adds f d2 (check_android_config e) ->
  adds f d3 (check_ios_config e) ->
  adds f d4 (check_web_config e) ->
  adds f d5 (check_dependencies e) ->
  adds f d6 (check_security_rules e) ->
  adds f d7 (check_build_status e) ->
  f s' = f s + d1 + d2 + d3 + d4 + d5 + d6 + d7.
Proof.
  intros (G1 & G2 & G3 & G4 & G5 & G6 & G7 & G8) Hf H1 H2 H3 H4 H5 H6 H7.
  destruct (generate_report_lines s7) as (lines & E & _).
  rewrite E in G8. injection G8 as <-. rewrite Hf.
  rewrite (H7 _ _ _ G7), (H6 _ _ _ G6), (H5 _ _ _ G5), (H4 _ _ _ G4),
    (H3 _ _ _ G3), (H2 _ _ _ G2), (H1 _ _ _ G1), Hf.
  reflexivity.
Qed.

(** ** What a group does when a file it looks for is absent *)

Lemma check_file_exists_absent e p d s :
  fs e !! p = None ->
  check_file_exists e p d s =
  Ok false (state_of (log_error (d +:+ ": " +:+ p +:+ " - FILE MISSING") s)).
Proof.
  intros Hp. unfold check_file_exists.
  replace (project_root </> p) with p by (now destruct p).
  now rewrite (read_text_absent _ _ Hp).
Qed.

Lemma check_firebase_options_absent e s :
  fs e !! options_path = None ->
  check_firebase_options e s =
  log_error "Firebase options file not found" (add_lines [header Options] s).
Proof.
  intros Hp. unfold check_firebase_options.
  rewrite (bind_Ok _ _ _ _ _ (print_eq _ _)).
  change (project_root </> "lib" </> "firebase_options.dart") with options_path.
  now rewrite (read_text_absent _ _ Hp).
Qed.

Lemma check_dependencies_absent e s :
  fs e !! pubspec_path = None ->
  check_dependencies e s =
  log_error "pubspec.yaml not found" (add_lines [header Dependencies] s).
Proof.
  intros Hp. unfold check_dependencies.
  rewrite (bind_Ok _ _ _ _ _ (print_eq _ _)).
  change (project_root </> "pubspec.yaml") with pubspec_path.
  now rewrite (read_text_absent _ _ Hp).
Qed.

Lemma check_web_config_absent e s :
  fs e !! index_html_path = None ->
  check_web_config e s =
  log_warning "Web index.html not found" (add_lines [header Web] s).
Proof.
  intros Hp. unfold check_web_config.
  rewrite (bind_Ok _ _ _ _ _ (print_eq _ _)).
  change (project_root </> "web" </> "index.html") with index_html_path.
  now rewrite (read_text_absent _ _ Hp).
Qed.

Lemma check_android_config_absent e s :
  fs e !! build_gradle_path = None ->
  check_android_config e s =
  (check_file_exists e "android/app/google-services.json"
     "Google Services JSON" ;; ret tt) (add_lines [header Android] s).
Proof.
  intros Hp. unfold check_android_config.
  rewrite (bind_Ok _ _ _ _ _ (print_eq _ _)).
  change (project_root </> "android" </> "app" </> "build.gradle")
    with build_gradle_path.
  now rewrite (read_text_absent _ _ Hp).
Qed.

Lemma check_ios_config_absent e s :
  fs e !! info_plist_path = None ->
  check_ios_config e s =
  (check_file_exists e "ios/Runner/GoogleService-Info.plist"
     "GoogleService-Info.plist" ;; ret tt) (add_lines [header Ios] s).
Proof.
  intros Hp. unfold check_ios_config.
  rewrite (bind_Ok _ _ _ _ _ (print_eq _ _)).
  change (project_root </> "ios" </> "Runner" </> "Info.plist")
    with info_plist_path.
  now rewrite (read_text_absent _ _ Hp).
Qed.

(** ** The build check, case by case *)

Lemma check_build_status_cases e s :
  check_build_status e s =
  match flutter_build e with
  | Completed returncode stderr =>
      if returncode =? 0 then log_success "App builds successfully"
      else log_error ("Build failed: " +:+ stderr)
  | BuildRaises x =>
      match exn_cls x with
      | TimeoutExpired =>
          log_warning "Build timed out (this is normal for first build)"
      | FileNotFoundError => log_error "Flutter not found in PATH"
      | _ => log_error ("Build check failed: " +:+ exn_str x)
      end
  end (add_lines [header BuildStatus] s).
Proof.
  unfold check_build_status, try_except, subprocess_run.
  rewrite (bind_Ok _ _ _ _ _ (print_eq _ _)).
  destruct (flutter_build e) as [rc err|x]; cbn.
  - destruct (rc =? 0); reflexivity.
  - destruct (exn_cls x); reflexivity.
Qed.

(** ** A missing mandatory file is recorded once *)

Ltac keeps_error_count :=
  apply adds_keeps; intros ?; unfold_groups; unroll_lists; stable_split;
  stable_error_count.

Ltac keeps_warning_count :=
  apply adds_keeps; intros ?; unfold_groups; unroll_lists; stable_split;
  stable_warning_count.

Lemma adds_error_check_file_exists_absent e p d :
  fs e !! p = None ->
  adds (error_count (d +:+ ": " +:+ p +:+ " - FILE MISSING")) 1
    (check_file_exists e p d).
Proof.
  intros Hp s a s' E. rewrite (check_file_exists_absent _ _ _ _ Hp) in E.
  injection E as _ <-. apply error_count_log_error_same.
Qed.

Lemma options_missing_once e b s' :
  fs e !! options_path = None ->
  run_all_checks e init = Ok b s' ->
  error_count "Firebase options file not found" s' = 1.
Proof.
  intros Hp H.
  apply run_all_checks_Ok_inv in H as (_ & s1 & s2 & s3 & s4 & s5 & s6 & s7 & H).
  rewrite (run_through_adds _ 1 0 0 0 0 0 0 _ _ _ _ _ _ _ _ _ _ H);
    [reflexivity | reflexivity | | | | | | | ]; try keeps_error_count.
  intros s a t E. rewrite (check_firebase_options_absent _ _ Hp) in E.
  injection E as _ <-. apply error_count_log_error_same.
Qed.

Lemma google_services_json_missing_once e b s' :
  fs e !! "android/app/google-services.json" = None ->
  run_all_checks e init = Ok b s' ->
  error_count
    "Google Services JSON: android/app/google-services.json - FILE MISSING" s'
  = 1.
Proof.
  intros Hp H.
  apply run_all_checks_Ok_inv in H as (_ & s1 & s2 & s3 & s4 & s5 & s6 & s7 & H).
  rewrite (run_through_adds _ 0 1 0 0 0 0 0 _ _ _ _ _ _ _ _ _ _ H);
    [reflexivity | reflexivity | | | | | | | ]; try keeps_error_count.
  unfold check_android_config.
  eapply adds_bind; [keeps_error_count | intros _ | reflexivity].
  eapply adds_bind;
    [ apply (adds_error_check_file_exists_absent _ _ "Google Services JSON" Hp)
    | intros _; keeps_error_count | reflexivity ].
Qed.

Lemma google_service_info_plist_missing_once e b s' :
  fs e !! "ios/Runner/GoogleService-Info.plist" = None ->
  run_all_checks e init = Ok b s' ->
  error_count
    "GoogleService-Info.plist: ios/Runner/GoogleService-Info.plist - FILE MISSING"
    s' = 1.
Proof.
  intros Hp H.
  apply run_all_checks_Ok_inv in H as (_ & s1 & s2 & s3 & s4 & s5 & s6 & s7 & H).
  rewrite (run_through_adds _ 0 0 1 0 0 0 0 _ _ _ _ _ _ _ _ _ _ H);
    [reflexivity | reflexivity | | | | | | | ]; try keeps_error_count.
  unfold check_ios_config.
  eapply adds_bind; [keeps_error_count | intros _ | reflexivity].
  eapply adds_bind;
    [ apply (adds_error_check_file_exists_absent _ _ "GoogleService-Info.plist" Hp)
    | intros _; keeps_error_count | reflexivity ].
Qed.

Lemma pubspec_missing_once e b s' :
  fs e !! pubspec_path = None ->
  run_all_checks e init = Ok b s' ->
  error_count "pubspec.yaml not found" s' = 1.
Proof.
  intros Hp H.
  apply run_all_checks_Ok_inv in H as (_ & s1 & s2 & s3 & s4 & s5 & s6 & s7 & H).
  rewrite (run_through_adds _ 0 0 0 0 1 0 0 _ _ _ _ _ _ _ _ _ _ H);
    [reflexivity | reflexivity | | | | | | | ]; try keeps_error_count.
  intros s a t E. rewrite (check_dependencies_absent _ _ Hp) in E.
  injection E as _ <-. apply error_count_log_error_same.
Qed.

(** ** Substrings *)

Lemma prefix_app s t : String.prefix s (s +:+ t) = true.
Proof.
  induction s as [|c s IH]; simpl; [now destruct t|].
  destruct (ascii_dec c c); [exact IH | contradiction].
Qed.

Lemma str_in_prefix sub s : String.prefix sub s = true -> Str.str_in sub s = true.
Proof. intros H. destruct s; simpl in *; now rewrite H. Qed.

(** [sub in pre + sub + post] *)
Lemma str_in_app pre sub post : Str.str_in sub (pre +:+ sub +:+ post) = true.
Proof.
  induction pre as [|c pre IH].
  - change ("" +:+ sub +:+ post) with (sub +:+ post).
    apply str_in_prefix, prefix_app.
  - change (String c pre +:+ sub +:+ post) with (String c (pre +:+ sub +:+ post)).
    cbn [Str.str_in]. rewrite IH. apply orb_true_r.
Qed.

(** The message of [check_file_exists] for a missing file holds both the
    description and the path it was given. *)
Lemma file_missing_message_mentions file_path description :
  let message := description +:+ ": " +:+ file_path +:+ " - FILE MISSING" in
  Str.str_in description message = true /\ Str.str_in file_path message = true.
Proof.
  cbn zeta. split.
  - apply (str_in_app "" description).
  - induction description as [|c d IH].
    + apply (str_in_app ": " file_path).
    + change (String c d +:+ ?x) with (String c (d +:+ x)).
      cbn [Str.str_in]. rewrite IH. apply orb_true_r.
Qed.

(** ** The loops of the check groups *)

Lemma log_error_Ok message s :
  log_error message s = Ok tt (state_of (log_error message s)).
Proof. reflexivity. Qed.

Lemma log_warning_Ok message s :
  log_warning message s = Ok tt (state_of (log_warning message s)).
Proof. reflexivity. Qed.

Lemma log_success_Ok message s :
  log_success message s = Ok tt (state_of (log_success message s)).
Proof. reflexivity. Qed.

Lemma for_each_cond_error (c : string -> bool) (f : string -> string) l s :
  exists s',
    for_each l (fun x => if c x then log_error (f x) else ret tt) s = Ok tt s' /\
    issues s' = issues s ++ map f (List.filter c l) /\
    warnings s' = warnings s /\
    success_count s' = success_count s /\
    total_checks s' = total_checks s + len (List.filter c l).
Proof.
  revert s. induction l as [|x l IH]; intros s; cbn [for_each List.filter].
  - exists s. unfold len; cbn. rewrite app_nil_r. repeat split; lia.
  - destruct (c x).
    + destruct (IH (state_of (log_error (f x) s))) as (s' & E & Hi & Hw & Hs & Ht).
      exists s'. rewrite (bind_Ok _ _ _ _ _ (log_error_Ok _ _)), E.
      cbn in Hi, Hw, Hs, Ht. rewrite Hi, Hw, Hs, Ht.
      rewrite <- app_assoc. unfold len; cbn [length map app]. repeat split; lia.
    + destruct (IH s) as (s' & E & Hi & Hw & Hs & Ht).
      exists s'. rewrite (bind_Ok (ret tt) _ s tt s eq_refl), E. tauto.
Qed.

Lemma for_each_success_or_warning (c : string -> bool) (f g : string -> string) l s :
  exists s',
    for_each l (fun x => if c x then log_success (f x) else log_warning (g x)) s
    = Ok tt s' /\
    issues s' = issues s /\
    warnings s' = warnings s ++ map g (List.filter (fun x => negb (c x)) l) /\
    success_count s' = success_count s + len (List.filter c l) /\
    total_checks s' = total_checks s + len l.
Proof.
  revert s. induction l as [|x l IH]; intros s; cbn [for_each List.filter].
  - exists s. unfold len; cbn. rewrite app_nil_r. repeat split; lia.
  - destruct (c x); cbn [negb].
    + destruct (IH (state_of (log_success (f x) s))) as (s' & E & Hi & Hw & Hs & Ht).
      exists s'. rewrite (bind_Ok _ _ _ _ _ (log_success_Ok _ _)), E.
      cbn in Hi, Hw, Hs, Ht. rewrite Hi, Hw, Hs, Ht.
      unfold len; cbn [length]. repeat split; lia.
    + destruct (IH (state_of (log_warning (g x) s))) as (s' & E & Hi & Hw & Hs & Ht).
      exists s'. rewrite (bind_Ok _ _ _ _ _ (log_warning_Ok _ _)), E.
      cbn in Hi, Hw, Hs, Ht. rewrite Hi, Hw, Hs, Ht.
      rewrite <- app_assoc. unfold len; cbn [length map app]. repeat split; lia.
Qed.

(** ** The options check group on a file that can be read *)

Lemma check_firebase_options_Text e content s :
  fs e !! options_path = Some (Text content) ->
  exists s',
    check_firebase_options e s = Ok tt s' /\
    issues s' =
      issues s ++
      map (fun pattern => "Found placeholder pattern: " +:+ pattern)
        (List.filter (fun pattern => Str.re_search pattern content)
           placeholder_patterns) ++
      (if Str.str_in "lca5kr3efmasxydmsi1rvyjoizifj4" content then []
       else ["Real Firebase project ID not found"]) /\
    warnings s' =
      warnings s ++
      map (fun platform => Str.capitalize platform +:+ " configuration missing")
        (List.filter
           (fun platform =>
              negb (Str.str_in ("static const FirebaseOptions " +:+ platform)
                      content))
           platforms) /\
    success_count s' =
      success_count s +
      (if Str.str_in "lca5kr3efmasxydmsi1rvyjoizifj4" content then 1 else 0) +
      len (List.filter
             (fun platform =>
                Str.str_in ("static const FirebaseOptions " +:+ platform) content)
             platforms) /\
    total_checks s' =
      total_checks s +
      len (List.filter (fun pattern => Str.re_search pattern content)
             placeholder_patterns) + 1 + len platforms.
Proof.
  intros Hf. unfold check_firebase_options.
  rewrite (bind_Ok _ _ _ _ _ (print_eq _ _)).
  change (project_root </> "lib" </> "firebase_options.dart") with options_path.
  destruct (read_text_Text _ _ _ Hf) as [-> ->].
  rewrite (bind_ret true); cbv beta. cbn [negb].
  rewrite (bind_Ok (ret content) _ _ content _ eq_refl).
  destruct (for_each_cond_error
              (fun pattern => Str.re_search pattern content)
              (fun pattern => "Found placeholder pattern: " +:+ pattern)
              placeholder_patterns (add_lines [header Options] s))
    as (t1 & E1 & Hi1 & Hw1 & Hs1 & Ht1).
  rewrite (bind_Ok _ _ _ _ _ E1).
  set (found := Str.str_in "lca5kr3efmasxydmsi1rvyjoizifj4" content).
  set (t2 := state_of
               ((if found then log_success "Real Firebase project ID found"
                 else log_error "Real Firebase project ID not found") t1)).
  assert (E2 : (if found then log_success "Real Firebase project ID found"
                else log_error "Real Firebase project ID not found") t1
               = Ok tt t2) by (subst t2; now destruct found).
  rewrite (bind_Ok _ _ _ _ _ E2).
  destruct (for_each_success_or_warning
              (fun platform =>
                 Str.str_in ("static const FirebaseOptions " +:+ platform) content)
              (fun platform => Str.capitalize platform +:+ " configuration present")
              (fun platform => Str.capitalize platform +:+ " configuration missing")
              platforms t2)
    as (s' & E3 & Hi3 & Hw3 & Hs3 & Ht3).
  exists s'. split; [exact E3|].
  rewrite Hi3, Hw3, Hs3, Ht3. subst t2.
  destruct found; cbn [state_of log_success log_error bind print modify
                         issues warnings success_count total_checks];
    cbn; rewrite Hi1, Hw1, Hs1, Ht1; cbn [add_lines issues warnings
                                             success_count total_checks];
    rewrite ?app_nil_r, <- ?app_assoc; repeat split; lia.
Qed.

(** Errors stay: a message once in [issues] is there for the rest of the run. *)
Ltac stable_issue_kept :=
  let s := fresh "s" in
  let Hs := fresh "Hs" in
  intros s Hs; cbn; rewrite ?in_app_iff; auto.

Lemma issue_kept_groups message e :
  stable (fun s => In message (issues s)) (check_android_config e) /\
  stable (fun s => In message (issues s)) (check_ios_config e) /\
  stable (fun s => In message (issues s)) (check_web_config e) /\
  stable (fun s => In message (issues s)) (check_dependencies e) /\
  stable (fun s => In message (issues s)) (check_security_rules e) /\
  stable (fun s => In message (issues s)) (check_build_status e) /\
  stable (fun s => In message (issues s)) generate_report.
Proof.
  repeat split; unfold_groups; unroll_lists; stable_split; stable_issue_kept.
Qed.

(** ** The build check records one outcome, whatever the subprocess does *)

Lemma check_build_status_one_record e s :
  exists s',
    check_build_status e s = Ok tt s' /\
    total_checks s' = total_checks s + 1 /\
    success_count s' + len (warnings s') + len (issues s')
    = success_count s + len (warnings s) + len (issues s) + 1.
Proof.
  rewrite check_build_status_cases.
  destruct (flutter_build e) as [rc err|x];
    [destruct (rc =? 0) | destruct (exn_cls x)];
    (eexists; split; [reflexivity|]);
    unfold len; cbn; rewrite ?length_app; cbn; lia.
Qed.

(** ** A missing optional file, and a build that times out, are warned of once *)

Lemma adds_warning_firestore_absent e :
  fs e !! "firestore.rules" = None ->
  adds (warning_count "Firestore security rules not found") 1
    (check_security_rules e).
Proof.
  intros Hp. unfold check_security_rules.
  change (project_root </> "firestore.rules") with "firestore.rules".
  rewrite (read_text_absent _ _ Hp).
  eapply adds_bind; [keeps_warning_count | intros _ | reflexivity].
  eapply adds_bind;
    [apply adds_log_warning_same | intros _; keeps_warning_count | reflexivity].
Qed.

Lemma adds_warning_storage_absent e :
  fs e !! "storage.rules" = None ->
  adds (warning_count "Storage security rules not found") 1
    (check_security_rules e).
Proof.
  intros Hp. unfold check_security_rules.
  change (project_root </> "storage.rules") with "storage.rules".
  rewrite (read_text_absent _ _ Hp).
  eapply adds_bind; [keeps_warning_count | intros _ | reflexivity].
  eapply adds_bind;
    [keeps_warning_count | intros _; apply adds_log_warning_same | reflexivity].
Qed.

Lemma adds_warning_index_html_absent e :
  fs e !! index_html_path = None ->
  adds (warning_count "Web index.html not found") 1 (check_web_config e).
Proof.
  intros Hp s a s' E. rewrite (check_web_config_absent _ _ Hp) in E.
  injection E as _ <-. apply warning_count_log_warning_same.
Qed.

Lemma adds_warning_build_timeout e x :
  flutter_build e = BuildRaises x -> exn_cls x = TimeoutExpired ->
  adds (warning_count "Build timed out (this is normal for first build)") 1
    (check_build_status e).
Proof.
  intros Hb Hx s a s' E. rewrite check_build_status_cases, Hb, Hx in E.
  injection E as _ <-. apply warning_count_log_warning_same.
Qed.

Lemma firestore_rules_missing_once e b s' :
  fs e !! "firestore.rules" = None ->
  run_all_checks e init = Ok b s' ->
  warning_count "Firestore security rules not found" s' = 1 /\
  error_count "Firestore security rules not found" s' = 0.
Proof.
  intros Hp H.
  apply run_all_checks_Ok_inv in H as (_ & s1 & s2 & s3 & s4 & s5 & s6 & s7 & H).
  split.
  - rewrite (run_through_adds _ 0 0 0 0 0 1 0 _ _ _ _ _ _ _ _ _ _ H);
      [reflexivity | reflexivity | | | | | | | ]; try keeps_warning_count.
    now apply adds_warning_firestore_absent.
  - rewrite (run_through_adds _ 0 0 0 0 0 0 0 _ _ _ _ _ _ _ _ _ _ H);
      [reflexivity | reflexivity | | | | | | | ]; keeps_error_count.
Qed.

Lemma storage_rules_missing_once e b s' :
  fs e !! "storage.rules" = None ->
  run_all_checks e init = Ok b s' ->
  warning_count "Storage security rules not found" s' = 1 /\
  error_count "Storage security rules not found" s' = 0.
Proof.
  intros Hp H.
  apply run_all_checks_Ok_inv in H as (_ & s1 & s2 & s3 & s4 & s5 & s6 & s7 & H).
  split.
  - rewrite (run_through_adds _ 0 0 0 0 0 1 0 _ _ _ _ _ _ _ _ _ _ H);
      [reflexivity | reflexivity | | | | | | | ]; try keeps_warning_count.
    now apply adds_warning_storage_absent.
  - rewrite (run_through_adds _ 0 0 0 0 0 0 0 _ _ _ _ _ _ _ _ _ _ H);
      [reflexivity | reflexivity | | | | | | | ]; keeps_error_count.
Qed.

Lemma index_html_missing_once e b s' :
  fs e !! index_html_path = None ->
  run_all_checks e init = Ok b s' ->
  warning_count "Web index.html not found" s' = 1 /\
  error_count "Web index.html not found" s' = 0.
Proof.
  intros Hp H.
  apply run_all_checks_Ok_inv in H as (_ & s1 & s2 & s3 & s4 & s5 & s6 & s7 & H).
  split.
  - rewrite (run_through_adds _ 0 0 0 1 0 0 0 _ _ _ _ _ _ _ _ _ _ H);
      [reflexivity | reflexivity | | | | | | | ]; try keeps_warning_count.
    now apply adds_warning_index_html_absent.
  - rewrite (run_through_adds _ 0 0 0 0 0 0 0 _ _ _ _ _ _ _ _ _ _ H);
      [reflexivity | reflexivity | | | | | | | ]; keeps_error_count.
Qed.

Lemma build_timeout_once e x b s' :
  flutter_build e = BuildRaises x -> exn_cls x = TimeoutExpired ->
  run_all_checks e init = Ok b s' ->
  warning_count "Build timed out (this is normal for first build)" s' = 1 /\
  error_count "Build timed out (this is normal for first build)" s' = 0.
Proof.
  intros Hb Hx H.
  apply run_all_checks_Ok_inv in H as (_ & s1 & s2 & s3 & s4 & s5 & s6 & s7 & H).
  split.
  - rewrite (run_through_adds _ 0 0 0 0 0 0 1 _ _ _ _ _ _ _ _ _ _ H);
      [reflexivity | reflexivity | | | | | | | ]; try keeps_warning_count.
    now apply (adds_warning_build_timeout e x).
  - rewrite (run_through_adds _ 0 0 0 0 0 0 0 _ _ _ _ _ _ _ _ _ _ H);
      [reflexivity | reflexivity | | | | | | | ]; keeps_error_count.
Qed.

(** The security-rule and web groups record no Error at all. *)
Lemma issues_kept_security_web e :
  keeps issues (check_security_rules e) /\ keeps issues (check_web_config e).
Proof.
  split; intros v; unfold_groups; stable_split; intros s Hs; exact Hs.
Qed.

(** ** A run, group by group *)

(** What holds along a run: [I0] before the first group and [Ii] after the
    i-th.  A run that returns has passed all seven groups and then rendered
    the report; a run that raises stopped in one of the groups. *)
Lemma run_all_checks_steps (I0 I1 I2 I3 I4 I5 I6 I7 : state -> Prop) e s :
  I0 (add_lines opening_lines s) ->
  (forall t, I0 t -> I1 (state_of (check_firebase_options e t))) ->
  (forall t, I1 t -> I2 (state_of (check_android_config e t))) ->
  (forall t, I2 t -> I3 (state_of (check_ios_config e t))) ->
  (forall t, I3 t -> I4 (state_of (check_web_config e t))) ->
  (forall t, I4 t -> I5 (state_of (check_dependencies e t))) ->
  (forall t, I5 t -> I6 (state_of (check_security_rules e t))) ->
  (forall t, I6 t -> I7 (state_of (check_build_status e t))) ->
  match run_all_checks e s with
  | Ok b s' =>
      exists s7,
        I7 s7 /\ s' = add_lines (report_lines s7) s7 /\
        b = (len (issues s7) =? 0)
  | Raise x t => I1 t \/ I2 t \/ I3 t \/ I4 t \/ I5 t \/ I6 t \/ I7 t
  end.
Proof.
  intros H0 H1 H2 H3 H4 H5 H6 H7. unfold run_all_checks.
  rewrite (bind_Ok _ _ _ _ _ (print_eq _ _)).
  rewrite (bind_Ok _ _ _ _ _ (print_eq _ _)), add_lines_add_lines.
  change ([_] ++ [_]) with opening_lines.
  specialize (H1 _ H0).
  destruct (check_firebase_options e (add_lines opening_lines s))
    as [[] s1|x s1] eqn:G1; cbn [state_of] in H1;
    [rewrite (bind_Ok _ _ _ _ _ G1) | rewrite (bind_Raise _ _ _ _ _ G1); tauto].
  specialize (H2 _ H1).
  destruct (check_android_config e s1) as [[] s2|x s2] eqn:G2; cbn [state_of] in H2;
    [rewrite (bind_Ok _ _ _ _ _ G2) | rewrite (bind_Raise _ _ _ _ _ G2); tauto].
  specialize (H3 _ H2).
  destruct (check_ios_config e s2) as [[] s3|x s3] eqn:G3; cbn [state_of] in H3;
    [rewrite (bind_Ok _ _ _ _ _ G3) | rewrite (bind_Raise _ _ _ _ _ G3); tauto].
  specialize (H4 _ H3).
  destruct (check_web_config e s3) as [[] s4|x s4] eqn:G4; cbn [state_of] in H4;
    [rewrite (bind_Ok _ _ _ _ _ G4) | rewrite (bind_Raise _ _ _ _ _ G4); tauto].
  specialize (H5 _ H4).
  destruct (check_dependencies e s4) as [[] s5|x s5] eqn:G5; cbn [state_of] in H5;
    [rewrite (bind_Ok _ _ _ _ _ G5) | rewrite (bind_Raise _ _ _ _ _ G5); tauto].
  specialize (H6 _ H5).
  destruct (check_security_rules e s5) as [[] s6|x s6] eqn:G6; cbn [state_of] in H6;
    [rewrite (bind_Ok _ _ _ _ _ G6) | rewrite (bind_Raise _ _ _ _ _ G6); tauto].
  specialize (H7 _ H6).
  destruct (check_build_status e s6) as [[] s7|x s7] eqn:G7; cbn [state_of] in H7;
    [rewrite (bind_Ok _ _ _ _ _ G7) | rewrite (bind_Raise _ _ _ _ _ G7); tauto].
  rewrite (bind_Ok _ _ _ _ _ (generate_report_eq s7)).
  exists s7. repeat split. exact H7.
Qed.

(** ** The groups that have started *)

Lemma group_of_line_header g : group_of_line (header g) = Some g.
Proof. now destruct g. Qed.

Lemma started_snoc l line :
  group_of_line line = None -> groups_started (l ++ [line]) = groups_started l.
Proof.
  intros H. unfold groups_started. rewrite omap_app.
  cbn -[group_of_line]. rewrite H. apply app_nil_r.
Qed.

Lemma started_snoc_header l g :
  groups_started (l ++ [header g]) = groups_started l ++ [g].
Proof.
  unfold groups_started. rewrite omap_app.
  cbn -[group_of_line]. now rewrite group_of_line_header.
Qed.

Ltac stable_started :=
  let s := fresh "s" in
  let Hs := fresh "Hs" in
  intros s Hs; cbn -[String.append groups_started Str.repeat Str.of_Z];
  rewrite started_snoc by reflexivity; exact Hs.

Ltac group_starts :=
  let s := fresh "s" in
  let v := fresh "v" in
  let Hv := fresh "Hv" in
  intros s v Hv; unfold_groups; unroll_lists;
  rewrite (bind_Ok _ _ _ _ _ (print_eq _ _)); cbv beta;
  match goal with
  | |- groups_started (console (state_of (?m ?t))) = ?w =>
      apply (fun H : stable (fun s0 => groups_started (console s0) = w) m =>
               H t);
      [ stable_split; stable_started
      | cbn [add_lines console]; rewrite <- Hv;
        match goal with
        | |- _ = _ ++ [?g] => exact (started_snoc_header _ g)
        end ]
  end.

Lemma check_firebase_options_starts e s v :
  groups_started (console s) = v ->
  groups_started (console (state_of (check_firebase_options e s))) = v ++ [Options].
Proof. revert s v. group_starts. Qed.

Lemma check_android_config_starts e s v :
  groups_started (console s) = v ->
  groups_started (console (state_of (check_android_config e s))) = v ++ [Android].
Proof. revert s v. group_starts. Qed.

Lemma check_ios_config_starts e s v :
  groups_started (console s) = v ->
  groups_started (console (state_of (check_ios_config e s))) = v ++ [Ios].
Proof. revert s v. group_starts. Qed.

Lemma check_web_config_starts e s v :
  groups_started (console s) = v ->
  groups_started (console (state_of (check_web_config e s))) = v ++ [Web].
Proof. revert s v. group_starts. Qed.

Lemma check_dependencies_starts e s v :
  groups_started (console s) = v ->
  groups_started (console (state_of (check_dependencies e s)))
  = v ++ [Dependencies].
Proof. revert s v. group_starts. Qed.

Lemma check_security_rules_starts e s v :
  groups_started (console s) = v ->
  groups_started (console (state_of (check_security_rules e s)))
  = v ++ [SecurityRules].
Proof. revert s v. group_starts. Qed.

Lemma check_build_status_starts e s v :
  groups_started (console s) = v ->
  groups_started (console (state_of (check_build_status e s)))
  = v ++ [BuildStatus].
Proof. revert s v. group_starts. Qed.

Lemma report_lines_start_nothing s : groups_started (report_lines s) = [].
Proof.
  assert (H : stable (fun t => groups_started (console t)
                             = groups_started (console s)) generate_report)
    by (unfold generate_report; stable_split; stable_started).
  specialize (H s eq_refl). rewrite generate_report_eq in H.
  cbn [state_of add_lines console] in H.
  unfold groups_started in *. rewrite omap_app in H.
  rewrite <- (app_nil_r (omap group_of_line (console s))) in H at 2.
  now apply app_inv_head in H.
Qed.

(** Along a run, the groups started so far are the first of [all_groups],
    and nothing of the report is on the console before all seven are. *)
Lemma run_all_checks_in_order e :
  match run_all_checks e init with
  | Ok b s' =>
      exists s7,
        (groups_started (console s7) = all_groups /\ no_report s7) /\
        s' = add_lines (report_lines s7) s7 /\
        b = (len (issues s7) =? 0)
  | Raise x t =>
      exists n,
        (1 <= n <= 7)%nat /\
        groups_started (console t) = take n all_groups /\ no_report t
  end.
Proof.
  destruct (no_report_groups e) as (N1 & N2 & N3 & N4 & N5 & N6 & N7).
  pose proof (run_all_checks_steps
    (fun t => groups_started (console t) = take 0 all_groups /\ no_report t)
    (fun t => groups_started (console t) = take 1 all_groups /\ no_report t)
    (fun t => groups_started (console t) = take 2 all_groups /\ no_report t)
    (fun t => groups_started (console t) = take 3 all_groups /\ no_report t)
    (fun t => groups_started (console t) = take 4 all_groups /\ no_report t)
    (fun t => groups_started (console t) = take 5 all_groups /\ no_report t)
    (fun t => groups_started (console t) = take 6 all_groups /\ no_report t)
    (fun t => groups_started (console t) = take 7 all_groups /\ no_report t)
    e init) as H.
  cbv beta in H.
  assert (H0 : groups_started (console (add_lines opening_lines init))
               = take 0 all_groups /\ no_report (add_lines opening_lines init))
    by (split; [reflexivity | repeat constructor]).
  specialize (H H0).
  specialize (H (fun t Ht => conj (check_firebase_options_starts e t _ (proj1 Ht))
                               (N1 t (proj2 Ht)))).
  specialize (H (fun t Ht => conj (check_android_config_starts e t _ (proj1 Ht))
                               (N2 t (proj2 Ht)))).
  specialize (H (fun t Ht => conj (check_ios_config_starts e t _ (proj1 Ht))
                               (N3 t (proj2 Ht)))).
  specialize (H (fun t Ht => conj (check_web_config_starts e t _ (proj1 Ht))
                               (N4 t (proj2 Ht)))).
  specialize (H (fun t Ht => conj (check_dependencies_starts e t _ (proj1 Ht))
                               (N5 t (proj2 Ht)))).
  specialize (H (fun t Ht => conj (check_security_rules_starts e t _ (proj1 Ht))
                               (N6 t (proj2 Ht)))).
  specialize (H (fun t Ht => conj (check_build_status_starts e t _ (proj1 Ht))
                               (N7 t (proj2 Ht)))).
  destruct (run_all_checks e init) as [b s'|x t]; [exact H|].
  destruct H as [H|[H|[H|[H|[H|[H|H]]]]]];
    [exists 1%nat | exists 2%nat | exists 3%nat | exists 4%nat | exists 5%nat
    | exists 6%nat | exists 7%nat]; (split; [lia | exact H]).
Qed.

(** ** How many checks the Android and iOS groups perform *)

Lemma adds_total_android_without_gradle e :
  fs e !! build_gradle_path = None ->
  adds total_checks 1 (check_android_config e).
Proof.
  intros Hp s a s' E. rewrite (check_android_config_absent _ _ Hp) in E.
  assert (Ha : adds total_checks 1
                 (check_file_exists e "android/app/google-services.json"
                    "Google Services JSON" ;; ret tt))
    by (apply (adds_bind _ 1 0 1);
        [apply adds_total_check_file_exists | intros _; apply adds_ret
        | reflexivity]).
  exact (Ha _ _ _ E).
Qed.

Lemma adds_total_android_with_gradle e content :
  fs e !! build_gradle_path = Some (Text content) ->
  adds total_checks 3 (check_android_config e).
Proof.
  intros Hp. unfold check_android_config.
  change (project_root </> "android" </> "app" </> "build.gradle")
    with build_gradle_path.
  destruct (read_text_Text _ _ _ Hp) as [-> ->].
  rewrite (bind_ret true); cbv beta.
  apply (adds_bind _ 0 3 3); [apply adds_total_print | intros _ | reflexivity].
  apply (adds_bind _ 1 2 3);
    [apply adds_total_check_file_exists | intros _ | reflexivity].
  apply (adds_bind _ 0 2 2); [apply adds_ret | intros ? | reflexivity].
  apply (adds_bind _ 1 1 2); [| intros _ | reflexivity].
  - apply adds_if; [apply adds_total_log_success | apply adds_total_log_error].
  - apply adds_if; [apply adds_total_log_success | apply adds_total_log_warning].
Qed.

Lemma adds_total_ios_without_info_plist e :
  fs e !! info_plist_path = None ->
  adds total_checks 1 (check_ios_config e).
Proof.
  intros Hp s a s' E. rewrite (check_ios_config_absent _ _ Hp) in E.
  assert (Ha : adds total_checks 1
                 (check_file_exists e "ios/Runner/GoogleService-Info.plist"
                    "GoogleService-Info.plist" ;; ret tt))
    by (apply (adds_bind _ 1 0 1);
        [apply adds_total_check_file_exists | intros _; apply adds_ret
        | reflexivity]).
  exact (Ha _ _ _ E).
Qed.

Lemma adds_total_ios_with_info_plist e content :
  fs e !! info_plist_path = Some (Text content) ->
  adds total_checks 2 (check_ios_config e).
Proof.
  intros Hp. unfold check_ios_config.
  change (project_root </> "ios" </> "Runner" </> "Info.plist")
    with info_plist_path.
  destruct (read_text_Text _ _ _ Hp) as [-> ->].
  rewrite (bind_ret true); cbv beta.
  apply (adds_bind _ 0 2 2); [apply adds_total_print | intros _ | reflexivity].
  apply (adds_bind _ 1 1 2);
    [apply adds_total_check_file_exists | intros _ | reflexivity].
  apply (adds_bind _ 0 1 1); [apply adds_ret | intros ? | reflexivity].
  apply adds_if; [apply adds_total_log_success | apply adds_total_log_warning].
Qed.

(** With [google-services.json] open to [exists()], the Android group
    returns when [build.gradle] is absent or holds readable text; likewise
    the iOS group. *)
Lemma returns_android_without_gradle e :
  (forall x, fs e !! google_services_path <> Some (Inaccessible x)) ->
  fs e !! build_gradle_path = None ->
  returns (check_android_config e).
Proof.
  intros Ha Hp. unfold check_android_config.
  change (project_root </> "android" </> "app" </> "build.gradle")
    with build_gradle_path.
  rewrite (read_text_absent _ _ Hp), (bind_ret false); cbv beta.
  apply returns_bind; [apply returns_print | intros _].
  apply returns_bind; [now apply returns_check_file_exists | intros _].
  apply returns_ret.
Qed.

Lemma returns_android_with_gradle e content :
  (forall x, fs e !! google_services_path <> Some (Inaccessible x)) ->
  fs e !! build_gradle_path = Some (Text content) ->
  returns (check_android_config e).
Proof.
  intros Ha Hp. unfold check_android_config.
  change (project_root </> "android" </> "app" </> "build.gradle")
    with build_gradle_path.
  destruct (read_text_Text _ _ _ Hp) as [-> ->].
  rewrite (bind_ret true); cbv beta.
  apply returns_bind; [apply returns_print | intros _].
  apply returns_bind; [now apply returns_check_file_exists | intros _].
  returns_split.
Qed.

Lemma returns_ios_without_info_plist e :
  (forall x, fs e !! google_service_info_path <> Some (Inaccessible x)) ->
  fs e !! info_plist_path = None ->
  returns (check_ios_config e).
Proof.
  intros Ha Hp. unfold check_ios_config.
  change (project_root </> "ios" </> "Runner" </> "Info.plist")
    with info_plist_path.
  rewrite (read_text_absent _ _ Hp), (bind_ret false); cbv beta.
  apply returns_bind; [apply returns_print | intros _].
  apply returns_bind; [now apply returns_check_file_exists | intros _].
  apply returns_ret.
Qed.

Lemma returns_ios_with_info_plist e content :
  (forall x, fs e !! google_service_info_path <> Some (Inaccessible x)) ->
  fs e !! info_plist_path = Some (Text content) ->
  returns (check_ios_config e).
Proof.
  intros Ha Hp. unfold check_ios_config.
  change (project_root </> "ios" </> "Runner" </> "Info.plist")
    with info_plist_path.
  destruct (read_text_Text _ _ _ Hp) as [-> ->].
  rewrite (bind_ret true); cbv beta.
  apply returns_bind; [apply returns_print | intros _].
  apply returns_bind; [now apply returns_check_file_exists | intros _].
  returns_split.
Qed.

(** A group that returns whenever it has performed [d] checks, and that
    returns now, has performed [d] checks. *)
Lemma returns_adds {A} (f : state -> Z) d (m : M A) s :
  returns m -> adds f d m -> exists a s', m s = Ok a s' /\ f s' = f s + d.
Proof.
  intros Hr Ha. destruct (Hr s) as (a & s' & E).
  exists a, s'. split; [exact E | exact (Ha _ _ _ E)].
Qed.

(** ** The counter invariant along a run *)

Lemma run_all_checks_counted e : counted (state_of (run_all_checks e init)).
Proof.
  destruct (counted_stable_groups e) as (C1 & C2 & C3 & C4 & C5 & C6 & C7).
  pose proof (run_all_checks_steps counted counted counted counted counted
                counted counted counted e init) as H.
  assert (H0 : counted (add_lines opening_lines init)) by reflexivity.
  specialize (H H0 C1 C2 C3 C4 C5 C6 C7).
  destruct (run_all_checks e init) as [b s'|x t]; cbn [state_of].
  - destruct H as (s7 & H7 & -> & _). exact H7.
  - tauto.
Qed.

(** ** Computations that do not look at the state *)

Lemma uniform_ret {A} (a : A) : uniform (ret a).
Proof. intros s. cbn. split; [reflexivity | lia]. Qed.

Lemma uniform_raise {A} x : uniform (@raise A x).
Proof. intros s. cbn. split; [reflexivity | lia]. Qed.

Lemma uniform_print line : uniform (print line).
Proof. intros s. cbn. split; [reflexivity | lia]. Qed.

Lemma uniform_log_success message : uniform (log_success message).
Proof. intros s. cbn. split; [reflexivity | lia]. Qed.

Lemma uniform_log_warning message : uniform (log_warning message).
Proof. intros s. cbn. split; [reflexivity | lia]. Qed.

Lemma uniform_log_error message : uniform (log_error message).
Proof. intros s. cbn. split; [reflexivity | lia]. Qed.

Lemma uniform_path_exists e p : uniform (path_exists e p).
Proof.
  unfold path_exists. destruct (fs e !! p) as [[c|x|x]|];
    first [apply uniform_ret | apply uniform_raise].
Qed.

Lemma uniform_read_text e p : uniform (read_text e p).
Proof.
  unfold read_text. destruct (fs e !! p) as [[c|x|x]|];
    first [apply uniform_ret | apply uniform_raise].
Qed.

Lemma uniform_subprocess_run e : uniform (subprocess_run e).
Proof.
  unfold subprocess_run.
  destruct (flutter_build e); [apply uniform_ret | apply uniform_raise].
Qed.

Lemma uniform_if {A} (c : bool) (m1 m2 : M A) :
  uniform m1 -> uniform m2 -> uniform (if c then m1 else m2).
Proof. now destruct c. Qed.

Lemma uniform_bind {A B} (m : M A) (k : A -> M B) :
  uniform m -> (forall a, uniform (k a)) -> uniform (bind m k).
Proof.
  intros Hm Hk s. unfold bind.
  destruct (Hm s) as [Ho Ht].
  destruct (m s) as [a s1|x s1], (m init) as [a' t1|x' t1];
    cbn in Ho, Ht; try contradiction; subst.
  - destruct (Hk a' s1) as [Ho1 Ht1], (Hk a' t1) as [Ho2 Ht2].
    split; [|lia].
    destruct (k a' s1), (k a' t1), (k a' init); cbn in *;
      try contradiction; congruence.
  - cbn. split; [reflexivity | lia].
Qed.

Lemma uniform_for_each {A} (l : list A) body :
  (forall x, uniform (body x)) -> uniform (for_each l body).
Proof.
  intros Hb. induction l as [|x l IH]; cbn [for_each].
  - apply uniform_ret.
  - apply uniform_bind; [apply Hb | intros _; apply IH].
Qed.

Lemma uniform_try_except {A} (body : M A) handler :
  uniform body ->
  (forall x, match handler x with Some h => uniform h | None => True end) ->
  uniform (try_except body handler).
Proof.
  intros Hb Hh s. unfold try_except.
  destruct (Hb s) as [Ho Ht].
  destruct (body s) as [a s1|x s1], (body init) as [a' t1|x' t1];
    cbn in Ho, Ht; try contradiction; subst.
  - cbn. split; [reflexivity | lia].
  - specialize (Hh x'). destruct (handler x') as [h|].
    + destruct (Hh s1) as [Ho1 Ht1], (Hh t1) as [Ho2 Ht2].
      split; [|lia].
      destruct (h s1), (h t1), (h init); cbn in *;
        try contradiction; congruence.
    + cbn. split; [reflexivity | lia].
Qed.

Ltac uniform_split :=
  repeat match goal with
    | |- uniform (ret _) => apply uniform_ret
    | |- uniform (raise _) => apply uniform_raise
    | |- uniform (print _) => apply uniform_print
    | |- uniform (log_success _) => apply uniform_log_success
    | |- uniform (log_warning _) => apply uniform_log_warning
    | |- uniform (log_error _) => apply uniform_log_error
    | |- uniform (path_exists _ _) => apply uniform_path_exists
    | |- uniform (read_text _ _) => apply uniform_read_text
    | |- uniform (subprocess_run _) => apply uniform_subprocess_run
    | |- uniform (check_file_exists _ _ _) =>
        unfold check_file_exists; cbv zeta
    | |- uniform (if _ then _ else _) => apply uniform_if
    | |- uniform (bind _ _) => apply uniform_bind; [| intros ?]
    | |- uniform (try_except _ _) =>
        apply uniform_try_except;
        [| let x := fresh "x" in intros x; destruct (exn_cls x)]
    | |- uniform (for_each _ _) => apply uniform_for_each; intros ?
    | |- uniform (let '(_, _) := ?r in _) => destruct r
    end.

Lemma uniform_groups e :
  uniform (check_firebase_options e) /\
  uniform (check_android_config e) /\
  uniform (check_ios_config e) /\
  uniform (check_web_config e) /\
  uniform (check_dependencies e) /\
  uniform (check_security_rules e) /\
  uniform (check_build_status e).
Proof. repeat apply conj; unfold_groups; uniform_split. Qed.

Lemma adds_uniform {A} (m : M A) : uniform m -> adds total_checks (checks_of m) m.
Proof.
  intros Hu s a s' E. destruct (Hu s) as [_ Ht]. now rewrite E in Ht.
Qed.

(** The checks of a completed run are those of its seven groups. *)
Lemma run_all_checks_total e b s' :
  run_all_checks e init = Ok b s' ->
  total_checks s' =
  checks_of (check_firebase_options e) + checks_of (check_android_config e) +
  checks_of (check_ios_config e) + checks_of (check_web_config e) +
  checks_of (check_dependencies e) + checks_of (check_security_rules e) +
  checks_of (check_build_status e).
Proof.
  intros H.
  apply run_all_checks_Ok_inv in H as (_ & s1 & s2 & s3 & s4 & s5 & s6 & s7 & H).
  destruct (uniform_groups e) as (U1 & U2 & U3 & U4 & U5 & U6 & U7).
  rewrite (run_through_adds total_checks _ _ _ _ _ _ _ _ _ _ _ _ _ _ _ _ _ H
             (fun _ _ => eq_refl)
             (adds_uniform _ U1) (adds_uniform _ U2) (adds_uniform _ U3)
             (adds_uniform _ U4) (adds_uniform _ U5) (adds_uniform _ U6)
             (adds_uniform _ U7)).
  reflexivity.
Qed.

(** ** A group only depends on the files it looks at *)

Lemma agree_refl {A} (m : M A) : agree m m.
Proof. now intros s. Qed.

Lemma agree_bind {A B} (m m' : M A) (k k' : A -> M B) :
  agree m m' -> (forall a, agree (k a) (k' a)) -> agree (bind m k) (bind m' k').
Proof.
  intros Hm Hk s. unfold bind. rewrite (Hm s).
  destruct (m' s); [apply Hk | reflexivity].
Qed.

Lemma agree_if {A} (c : bool) (m1 m1' m2 m2' : M A) :
  agree m1 m1' -> agree m2 m2' ->
  agree (if c then m1 else m2) (if c then m1' else m2').
Proof. now destruct c. Qed.

Lemma path_exists_with_file_ne p q f e :
  p <> q -> path_exists (with_file p f e) q = path_exists e q.
Proof.
  intros Hne. unfold path_exists, with_file; cbn [fs].
  now rewrite lookup_insert_ne.
Qed.

Lemma read_text_with_file_ne p q f e :
  p <> q -> read_text (with_file p f e) q = read_text e q.
Proof.
  intros Hne. unfold read_text, with_file; cbn [fs].
  now rewrite lookup_insert_ne.
Qed.

Lemma check_file_exists_with_file_ne p q d f e :
  p <> q -> check_file_exists (with_file p f e) q d = check_file_exists e q d.
Proof.
  intros Hne. unfold check_file_exists.
  replace (project_root </> q) with q by (now destruct q).
  now rewrite path_exists_with_file_ne.
Qed.

Ltac paths_differ :=
  let H := fresh "H" in intros H; cbv in H; discriminate H.

Ltac agree_split :=
  repeat (rewrite ?path_exists_with_file_ne, ?read_text_with_file_ne,
            ?check_file_exists_with_file_ne by paths_differ;
          match goal with
          | |- agree ?m ?m => apply agree_refl
          | |- agree (bind _ _) (bind _ _) => apply agree_bind; [| intros ?]
          | |- agree (if ?c then _ else _) (if ?c then _ else _) =>
              apply agree_if
          end).

Lemma groups_ignore_build_gradle e f :
  agree (check_firebase_options (with_file build_gradle_path f e))
    (check_firebase_options e) /\
  agree (check_ios_config (with_file build_gradle_path f e))
    (check_ios_config e) /\
  agree (check_web_config (with_file build_gradle_path f e))
    (check_web_config e) /\
  agree (check_dependencies (with_file build_gradle_path f e))
    (check_dependencies e) /\
  agree (check_security_rules (with_file build_gradle_path f e))
    (check_security_rules e) /\
  agree (check_build_status (with_file build_gradle_path f e))
    (check_build_status e).
Proof.
  repeat apply conj; try apply agree_refl; unfold_groups; cbv zeta; agree_split.
Qed.

Lemma groups_ignore_info_plist e f :
  agree (check_firebase_options (with_file info_plist_path f e))
    (check_firebase_options e) /\
  agree (check_android_config (with_file info_plist_path f e))
    (check_android_config e) /\
  agree (check_web_config (with_file info_plist_path f e))
    (check_web_config e) /\
  agree (check_dependencies (with_file info_plist_path f e))
    (check_dependencies e) /\
  agree (check_security_rules (with_file info_plist_path f e))
    (check_security_rules e) /\
  agree (check_build_status (with_file info_plist_path f e))
    (check_build_status e).
Proof.
  repeat apply conj; try apply agree_refl; unfold_groups; cbv zeta; agree_split.
Qed.

Lemma checks_of_agree {A} (m m' : M A) : agree m m' -> checks_of m = checks_of m'.
Proof. intros H. unfold checks_of. now rewrite (H init). Qed.

(** The checks of a group, counted where it returned. *)
Lemma checks_of_returned {A} (m : M A) d s a s' :
  uniform m -> adds total_checks d m -> m s = Ok a s' -> checks_of m = d.
Proof.
  intros Hu Ha E. destruct (Hu s) as [Ho _]. rewrite E in Ho.
  unfold checks_of. destruct (m init) as [a' t|x t] eqn:E0; cbn in Ho;
    [|contradiction].
  cbn [state_of]. now rewrite (Ha _ _ _ E0).
Qed.

(** Putting a readable [build.gradle] into a project that has none adds the
    two content checks to the run; a readable [Info.plist] adds one. *)
Lemma run_total_with_build_gradle e content b1 s1 b2 s2 :
  fs e !! build_gradle_path = None ->
  run_all_checks e init = Ok b1 s1 ->
  run_all_checks (with_file build_gradle_path (Text content) e) init = Ok b2 s2 ->
  total_checks s2 = total_checks s1 + 2.
Proof.
  intros Hp H1 H2.
  rewrite (run_all_checks_total _ _ _ H1), (run_all_checks_total _ _ _ H2).
  destruct (groups_ignore_build_gradle e (Text content))
    as (A1 & A3 & A4 & A5 & A6 & A7).
  rewrite (checks_of_agree _ _ A1), (checks_of_agree _ _ A3),
    (checks_of_agree _ _ A4), (checks_of_agree _ _ A5),
    (checks_of_agree _ _ A6), (checks_of_agree _ _ A7).
  apply run_all_checks_Ok_inv in H1
    as (_ & t1 & t2 & t3 & t4 & t5 & t6 & t7 & _ & G1 & _).
  apply run_all_checks_Ok_inv in H2
    as (_ & u1 & u2 & u3 & u4 & u5 & u6 & u7 & _ & G2 & _).
  destruct (uniform_groups e) as (_ & U1 & _).
  destruct (uniform_groups (with_file build_gradle_path (Text content) e))
    as (_ & U2 & _).
  assert (Hf : fs (with_file build_gradle_path (Text content) e)
               !! build_gradle_path = Some (Text content))
    by (unfold with_file; cbn [fs]; apply lookup_insert_eq).
  rewrite (checks_of_returned _ 1 _ _ _ U1
             (adds_total_android_without_gradle e Hp) G1).
  rewrite (checks_of_returned _ 3 _ _ _ U2
             (adds_total_android_with_gradle _ content Hf) G2).
  lia.
Qed.

Lemma run_total_with_info_plist e content b1 s1 b2 s2 :
  fs e !! info_plist_path = None ->
  run_all_checks e init = Ok b1 s1 ->
  run_all_checks (with_file info_plist_path (Text content) e) init = Ok b2 s2 ->
  total_checks s2 = total_checks s1 + 1.
Proof.
  intros Hp H1 H2.
  rewrite (run_all_checks_total _ _ _ H1), (run_all_checks_total _ _ _ H2).
  destruct (groups_ignore_info_plist e (Text content))
    as (A1 & A2 & A4 & A5 & A6 & A7).
  rewrite (checks_of_agree _ _ A1), (checks_of_agree _ _ A2),
    (checks_of_agree _ _ A4), (checks_of_agree _ _ A5),
    (checks_of_agree _ _ A6), (checks_of_agree _ _ A7).
  apply run_all_checks_Ok_inv in H1
    as (_ & t1 & t2 & t3 & t4 & t5 & t6 & t7 & _ & _ & G1 & _).
  apply run_all_checks_Ok_inv in H2
    as (_ & u1 & u2 & u3 & u4 & u5 & u6 & u7 & _ & _ & G2 & _).
  destruct (uniform_groups e) as (_ & _ & U1 & _).
  destruct (uniform_groups (with_file info_plist_path (Text content) e))
    as (_ & _ & U2 & _).
  assert (Hf : fs (with_file info_plist_path (Text content) e)
               !! info_plist_path = Some (Text content))
    by (unfold with_file; cbn [fs]; apply lookup_insert_eq).
  rewrite (checks_of_returned _ 1 _ _ _ U1
             (adds_total_ios_without_info_plist e Hp) G1).
  rewrite (checks_of_returned _ 2 _ _ _ U2
             (adds_total_ios_with_info_plist _ content Hf) G2).
  lia.
Qed.

(** ** Faults of the file system *)

Ltac literal_paths :=
  change (project_root </> "lib" </> "firebase_options.dart") with options_path;
  change (project_root </> "android/app/google-services.json")
    with google_services_path;
  change (project_root </> "android" </> "app" </> "build.gradle")
    with build_gradle_path;
  change (project_root </> "ios/Runner/GoogleService-Info.plist")
    with google_service_info_path;
  change (project_root </> "ios" </> "Runner" </> "Info.plist")
    with info_plist_path;
  change (project_root </> "web" </> "index.html") with index_html_path;
  change (project_root </> "pubspec.yaml") with pubspec_path;
  change (project_root </> "firestore.rules") with firestore_rules_path;
  change (project_root </> "storage.rules") with storage_rules_path.

(** Cases on what the file system has at each path of the goal. *)
Ltac probe_cases :=
  repeat match goal with
    | |- context [fs ?e !! ?p] => destruct (fs e !! p) as [[?|?|?]|]
    end;
  cbn [negb or_else];
  repeat (rewrite ?bind_ret, ?bind_raise; cbv beta; cbn [negb]).

(** A check group returns when it meets no fault, and raises the first
    fault it meets. *)
Lemma group_outcome e g :
  match group_fault e g with
  | None => returns (run_group e g)
  | Some x => forall s, exists t, run_group e g s = Raise x t
  end.
Proof.
  destruct g; cbn [run_group group_fault].
  7: apply returns_check_build_status.
  all: unfold_groups; unfold check_file_exists, fault_at, path_exists, read_text;
    cbv zeta; literal_paths; probe_cases.
  all: try (returns_split; fail).
  all: intros s; rewrite (bind_Ok _ _ _ _ _ (print_eq _ _)); now eexists.
Qed.

Lemma group_returns e g : group_fault e g = None -> returns (run_group e g).
Proof. intros H. pose proof (group_outcome e g) as O. now rewrite H in O. Qed.

Lemma group_raises e g x s :
  group_fault e g = Some x -> exists t, run_group e g s = Raise x t.
Proof. intros H. pose proof (group_outcome e g) as O. rewrite H in O. apply O. Qed.

(** A group that returned met no fault. *)
Lemma group_Ok_no_fault e g s s' :
  run_group e g s = Ok tt s' -> group_fault e g = None.
Proof.
  intros E. destruct (group_fault e g) as [x|] eqn:F; [|reflexivity].
  destruct (group_raises e g x s F) as (t & R). congruence.
Qed.

Ltac group_returned Hret :=
  match goal with
  | |- context [bind ?m ?k ?s] =>
      let a := fresh "a" in
      let t := fresh "t" in
      let E := fresh "E" in
      destruct (Hret s) as (a & t & E); destruct a;
      rewrite (bind_Ok m k s tt t E); clear E
  end.

Ltac group_raised Hraise :=
  match goal with
  | |- context [bind ?m ?k ?s] =>
      let t := fresh "t" in
      let E := fresh "E" in
      destruct (Hraise s) as (t & E);
      rewrite (bind_Raise m k s _ t E); now exists t
  end.

(** A run returns when no group meets a fault, and raises the first fault
    that a group meets. *)
Lemma run_first_fault e :
  match first_fault e with
  | None => exists b s', run_all_checks e init = Ok b s'
  | Some x => exists t, run_all_checks e init = Raise x t
  end.
Proof.
  unfold first_fault, all_groups. cbn [first_some].
  unfold run_all_checks.
  rewrite (bind_Ok _ _ _ _ _ (print_eq _ _)).
  rewrite (bind_Ok _ _ _ _ _ (print_eq _ _)).
  destruct (group_fault e Options) as [x|] eqn:F1;
    [group_raised (fun s => group_raises e Options x s F1)|].
  group_returned (group_returns e Options F1).
  destruct (group_fault e Android) as [x|] eqn:F2;
    [group_raised (fun s => group_raises e Android x s F2)|].
  group_returned (group_returns e Android F2).
  destruct (group_fault e Ios) as [x|] eqn:F3;
    [group_raised (fun s => group_raises e Ios x s F3)|].
  group_returned (group_returns e Ios F3).
  destruct (group_fault e Web) as [x|] eqn:F4;
    [group_raised (fun s => group_raises e Web x s F4)|].
  group_returned (group_returns e Web F4).
  destruct (group_fault e Dependencies) as [x|] eqn:F5;
    [group_raised (fun s => group_raises e Dependencies x s F5)|].
  group_returned (group_returns e Dependencies F5).
  destruct (group_fault e SecurityRules) as [x|] eqn:F6;
    [group_raised (fun s => group_raises e SecurityRules x s F6)|].
  group_returned (group_returns e SecurityRules F6).
  cbn [group_fault].
  group_returned (returns_check_build_status e).
  rewrite (bind_Ok _ _ _ _ _ (generate_report_eq _)).
  now eexists _, _.
Qed.

Lemma fault_at_None e reads p :
  fault_at e reads p = None ->
  (forall x, fs e !! p <> Some (Inaccessible x)) /\
  (reads = true -> forall x, fs e !! p <> Some (Unreadable x)).
Proof.
  unfold fault_at. destruct (fs e !! p) as [[c|y|y]|]; try discriminate;
    destruct reads; try discriminate; intros _; split; discriminate.
Qed.

Lemma or_else_None {A} (o1 o2 : option A) :
  or_else o1 o2 = None -> o1 = None /\ o2 = None.
Proof. destruct o1; [discriminate | now split]. Qed.

(** The projects without a fault are the readable ones. *)
Lemma first_fault_None_readable e : first_fault e = None -> readable e.
Proof.
  unfold first_fault, all_groups. cbn [first_some]. intros H.
  destruct (group_fault e Options) eqn:F1; [discriminate|].
  destruct (group_fault e Android) eqn:F2; [discriminate|].
  destruct (group_fault e Ios) eqn:F3; [discriminate|].
  destruct (group_fault e Web) eqn:F4; [discriminate|].
  destruct (group_fault e Dependencies) eqn:F5; [discriminate|].
  destruct (group_fault e SecurityRules) eqn:F6; [discriminate|].
  clear H. cbn [group_fault] in *.
  apply or_else_None in F2 as [F2 F2'].
  apply or_else_None in F3 as [F3 F3'].
  apply or_else_None in F6 as [F6 F6'].
  apply fault_at_None in F1 as [A1 R1], F2 as [A2 _], F2' as [A2' R2],
    F3 as [A3 _], F3' as [A3' R3], F4 as [A4 R4], F5 as [A5 R5],
    F6 as [A6 _], F6' as [A6' _].
  split; intros p x Hp; cbn in Hp.
  - destruct Hp as [<-|[<-|[<-|[<-|[<-|[<-|[<-|[<-|[<-|[]]]]]]]]]]; auto.
  - destruct Hp as [<-|[<-|[<-|[<-|[<-|[]]]]]]; auto.
Qed.

Lemma readable_first_fault e : readable e <-> first_fault e = None.
Proof.
  split; [|apply first_fault_None_readable].
  intros Hr. pose proof (run_first_fault e) as H.
  destruct (first_fault e) as [x|]; [|reflexivity].
  destruct H as (t & E).
  destruct (returns_run_all_checks e Hr init) as (b & s' & E'). congruence.
Qed.

(** ** A run as the sequence of its groups *)

Lemma run_all_checks_groups e s :
  run_all_checks e s =
  (print "🚀 Starting Firebase Deployment Verification..." ;;
   print (Str.repeat "=" 60) ;;
   for_each all_groups (run_group e) ;;
   generate_report ;;
   self <- get ;;
   ret (len (issues self) =? 0)) s.
Proof.
  unfold run_all_checks, all_groups. cbn [for_each run_group].
  unfold bind, print, modify, ret, get. cbv beta iota.
  destruct (check_firebase_options e _) as [[] s1|x s1]; [|reflexivity].
  destruct (check_android_config e s1) as [[] s2|x s2]; [|reflexivity].
  destruct (check_ios_config e s2) as [[] s3|x s3]; [|reflexivity].
  destruct (check_web_config e s3) as [[] s4|x s4]; [|reflexivity].
  destruct (check_dependencies e s4) as [[] s5|x s5]; [|reflexivity].
  destruct (check_security_rules e s5) as [[] s6|x s6]; [|reflexivity].
  destruct (check_build_status e s6) as [[] s7|x s7]; reflexivity.
Qed.

Lemma for_each_app {A} (l1 l2 : list A) body s :
  for_each (l1 ++ l2) body s = (for_each l1 body ;; for_each l2 body) s.
Proof.
  revert s. induction l1 as [|a l1 IH]; intros s; cbn [for_each app].
  - reflexivity.
  - unfold bind at 1 2 3. destruct (body a s) as [[] s1|x s1]; [|reflexivity].
    apply IH.
Qed.

(** A loop that raises has gone through its first [n] items and raised in
    the next one. *)
Lemma for_each_Raise {A} (l : list A) body s x t :
  for_each l body s = Raise x t ->
  exists n a sn,
    l !! n = Some a /\
    for_each (take n l) body s = Ok tt sn /\
    body a sn = Raise x t.
Proof.
  revert s. induction l as [|a l IH]; intros s H; cbn [for_each] in H.
  - discriminate.
  - unfold bind in H. destruct (body a s) as [[] s1|y s1] eqn:E.
    + destruct (IH _ H) as (n & b & sn & Hl & Hf & Hb).
      exists (S n), b, sn. split; [exact Hl|]. split; [|exact Hb].
      cbn [take for_each]. now rewrite (bind_Ok _ _ _ _ _ E).
    + injection H as -> ->. exists 0%nat, a, s. now repeat split.
Qed.

Lemma run_group_starts e g s v :
  groups_started (console s) = v ->
  groups_started (console (state_of (run_group e g s))) = v ++ [g].
Proof.
  destruct g; cbn [run_group];
    [ apply check_firebase_options_starts | apply check_android_config_starts
    | apply check_ios_config_starts | apply check_web_config_starts
    | apply check_dependencies_starts | apply check_security_rules_starts
    | apply check_build_status_starts ].
Qed.

Lemma for_each_groups_started e l s s' :
  for_each l (run_group e) s = Ok tt s' ->
  groups_started (console s') = groups_started (console s) ++ l.
Proof.
  revert s. induction l as [|g l IH]; intros s H; cbn [for_each] in H.
  - injection H as <-. now rewrite app_nil_r.
  - apply bind_Ok_inv in H as ([] & s1 & E & H).
    rewrite (IH _ H).
    pose proof (run_group_starts e g s _ eq_refl) as Hg. rewrite E in Hg.
    cbn [state_of] in Hg. rewrite Hg. now rewrite <- app_assoc.
Qed.

(** Where a run that raises stopped: the groups before the [n]-th returned
    one after the other, and the [n]-th raised. *)
Lemma run_all_checks_Raise_inv e s x t :
  run_all_checks e s = Raise x t ->
  exists n g sn,
    all_groups !! n = Some g /\
    for_each (take n all_groups) (run_group e) (add_lines opening_lines s)
    = Ok tt sn /\
    run_group e g sn = Raise x t /\
    group_fault e g = Some x /\
    groups_started (console t)
    = groups_started (console s) ++ take (S n) all_groups.
Proof.
  rewrite run_all_checks_groups.
  rewrite (bind_Ok _ _ _ _ _ (print_eq _ _)).
  rewrite (bind_Ok _ _ _ _ _ (print_eq _ _)), add_lines_add_lines.
  change ([_] ++ [_]) with opening_lines.
  intros H. unfold bind at 1 in H.
  destruct (for_each all_groups (run_group e) (add_lines opening_lines s))
    as [[] s7|y u] eqn:F.
  - rewrite (bind_Ok _ _ _ _ _ (generate_report_eq _)) in H. discriminate H.
  - injection H as -> ->.
    destruct (for_each_Raise _ _ _ _ _ F) as (n & g & sn & Hl & Hf & Hb).
    exists n, g, sn. split; [exact Hl|]. split; [exact Hf|].
    split; [exact Hb|]. split.
    + destruct (group_fault e g) as [y|] eqn:G.
      * destruct (group_raises e g y sn G) as (u & R). congruence.
      * destruct (group_returns e g G sn) as (a & u & R). congruence.
    + pose proof (for_each_groups_started _ _ _ _ Hf) as Hs.
      pose proof (run_group_starts e g sn _ Hs) as Hg.
      rewrite Hb in Hg. cbn [state_of] in Hg. rewrite Hg.
      assert (Ho : groups_started (console (add_lines opening_lines s))
                   = groups_started (console s)).
      { cbn [add_lines console]. unfold groups_started. rewrite omap_app.
        replace (omap group_of_line opening_lines) with (@nil group)
          by (vm_compute; reflexivity).
        apply app_nil_r. }
      rewrite Ho, <- app_assoc. f_equal. symmetry. apply (take_S_r _ _ _ Hl).
Qed.

(** ** How many checks a group performs *)

(** What a group that returned tells about the paths it went through. *)
Ltac no_fault_of H F :=
  match type of H with
  | check_firebase_options ?e ?s = Ok _ ?s' =>
      pose proof (group_Ok_no_fault e Options s s' H) as F
  | check_android_config ?e ?s = Ok _ ?s' =>
      pose proof (group_Ok_no_fault e Android s s' H) as F
  | check_ios_config ?e ?s = Ok _ ?s' =>
      pose proof (group_Ok_no_fault e Ios s s' H) as F
  | check_web_config ?e ?s = Ok _ ?s' =>
      pose proof (group_Ok_no_fault e Web s s' H) as F
  | check_dependencies ?e ?s = Ok _ ?s' =>
      pose proof (group_Ok_no_fault e Dependencies s s' H) as F
  | check_security_rules ?e ?s = Ok _ ?s' =>
      pose proof (group_Ok_no_fault e SecurityRules s s' H) as F
  end;
  cbn [group_fault] in F.

Lemma fault_at_read_None e p :
  fault_at e true p = None ->
  fs e !! p = None \/ exists content, fs e !! p = Some (Text content).
Proof.
  unfold fault_at. destruct (fs e !! p) as [[c|x|x]|]; try discriminate;
    intros _; [right; now exists c | now left].
Qed.

Lemma checks_between_adds {A} d (m : M A) :
  adds total_checks d m -> checks_between d d m.
Proof. intros Ha s a s' E. rewrite (Ha _ _ _ E). lia. Qed.

Lemma checks_between_options e : checks_between 1 12 (check_firebase_options e).
Proof.
  intros s [] s' H. no_fault_of H F.
  destruct (fault_at_read_None _ _ F) as [Hf|[content Hf]].
  - rewrite (check_firebase_options_absent _ _ Hf) in H.
    injection H as <-. cbn. lia.
  - destruct (check_firebase_options_Text e content s Hf)
      as (t & E & _ & _ & _ & Ht).
    rewrite E in H. injection H as <-. rewrite Ht.
    pose proof (List.filter_length_le
                  (fun pattern => Str.re_search pattern content)
                  placeholder_patterns) as Hl.
    unfold len. cbn [length placeholder_patterns platforms] in *. lia.
Qed.

Lemma checks_between_android e : checks_between 1 3 (check_android_config e).
Proof.
  intros s [] s' H. no_fault_of H F. apply or_else_None in F as [_ F].
  destruct (fault_at_read_None _ _ F) as [Hf|[content Hf]].
  - rewrite (adds_total_android_without_gradle e Hf _ _ _ H). lia.
  - rewrite (adds_total_android_with_gradle e content Hf _ _ _ H). lia.
Qed.

Lemma checks_between_ios e : checks_between 1 2 (check_ios_config e).
Proof.
  intros s [] s' H. no_fault_of H F. apply or_else_None in F as [_ F].
  destruct (fault_at_read_None _ _ F) as [Hf|[content Hf]].
  - rewrite (adds_total_ios_without_info_plist e Hf _ _ _ H). lia.
  - rewrite (adds_total_ios_with_info_plist e content Hf _ _ _ H). lia.
Qed.

Lemma checks_between_web e : checks_between 1 1 (check_web_config e).
Proof.
  intros s [] s'. unfold check_web_config, path_exists, read_text.
  change (project_root </> "web" </> "index.html") with "web/index.html".
  destruct (fs e !! "web/index.html") as [[content|x|x]|];
    intros H; cbn -[String.append] in H; try discriminate H;
    repeat match type of H with
      | context [if ?c then _ else _] => destruct c; cbn -[String.append] in H
      end;
    injection H as <-; cbn; lia.
Qed.

Lemma checks_between_dependencies e :
  checks_between 1 7 (check_dependencies e).
Proof.
  intros s [] s' H. no_fault_of H F.
  destruct (fault_at_read_None _ _ F) as [Hf|[content Hf]].
  - rewrite (check_dependencies_absent _ _ Hf) in H.
    injection H as <-. cbn. lia.
  - destruct (read_text_Text _ _ _ Hf) as [Hpe Hrt].
    unfold check_dependencies in H.
    rewrite (bind_Ok _ _ _ _ _ (print_eq _ _)) in H.
    change (project_root </> "pubspec.yaml") with pubspec_path in H.
    rewrite Hpe, Hrt in H. rewrite (bind_ret true) in H. cbn [negb] in H.
    rewrite (bind_Ok (ret content) _ _ content _ eq_refl) in H.
    destruct (for_each_success_or_warning
                (fun package => Str.str_in package content)
                (fun package => package +:+ " dependency present")
                (fun package => package +:+ " dependency missing")
                firebase_packages (add_lines [header Dependencies] s))
      as (t & E & _ & _ & _ & Ht).
    assert (E' : Ok tt t = Ok tt s') by (rewrite <- E; exact H).
    injection E' as <-. rewrite Ht. unfold len.
    cbn [add_lines total_checks length firebase_packages]. lia.
Qed.

Lemma checks_between_security e : checks_between 2 2 (check_security_rules e).
Proof.
  apply checks_between_adds. unfold check_security_rules.
  apply (adds_bind _ 0 2 2); [apply adds_total_print | intros _ | reflexivity].
  apply (adds_bind _ 1 1 2); [| intros _ | reflexivity];
    (apply (adds_bind _ 0 1 1);
     [apply adds_path_exists | intros found | reflexivity];
     apply adds_if; [apply adds_total_log_success | apply adds_total_log_warning]).
Qed.

Lemma checks_between_build e : checks_between 1 1 (check_build_status e).
Proof.
  intros s [] s' H.
  destruct (check_build_status_one_record e s) as (t & E & Ht & _).
  rewrite E in H. injection H as <-. lia.
Qed.

(** Every group of a completed run has performed at least one check. *)
Lemma run_through_checks e s s1 s2 s3 s4 s5 s6 s7 s' :
  run_through e s s1 s2 s3 s4 s5 s6 s7 s' ->
  total_checks s + 1 <= total_checks s1 <= total_checks s + 12 /\
  total_checks s1 + 1 <= total_checks s2 <= total_checks s1 + 3 /\
  total_checks s2 + 1 <= total_checks s3 <= total_checks s2 + 2 /\
  total_checks s4 = total_checks s3 + 1 /\
  total_checks s4 + 1 <= total_checks s5 <= total_checks s4 + 7 /\
  total_checks s6 = total_checks s5 + 2 /\
  total_checks s7 = total_checks s6 + 1 /\
  total_checks s' = total_checks s7.
Proof.
  intros (G1 & G2 & G3 & G4 & G5 & G6 & G7 & G8).
  rewrite generate_report_eq in G8. injection G8 as <-.
  pose proof (checks_between_options e _ _ _ G1) as B1.
  pose proof (checks_between_android e _ _ _ G2) as B2.
  pose proof (checks_between_ios e _ _ _ G3) as B3.
  pose proof (checks_between_web e _ _ _ G4) as B4.
  pose proof (checks_between_dependencies e _ _ _ G5) as B5.
  pose proof (checks_between_security e _ _ _ G6) as B6.
  pose proof (checks_between_build e _ _ _ G7) as B7.
  cbn [add_lines total_checks] in *. repeat split; lia.
Qed.

Lemma run_checks_between e b s' :
  run_all_checks e init = Ok b s' -> 8 <= total_checks s' <= 28.
Proof.
  intros H.
  apply run_all_checks_Ok_inv in H as (_ & s1 & s2 & s3 & s4 & s5 & s6 & s7 & H).
  pose proof (run_through_checks _ _ _ _ _ _ _ _ _ _ H) as B.
  cbn [total_checks init] in B. lia.
Qed.

(** A completed run has started its seven groups in order, and printed
    nothing of the report before the last one returned. *)
Lemma run_through_in_order e s1 s2 s3 s4 s5 s6 s7 s' :
  run_through e init s1 s2 s3 s4 s5 s6 s7 s' ->
  groups_started (console s7) = all_groups /\ no_report s7.
Proof.
  intros H. split; [|exact (no_report_before_report _ _ _ _ _ _ _ _ _ H)].
  destruct H as (G1 & G2 & G3 & G4 & G5 & G6 & G7 & _).
  assert (S0 : groups_started
                 (console
                    (add_lines
                       [ "🚀 Starting Firebase Deployment Verification...";
                         Str.repeat "=" 60 ] init)) = [])
    by (vm_compute; reflexivity).
  pose proof (check_firebase_options_starts e _ _ S0) as S1.
  rewrite G1 in S1. cbn [state_of] in S1.
  pose proof (check_android_config_starts e _ _ S1) as S2.
  rewrite G2 in S2. cbn [state_of] in S2.
  pose proof (check_ios_config_starts e _ _ S2) as S3.
  rewrite G3 in S3. cbn [state_of] in S3.
  pose proof (check_web_config_starts e _ _ S3) as S4.
  rewrite G4 in S4. cbn [state_of] in S4.
  pose proof (check_dependencies_starts e _ _ S4) as S5.
  rewrite G5 in S5. cbn [state_of] in S5.
  pose proof (check_security_rules_starts e _ _ S5) as S6.
  rewrite G6 in S6. cbn [state_of] in S6.
  pose proof (check_build_status_starts e _ _ S6) as S7.
  rewrite G7 in S7. cbn [state_of] in S7.
  exact S7.
Qed.

(** * Statements of the specification *)

(** C2. In every state that a sequence of [log_success], [log_warning] and
    [log_error] calls builds from the initial one, [total_checks] is
    [success_count] plus the number of warnings plus the number of issues.
    Each of the three operations returns, adds one to [total_checks] and one
    entry to its own category, and leaves the other two categories as they
    were: [log_success] adds one to [success_count], [log_warning] appends
    its message to [warnings], [log_error] appends its message to [issues].
    So no count goes down and no message is removed.  The invariant also
    holds of the state a run of [run_all_checks] ends in, whether it returns
    or raises. *)
Theorem total_checks_invariant :
  (forall s, reachable s -> counted s) /\
  (forall e, counted (state_of (run_all_checks e init))) /\
  (forall message s, exists s',
      log_success message s = Ok tt s' /\
      total_checks s' = total_checks s + 1 /\
      success_count s' = success_count s + 1 /\
      warnings s' = warnings s /\ issues s' = issues s) /\
  (forall message s, exists s',
      log_warning message s = Ok tt s' /\
      total_checks s' = total_checks s + 1 /\
      success_count s' = success_count s /\
      warnings s' = warnings s ++ [message] /\ issues s' = issues s) /\
  (forall message s, exists s',
      log_error message s = Ok tt s' /\
      total_checks s' = total_checks s + 1 /\
      success_count s' = success_count s /\
      warnings s' = warnings s /\ issues s' = issues s ++ [message]).
Proof.
  split; [|split; [exact run_all_checks_counted|]];
    [| repeat split; intros message s; eexists; repeat split].
  induction 1 as [|m s _ IH|m s _ IH|m s _ IH];
    unfold counted, len in *; cbn in *; rewrite ?length_app; cbn; lia.
Qed.

Lemma total_checks_invariant_witness :
  let s := state_of (log_error "e"
             (state_of (log_warning "w" (state_of (log_success "ok" init))))) in
  reachable s /\ counted s.
Proof.
  intros s.
  assert (Hr : reachable s) by (repeat constructor).
  split; [exact Hr | exact (proj1 total_checks_invariant s Hr)].
Defined.

(** C1. The report prints the READY banner exactly when [issues] is empty
    and the NOT READY banner exactly when it is not, in every state of the
    aggregator; with no issue the banner is READY whatever list of warnings
    the state holds.  [run_all_checks] returns [True] exactly when [issues]
    is empty at the end of the run; and on the console of a completed run
    the READY banner stands exactly when [issues] is empty.  A run over
    a readable project does complete. *)
Theorem ready_iff_no_issues :
  (forall s, exists lines,
      generate_report s = Ok tt (add_lines lines s) /\
      (In ready_banner lines <-> issues s = []) /\
      (In not_ready_banner lines <-> issues s <> [])) /\
  (forall s ws,
      issues s = [] ->
      exists lines,
        generate_report (set_warnings ws s)
        = Ok tt (add_lines lines (set_warnings ws s)) /\
        In ready_banner lines /\ ~ In not_ready_banner lines) /\
  (forall e s b s',
      run_all_checks e s = Ok b s' -> (b = true <-> issues s' = [])) /\
  (forall e b s',
      run_all_checks e init = Ok b s' ->
      (In ready_banner (console s') <-> issues s' = []) /\
      (In not_ready_banner (console s') <-> issues s' <> [])) /\
  (forall e, readable e -> exists b s', run_all_checks e init = Ok b s').
Proof.
  split; [exact generate_report_lines|].
  split; [|split; [|split]].
  - intros s ws Hi.
    destruct (generate_report_lines (set_warnings ws s)) as (lines & E & Hr & Hn).
    exists lines. split; [exact E|]. split.
    + apply Hr. exact Hi.
    + intros Hin. apply Hn in Hin. now apply Hin.
  - intros e s b s' H. apply run_all_checks_Ok_inv in H as [-> _].
    apply len_zero_iff.
  - intros e b s' H.
    apply run_all_checks_Ok_inv in H as (_ & s1 & s2 & s3 & s4 & s5 & s6 & s7 & H).
    pose proof (no_report_before_report _ _ _ _ _ _ _ _ _ H) as Hno.
    destruct H as (_ & _ & _ & _ & _ & _ & _ & G8).
    destruct (generate_report_lines s7) as (lines & E & Hr & Hn).
    rewrite E in G8. injection G8 as <-.
    cbn [add_lines console issues]. rewrite !in_app_iff.
    split; [rewrite <- Hr | rewrite <- Hn]; split; auto.
    + intros [Hc|Hl]; [|exact Hl].
      now destruct (no_report_not_In ready_banner s7 Hno).
    + intros [Hc|Hl]; [|exact Hl].
      now destruct (no_report_not_In not_ready_banner s7 Hno).
  - intros e Hr. apply (returns_run_all_checks e Hr).
Qed.

Lemma ready_iff_no_issues_witness :
  let s' := state_of (run_all_checks env_timeout init) in
  run_all_checks env_timeout init = Ok true s' /\
  warnings s' = ["Build timed out (this is normal for first build)"] /\
  (true = true <-> issues s' = []) /\
  (In ready_banner (console s') <-> issues s' = []).
Proof.
  intros s'.
  assert (H : run_all_checks env_timeout init = Ok true s') by (vm_compute; reflexivity).
  split; [exact H|]. split; [vm_compute; reflexivity|].
  split.
  - exact (proj1 (proj2 (proj2 ready_iff_no_issues)) env_timeout init true s' H).
  - exact (proj1 (proj1 (proj2 (proj2 (proj2 ready_iff_no_issues)))
                    env_timeout true s' H)).
Defined.

(** C3. [main] leaves through [sys.exit(0)] when [run_all_checks] returns
    [True] and through [sys.exit(1)] when it returns [False]; the value
    returned is [True] exactly when [issues] is empty at the end of the run.
    So a completed run exits with 0 when it recorded no error, however many
    warnings it recorded, and with 1 when it recorded one or more errors.
    The exit status is 0 exactly when [run_all_checks] returned [True], and
    1 in every other case.  A run over a readable project does
    complete. *)
Theorem exit_code_by_issues (e : env) :
  (forall b s,
      run_all_checks e init = Ok b s ->
      fst (main e) = SysExit (if b then 0 else 1) /\
      (b = true <-> issues s = []) /\
      (len (issues s) = 0 -> exit_status (fst (main e)) = 0) /\
      (len (issues s) > 0 -> exit_status (fst (main e)) = 1)) /\
  (exit_status (fst (main e)) = 0 <->
   exists s, run_all_checks e init = Ok true s) /\
  (~ (exists s, run_all_checks e init = Ok true s) ->
   exit_status (fst (main e)) = 1) /\
  (readable e -> exists b s, run_all_checks e init = Ok b s).
Proof.
  unfold main. repeat split.
  - rewrite H. now destruct b.
  - apply run_all_checks_Ok_inv in H as [-> _]. apply len_zero_iff.
  - apply run_all_checks_Ok_inv in H as [-> _]. apply len_zero_iff.
  - intros Hz. rewrite H.
    pose proof (run_all_checks_Ok_inv _ _ _ _ H) as [-> _].
    now rewrite Hz.
  - intros Hp. rewrite H.
    pose proof (run_all_checks_Ok_inv _ _ _ _ H) as [-> _].
    destruct (len (issues s) =? 0) eqn:E; [apply Z.eqb_eq in E; lia | reflexivity].
  - destruct (run_all_checks e init) as [[] s|x s]; cbn; try discriminate.
    intros _. now exists s.
  - intros [s ->]. reflexivity.
  - intros Hn. destruct (run_all_checks e init) as [[] s|x s]; cbn; try reflexivity.
    destruct Hn. now exists s.
  - intros Hr. apply (returns_run_all_checks e Hr).
Qed.

Lemma exit_code_by_issues_witness :
  let s := state_of (run_all_checks env_timeout init) in
  run_all_checks env_timeout init = Ok true s /\
  len (warnings s) = 1 /\ len (issues s) = 0 /\
  exit_status (fst (main env_timeout)) = 0.
Proof.
  intros s.
  assert (H : run_all_checks env_timeout init = Ok true s) by (vm_compute; reflexivity).
  assert (Hz : len (issues s) = 0) by (vm_compute; reflexivity).
  split; [exact H|]. split; [vm_compute; reflexivity|]. split; [exact Hz|].
  exact (proj1 (proj2 (proj2 (proj1 (exit_code_by_issues env_timeout) true s H))) Hz).
Defined.

(** C5, as the code has it.  When a mandatory file is absent, a completed
    run records exactly one Error for it.  For [google-services.json] and
    [GoogleService-Info.plist], which go through [check_file_exists], the
    message is the description, the path and [FILE MISSING], so it holds
    both the description and the path.  For the Firebase options file the
    message is [Firebase options file not found], and for [pubspec.yaml] it
    is [pubspec.yaml not found], which holds the path. *)
Theorem missing_mandatory_file_one_error e b s' :
  run_all_checks e init = Ok b s' ->
  (fs e !! "lib/firebase_options.dart" = None ->
   error_count "Firebase options file not found" s' = 1) /\
  (fs e !! "android/app/google-services.json" = None ->
   let message :=
     "Google Services JSON: android/app/google-services.json - FILE MISSING" in
   error_count message s' = 1 /\
   Str.str_in "Google Services JSON" message = true /\
   Str.str_in "android/app/google-services.json" message = true) /\
  (fs e !! "ios/Runner/GoogleService-Info.plist" = None ->
   let message :=
     "GoogleService-Info.plist: ios/Runner/GoogleService-Info.plist - FILE MISSING" in
   error_count message s' = 1 /\
   Str.str_in "GoogleService-Info.plist" message = true /\
   Str.str_in "ios/Runner/GoogleService-Info.plist" message = true) /\
  (fs e !! "pubspec.yaml" = None ->
   error_count "pubspec.yaml not found" s' = 1 /\
   Str.str_in "pubspec.yaml" "pubspec.yaml not found" = true).
Proof.
  intros H. split; [|split; [|split]].
  - intros Hp. exact (options_missing_once e b s' Hp H).
  - intros Hp. cbn zeta. split.
    + exact (google_services_json_missing_once e b s' Hp H).
    + exact (file_missing_message_mentions
               "android/app/google-services.json" "Google Services JSON").
  - intros Hp. cbn zeta. split.
    + exact (google_service_info_plist_missing_once e b s' Hp H).
    + exact (file_missing_message_mentions
               "ios/Runner/GoogleService-Info.plist" "GoogleService-Info.plist").
  - intros Hp. split.
    + exact (pubspec_missing_once e b s' Hp H).
    + exact (str_in_app "" "pubspec.yaml" " not found").
Qed.

Lemma missing_mandatory_file_one_error_witness :
  run_all_checks env_bare init
  = Ok false (state_of (run_all_checks env_bare init)) /\
  fs env_bare !! "lib/firebase_options.dart" = None /\
  fs env_bare !! "android/app/google-services.json" = None /\
  fs env_bare !! "ios/Runner/GoogleService-Info.plist" = None /\
  fs env_bare !! "pubspec.yaml" = None /\
  error_count "Firebase options file not found"
    (state_of (run_all_checks env_bare init)) = 1 /\
  error_count
    "Google Services JSON: android/app/google-services.json - FILE MISSING"
    (state_of (run_all_checks env_bare init)) = 1 /\
  error_count
    "GoogleService-Info.plist: ios/Runner/GoogleService-Info.plist - FILE MISSING"
    (state_of (run_all_checks env_bare init)) = 1 /\
  error_count "pubspec.yaml not found"
    (state_of (run_all_checks env_bare init)) = 1.
Proof.
  assert (H : run_all_checks env_bare init
              = Ok false (state_of (run_all_checks env_bare init)))
    by (vm_compute; reflexivity).
  assert (H1 : fs env_bare !! "lib/firebase_options.dart" = None)
    by (vm_compute; reflexivity).
  assert (H2 : fs env_bare !! "android/app/google-services.json" = None)
    by (vm_compute; reflexivity).
  assert (H3 : fs env_bare !! "ios/Runner/GoogleService-Info.plist" = None)
    by (vm_compute; reflexivity).
  assert (H4 : fs env_bare !! "pubspec.yaml" = None)
    by (vm_compute; reflexivity).
  destruct (missing_mandatory_file_one_error env_bare false _ H)
    as (T1 & T2 & T3 & T4).
  repeat (split; [assumption|]).
  split; [exact (T1 H1)|]. split; [exact (proj1 (T2 H2))|].
  split; [exact (proj1 (T3 H3)) | exact (proj1 (T4 H4))].
Defined.

(** C5 as stated fails for the options file: in an empty project the run
    records its one Error for the missing options file, and no Error of the
    run holds the path of that file. *)
Lemma options_file_error_omits_path :
  fs env_bare !! "lib/firebase_options.dart" = None /\
  exists s',
    run_all_checks env_bare init = Ok false s' /\
    error_count "Firebase options file not found" s' = 1 /\
    existsb (Str.str_in "lib/firebase_options.dart") (issues s') = false /\
    existsb (Str.str_in "firebase_options.dart") (issues s') = false.
Proof.
  split; [vm_compute; reflexivity|].
  exists (state_of (run_all_checks env_bare init)).
  do 3 (split; [vm_compute; reflexivity|]). vm_compute; reflexivity.
Qed.

(** C6, as the code has it.  When the options file exists with readable
    text, the options check group returns and records exactly: one Error per
    placeholder pattern found in the text, one Success or Error for the
    project identifier, and one Success or Warning per platform.  The
    existence of the file is not among the records.  An Error for a matching
    pattern is still in [issues] at the end of a completed run, which then
    returns [False]. *)
Theorem placeholder_is_error_existence_unrecorded e content :
  fs e !! "lib/firebase_options.dart" = Some (Text content) ->
  (forall s, exists s',
      check_firebase_options e s = Ok tt s' /\
      issues s' =
        issues s ++
        map (fun pattern => "Found placeholder pattern: " +:+ pattern)
          (List.filter (fun pattern => Str.re_search pattern content)
             placeholder_patterns) ++
        (if Str.str_in "lca5kr3efmasxydmsi1rvyjoizifj4" content then []
         else ["Real Firebase project ID not found"]) /\
      success_count s' =
        success_count s +
        (if Str.str_in "lca5kr3efmasxydmsi1rvyjoizifj4" content then 1 else 0) +
        len (List.filter
               (fun platform =>
                  Str.str_in ("static const FirebaseOptions " +:+ platform)
                    content)
               platforms) /\
      total_checks s' =
        total_checks s +
        len (List.filter (fun pattern => Str.re_search pattern content)
               placeholder_patterns) + 1 + len platforms) /\
  (forall pattern b s',
      In pattern placeholder_patterns ->
      Str.re_search pattern content = true ->
      run_all_checks e init = Ok b s' ->
      In ("Found placeholder pattern: " +:+ pattern) (issues s') /\ b = false).
Proof.
  intros Hf. split.
  - intros s.
    destruct (check_firebase_options_Text e content s Hf)
      as (s' & E & Hi & _ & Hs & Ht).
    now exists s'.
  - intros pattern b s' Hin Hm H.
    assert (Hmsg : In ("Found placeholder pattern: " +:+ pattern) (issues s')).
    { apply run_all_checks_Ok_inv in H
        as (_ & s1 & s2 & s3 & s4 & s5 & s6 & s7 & H).
      destruct H as (G1 & G2 & G3 & G4 & G5 & G6 & G7 & G8).
      destruct (issue_kept_groups ("Found placeholder pattern: " +:+ pattern) e)
        as (K2 & K3 & K4 & K5 & K6 & K7 & K8).
      apply (stable_Ok _ _ _ _ _ K8 G8).
      apply (stable_Ok _ _ _ _ _ K7 G7).
      apply (stable_Ok _ _ _ _ _ K6 G6).
      apply (stable_Ok _ _ _ _ _ K5 G5).
      apply (stable_Ok _ _ _ _ _ K4 G4).
      apply (stable_Ok _ _ _ _ _ K3 G3).
      apply (stable_Ok _ _ _ _ _ K2 G2).
      match type of G1 with
      | check_firebase_options _ ?s0 = _ =>
          destruct (check_firebase_options_Text e content s0 Hf)
            as (t & E & Hi & _)
      end.
      rewrite E in G1. injection G1 as <-. rewrite Hi.
      rewrite !in_app_iff. right; left.
      apply in_map. apply filter_In. now split. }
    split; [exact Hmsg|].
    apply run_all_checks_Ok_inv in H as [-> _].
    destruct (issues s'); [destruct Hmsg | reflexivity].
Qed.

Lemma placeholder_is_error_existence_unrecorded_witness :
  fs env_placeholder !! "lib/firebase_options.dart"
  = Some (Text "const projectId = 'your-project-id'; const apiKey = 'your-api-key';") /\
  exists s',
    check_firebase_options env_placeholder init = Ok tt s' /\
    total_checks s' = 0 + 2 + 1 + 5.
Proof.
  assert (Hf : fs env_placeholder !! "lib/firebase_options.dart"
               = Some (Text "const projectId = 'your-project-id'; const apiKey = 'your-api-key';"))
    by (vm_compute; reflexivity).
  split; [exact Hf|].
  destruct (proj1 (placeholder_is_error_existence_unrecorded _ _ Hf) init)
    as (s' & E & _ & _ & Ht).
  exists s'. split; [exact E | exact Ht].
Defined.

(** C6 as stated fails on the existence half: the options file exists and
    holds two placeholders, and the eight records of its check group are
    three Errors and five Warnings, all from the content checks.  No Success
    stands for the existence of the file. *)
Lemma options_file_existence_not_recorded :
  path_exists env_placeholder "lib/firebase_options.dart" init = Ok true init /\
  exists s',
    check_firebase_options env_placeholder init = Ok tt s' /\
    issues s' =
      [ "Found placeholder pattern: your-project-id";
        "Found placeholder pattern: your-api-key";
        "Real Firebase project ID not found" ] /\
    warnings s' =
      [ "Android configuration missing"; "Ios configuration missing";
        "Web configuration missing"; "Macos configuration missing";
        "Windows configuration missing" ] /\
    success_count s' = 0 /\
    total_checks s' = 8.
Proof.
  split; [vm_compute; reflexivity|].
  exists (state_of (check_firebase_options env_placeholder init)).
  do 4 (split; [vm_compute; reflexivity|]). vm_compute; reflexivity.
Qed.

(** C4, as the code has it.  Only the build check catches anything:
    whatever [subprocess.run] does, returning or raising,
    [check_build_status] returns and has recorded exactly one outcome.  A
    path with nothing at it is an ordinary answer of [exists()]; the error of
    a path that cannot be examined is let through by [exists()] and by
    [check_file_exists].  When every path that a check group probes can be
    examined and every file that a check group reads is absent or holds
    readable text, each of the seven check groups returns from every state,
    the run returns with the report on the console, and [main] ends through
    [sys.exit].  In every other project the run raises: the exception of the
    first fault leaves its check group, [run_all_checks] and [main], and no
    report is printed.  So it is in the sample project whose [android/app]
    directory is closed: the permission error of [exists()] leaves the
    Android group after the six checks of the options group. *)
Theorem faults_caught_when_files_readable :
  (forall e s, exists s',
      check_build_status e s = Ok tt s' /\
      total_checks s' = total_checks s + 1 /\
      success_count s' + len (warnings s') + len (issues s')
      = success_count s + len (warnings s) + len (issues s) + 1) /\
  (forall e p s, fs e !! p = None -> path_exists e p s = Ok false s) /\
  (forall e p x s,
      fs e !! p = Some (Inaccessible x) ->
      path_exists e p s = Raise x s /\
      forall description, check_file_exists e p description s = Raise x s) /\
  (forall e, (forall p, In p probed_paths -> fs e !! p = None) -> readable e) /\
  (forall e, readable e ->
     (forall s, exists s', check_firebase_options e s = Ok tt s') /\
     (forall s, exists s', check_android_config e s = Ok tt s') /\
     (forall s, exists s', check_ios_config e s = Ok tt s') /\
     (forall s, exists s', check_web_config e s = Ok tt s') /\
     (forall s, exists s', check_dependencies e s = Ok tt s') /\
     (forall s, exists s', check_security_rules e s = Ok tt s') /\
     (exists b s',
        run_all_checks e init = Ok b s' /\
        In report_title (console s') /\
        fst (main e) = SysExit (if b then 0 else 1))) /\
  (forall e, ~ readable e ->
     exists x t,
       first_fault e = Some x /\
       run_all_checks e init = Raise x t /\
       main e = (Traceback x, t) /\
       no_report t) /\
  (exists x t,
      fs env_no_permission !! "android/app/google-services.json"
      = Some (Inaccessible x) /\
      exn_cls x = PermissionError /\
      run_all_checks env_no_permission init = Raise x t /\
      main env_no_permission = (Traceback x, t) /\
      groups_started (console t) = [Options; Android] /\
      total_checks t = 6).
Proof.
  split; [exact check_build_status_one_record|].
  split; [intros e p s Hp; now rewrite (read_text_absent _ _ Hp)|].
  split.
  { intros e p x s Hp. split; [now rewrite (path_exists_Inaccessible _ _ _ Hp)|].
    intros description. unfold check_file_exists.
    replace (project_root </> p) with p by (now destruct p).
    now rewrite (path_exists_Inaccessible _ _ _ Hp). }
  split.
  { intros e Habs. split; intros p x Hp.
    - rewrite (Habs p Hp). discriminate.
    - rewrite (Habs p); [discriminate|].
      cbn in Hp. cbn.
      destruct Hp as [<-|[<-|[<-|[<-|[<-|[]]]]]]; tauto. }
  split.
  { intros e Hr.
    split; [intros s; destruct (returns_check_firebase_options e Hr s)
                        as ([] & s' & E); now exists s'|].
    split; [intros s; destruct (returns_check_android_config e Hr s)
                        as ([] & s' & E); now exists s'|].
    split; [intros s; destruct (returns_check_ios_config e Hr s)
                        as ([] & s' & E); now exists s'|].
    split; [intros s; destruct (returns_check_web_config e Hr s)
                        as ([] & s' & E); now exists s'|].
    split; [intros s; destruct (returns_check_dependencies e Hr s)
                        as ([] & s' & E); now exists s'|].
    split; [intros s; destruct (returns_check_security_rules e Hr s)
                        as ([] & s' & E); now exists s'|].
    destruct (returns_run_all_checks e Hr init) as (b & s' & E).
    exists b, s'. split; [exact E|]. split.
    - apply run_all_checks_Ok_inv in E
        as (_ & s1 & s2 & s3 & s4 & s5 & s6 & s7 & _ & _ & _ & _ & _ & _ & _ & G8).
      rewrite generate_report_eq in G8. injection G8 as <-.
      cbn [add_lines console]. apply in_app_iff. right. apply report_lines_title.
    - unfold main. rewrite E. now destruct b. }
  split.
  { intros e Hn. pose proof (run_first_fault e) as H.
    destruct (first_fault e) as [x|] eqn:F;
      [|destruct Hn; now apply first_fault_None_readable].
    destruct H as (t & E). exists x, t. split; [reflexivity|].
    split; [exact E|]. split; [unfold main; now rewrite E|].
    pose proof (run_all_checks_in_order e) as O. rewrite E in O.
    now destruct O as (n & _ & _ & O). }
  exists (Exn PermissionError
            "[Errno 13] Permission denied: 'android/app/google-services.json'").
  exists (state_of (run_all_checks env_no_permission init)).
  do 5 (split; [vm_compute; reflexivity|]). vm_compute; reflexivity.
Qed.

Lemma faults_caught_when_files_readable_witness :
  readable env_bare /\
  exists b s',
    run_all_checks env_bare init = Ok b s' /\
    In report_title (console s') /\
    fst (main env_bare) = SysExit (if b then 0 else 1).
Proof.
  destruct faults_caught_when_files_readable
    as (_ & _ & _ & Habsent & Hrun & _).
  assert (Hr : readable env_bare).
  { apply Habsent. intros p _. vm_compute. reflexivity. }
  split; [exact Hr|].
  destruct (Hrun env_bare Hr) as (_ & _ & _ & _ & _ & _ & Hdone).
  exact Hdone.
Defined.

(** C4 as stated fails when a file that exists cannot be read as text: the
    exception of [read_text] leaves the options check group, leaves
    [run_all_checks] and leaves [main].  Nothing has been recorded, no later
    group has run and no report is on the console. *)
Lemma undecodable_options_file_escapes :
  exists x s,
    path_exists env_undecodable "lib/firebase_options.dart" init
    = Ok true init /\
    check_firebase_options env_undecodable init
    = Raise x (add_lines [header Options] init) /\
    run_all_checks env_undecodable init = Raise x s /\
    main env_undecodable = (Traceback x, s) /\
    issues s = [] /\ warnings s = [] /\ total_checks s = 0 /\
    groups_started (console s) = [Options] /\
    existsb is_report_line (console s) = false.
Proof.
  exists (Exn UnicodeDecodeError
            "'utf-8' codec can't decode byte 0xff in position 0: invalid start byte").
  exists (state_of (run_all_checks env_undecodable init)).
  do 8 (split; [vm_compute; reflexivity|]). vm_compute; reflexivity.
Qed.

(** C8. When [firestore.rules], [storage.rules] or [web/index.html] is
    absent, a completed run has recorded exactly one Warning for it and no
    Error for it.  The security-rule group and the web group never add to
    [issues], whether they return or raise.  A run over a readable project does
    complete. *)
Theorem missing_optional_file_one_warning e :
  (forall s, issues (state_of (check_security_rules e s)) = issues s) /\
  (forall s, issues (state_of (check_web_config e s)) = issues s) /\
  (forall b s',
      run_all_checks e init = Ok b s' ->
      (fs e !! "firestore.rules" = None ->
       warning_count "Firestore security rules not found" s' = 1 /\
       error_count "Firestore security rules not found" s' = 0) /\
      (fs e !! "storage.rules" = None ->
       warning_count "Storage security rules not found" s' = 1 /\
       error_count "Storage security rules not found" s' = 0) /\
      (fs e !! "web/index.html" = None ->
       warning_count "Web index.html not found" s' = 1 /\
       error_count "Web index.html not found" s' = 0)) /\
  (readable e -> exists b s', run_all_checks e init = Ok b s').
Proof.
  destruct (issues_kept_security_web e) as [Hs Hw].
  split; [intros s; exact (Hs (issues s) s eq_refl)|].
  split; [intros s; exact (Hw (issues s) s eq_refl)|].
  split.
  - intros b s' H. split; [|split]; intros Hp.
    + exact (firestore_rules_missing_once e b s' Hp H).
    + exact (storage_rules_missing_once e b s' Hp H).
    + exact (index_html_missing_once e b s' Hp H).
  - intros Hr. apply (returns_run_all_checks e Hr).
Qed.

Lemma missing_optional_file_one_warning_witness :
  run_all_checks env_bare init
  = Ok false (state_of (run_all_checks env_bare init)) /\
  fs env_bare !! "firestore.rules" = None /\
  fs env_bare !! "storage.rules" = None /\
  fs env_bare !! "web/index.html" = None /\
  warning_count "Firestore security rules not found"
    (state_of (run_all_checks env_bare init)) = 1 /\
  warning_count "Storage security rules not found"
    (state_of (run_all_checks env_bare init)) = 1 /\
  warning_count "Web index.html not found"
    (state_of (run_all_checks env_bare init)) = 1.
Proof.
  assert (H : run_all_checks env_bare init
              = Ok false (state_of (run_all_checks env_bare init)))
    by (vm_compute; reflexivity).
  assert (H1 : fs env_bare !! "firestore.rules" = None)
    by (vm_compute; reflexivity).
  assert (H2 : fs env_bare !! "storage.rules" = None)
    by (vm_compute; reflexivity).
  assert (H3 : fs env_bare !! "web/index.html" = None)
    by (vm_compute; reflexivity).
  destruct (missing_optional_file_one_warning env_bare) as (_ & _ & T & _).
  destruct (T false _ H) as (T1 & T2 & T3).
  repeat (split; [assumption|]).
  split; [exact (proj1 (T1 H1))|].
  split; [exact (proj1 (T2 H2)) | exact (proj1 (T3 H3))].
Defined.

(** C7, as the code has it.  When the build runs into the timeout, the
    build check records the one Warning for it and returns; a completed run
    holds exactly one Warning and no Error for the timeout, and its report is
    rendered.  The build check is the last group: the security-rule group has
    run before it, what that group recorded is kept, and after the Warning
    only the report is printed.  When Flutter is not found the build check
    records an Error instead. *)
Theorem build_timeout_one_warning_run_goes_on :
  (forall e x,
      flutter_build e = BuildRaises x -> exn_cls x = TimeoutExpired ->
      (forall s,
          check_build_status e s =
          log_warning "Build timed out (this is normal for first build)"
            (add_lines [header BuildStatus] s)) /\
      (forall b s',
          run_all_checks e init = Ok b s' ->
          warning_count "Build timed out (this is normal for first build)" s' = 1 /\
          error_count "Build timed out (this is normal for first build)" s' = 0 /\
          exists s5 s6 s7,
            check_security_rules e s5 = Ok tt s6 /\
            check_build_status e s6 = Ok tt s7 /\
            generate_report s7 = Ok tt s' /\
            issues s' = issues s6 /\
            warnings s' =
              warnings s6 ++ ["Build timed out (this is normal for first build)"] /\
            success_count s' = success_count s6 /\
            console s' =
              console s6 ++
              [ header BuildStatus;
                "⚠️  Build timed out (this is normal for first build)" ] ++
              report_lines s7) /\
      (readable e -> exists b s', run_all_checks e init = Ok b s')) /\
  (forall e x,
      flutter_build e = BuildRaises x -> exn_cls x = FileNotFoundError ->
      forall s,
        check_build_status e s =
        log_error "Flutter not found in PATH" (add_lines [header BuildStatus] s)).
Proof.
  split.
  - intros e x Hb Hx.
    assert (Hcase : forall s,
               check_build_status e s =
               log_warning "Build timed out (this is normal for first build)"
                 (add_lines [header BuildStatus] s))
      by (intros s; now rewrite check_build_status_cases, Hb, Hx).
    split; [exact Hcase|]. split.
    + intros b s' H.
      destruct (build_timeout_once e x b s' Hb Hx H) as [Hw He].
      split; [exact Hw|]. split; [exact He|].
      apply run_all_checks_Ok_inv in H
        as (_ & s1 & s2 & s3 & s4 & s5 & s6 & s7 & H).
      destruct H as (_ & _ & _ & _ & _ & G6 & G7 & G8).
      exists s5, s6, s7. split; [exact G6|]. split; [exact G7|].
      split; [exact G8|].
      rewrite generate_report_eq in G8. injection G8 as <-.
      rewrite Hcase in G7. injection G7 as E7.
      cbn [add_lines issues warnings success_count console].
      assert (Hc : console s7 =
                   console s6 ++
                   [ header BuildStatus;
                     "⚠️  Build timed out (this is normal for first build)" ])
        by (rewrite <- E7; cbn -[String.append header]; now rewrite <- app_assoc).
      rewrite Hc, <- app_assoc. rewrite <- E7.
      split; [reflexivity|]. split; [reflexivity|]. split; reflexivity.
    + intros Hr. apply (returns_run_all_checks e Hr).
  - intros e x Hb Hx s. now rewrite check_build_status_cases, Hb, Hx.
Qed.

Lemma build_timeout_one_warning_run_goes_on_witness :
  flutter_build env_timeout
  = BuildRaises (Exn TimeoutExpired "Command '['flutter', 'build', 'apk', '--debug']' timed out after 300 seconds") /\
  run_all_checks env_timeout init
  = Ok true (state_of (run_all_checks env_timeout init)) /\
  warning_count "Build timed out (this is normal for first build)"
    (state_of (run_all_checks env_timeout init)) = 1.
Proof.
  assert (Hb : flutter_build env_timeout
               = BuildRaises (Exn TimeoutExpired "Command '['flutter', 'build', 'apk', '--debug']' timed out after 300 seconds"))
    by reflexivity.
  assert (H : run_all_checks env_timeout init
              = Ok true (state_of (run_all_checks env_timeout init)))
    by (vm_compute; reflexivity).
  split; [exact Hb|]. split; [exact H|].
  destruct (proj1 build_timeout_one_warning_run_goes_on env_timeout _ Hb eq_refl)
    as (_ & T & _).
  exact (proj1 (T true _ H)).
Defined.

(** C7 as stated fails on what runs after the timeout: in the complete
    project with a build that times out, the security-rule group has started
    and recorded its two outcomes before the timeout Warning is printed, and
    everything printed after that Warning is the report.  No check group
    starts after the timeout. *)
Lemma nothing_runs_after_build_timeout :
  exists s',
    run_all_checks env_timeout init = Ok true s' /\
    nth_error (console s') 30
    = Some "⚠️  Build timed out (this is normal for first build)" /\
    take 30 (console s') =
      take 26 (console s') ++
      [ header SecurityRules;
        "✅ Firestore security rules present";
        "✅ Storage security rules present";
        header BuildStatus ] /\
    drop 31 (console s') = report_lines s' /\
    groups_started (drop 31 (console s')) = [] /\
    groups_started (take 30 (console s')) = all_groups.
Proof.
  exists (state_of (run_all_checks env_timeout init)).
  do 5 (split; [vm_compute; reflexivity|]). vm_compute; reflexivity.
Qed.

(** C9.  [run_all_checks] is its two opening lines, then the seven check
    groups one after the other in the order options, Android, iOS, web,
    dependencies, security rules, build, then the report, then the verdict.
    A run that returns has gone through [check_firebase_options],
    [check_android_config], [check_ios_config], [check_web_config],
    [check_dependencies], [check_security_rules] and [check_build_status] in
    that order, each starting from the state the one before left and each
    performing at least one check; only then is the report rendered, from
    the state the build check left, which it does not change, and [main]
    exits with 0 when that state holds no issue and with 1 when it holds one
    or more.  A run that raises went through the first groups of the list in
    the same way and stopped inside the next one, with no report on the
    console; nothing ran after it.  The exit status is 0 or 1, and a run
    over a readable project returns. *)
Theorem groups_run_in_order_then_report e :
  (forall s,
      run_all_checks e s =
      (print "🚀 Starting Firebase Deployment Verification..." ;;
       print (Str.repeat "=" 60) ;;
       for_each all_groups (run_group e) ;;
       generate_report ;;
       self <- get ;;
       ret (len (issues self) =? 0)) s) /\
  (forall b s',
      run_all_checks e init = Ok b s' ->
      exists s1 s2 s3 s4 s5 s6 s7,
        (check_firebase_options e (add_lines opening_lines init) = Ok tt s1 /\
         check_android_config e s1 = Ok tt s2 /\
         check_ios_config e s2 = Ok tt s3 /\
         check_web_config e s3 = Ok tt s4 /\
         check_dependencies e s4 = Ok tt s5 /\
         check_security_rules e s5 = Ok tt s6 /\
         check_build_status e s6 = Ok tt s7 /\
         generate_report s7 = Ok tt s') /\
        (1 <= total_checks s1 <= 12 /\
         total_checks s1 + 1 <= total_checks s2 <= total_checks s1 + 3 /\
         total_checks s2 + 1 <= total_checks s3 <= total_checks s2 + 2 /\
         total_checks s4 = total_checks s3 + 1 /\
         total_checks s4 + 1 <= total_checks s5 <= total_checks s4 + 7 /\
         total_checks s6 = total_checks s5 + 2 /\
         total_checks s7 = total_checks s6 + 1 /\
         total_checks s' = total_checks s7) /\
        groups_started (console s7) = all_groups /\
        no_report s7 /\
        s' = add_lines (report_lines s7) s7 /\
        groups_started (console s') = all_groups /\
        In report_title (console s') /\
        b = negb (nonempty (issues s7)) /\
        fst (main e) = SysExit (if nonempty (issues s7) then 1 else 0)) /\
  (forall x t,
      run_all_checks e init = Raise x t ->
      (exists n g sn,
         all_groups !! n = Some g /\
         for_each (take n all_groups) (run_group e)
           (add_lines opening_lines init) = Ok tt sn /\
         run_group e g sn = Raise x t /\
         groups_started (console t) = take (S n) all_groups) /\
      no_report t /\
      fst (main e) = Traceback x) /\
  (exit_status (fst (main e)) = 0 \/ exit_status (fst (main e)) = 1) /\
  (readable e -> exists b s', run_all_checks e init = Ok b s').
Proof.
  split; [exact (run_all_checks_groups e)|].
  split; [|split; [|split]].
  - intros b s' E.
    pose proof (run_all_checks_Ok_inv _ _ _ _ E)
      as (Hb & s1 & s2 & s3 & s4 & s5 & s6 & s7 & H).
    exists s1, s2, s3, s4, s5, s6, s7.
    split; [exact H|].
    pose proof (run_through_checks _ _ _ _ _ _ _ _ _ _ H) as B.
    split; [exact B|].
    destruct (run_through_in_order _ _ _ _ _ _ _ _ _ H) as [Hg Hn].
    split; [exact Hg|]. split; [exact Hn|].
    destruct H as (_ & _ & _ & _ & _ & _ & _ & G8).
    rewrite generate_report_eq in G8. injection G8 as <-.
    split; [reflexivity|]. split; [|split; [|split]].
    + cbn [add_lines console]. unfold groups_started in *.
      rewrite omap_app, Hg.
      change (omap group_of_line (report_lines s7))
        with (groups_started (report_lines s7)).
      rewrite report_lines_start_nothing. apply app_nil_r.
    + cbn [add_lines console]. apply in_app_iff. right.
      apply report_lines_title.
    + rewrite Hb. cbn [add_lines issues]. unfold len. now destruct (issues s7).
    + unfold main. rewrite E, Hb. cbn [add_lines issues]. unfold len.
      now destruct (issues s7).
  - intros x t E. split; [|split].
    + destruct (run_all_checks_Raise_inv _ _ _ _ E)
        as (n & g & sn & Hl & Hf & Hb & _ & Hs).
      exists n, g, sn. now repeat split.
    + pose proof (run_all_checks_in_order e) as O. rewrite E in O.
      now destruct O as (n & _ & _ & O).
    + unfold main. now rewrite E.
  - unfold main. destruct (run_all_checks e init) as [[] s'|x t]; cbn; auto.
  - intros Hr. apply (returns_run_all_checks e Hr).
Qed.

Lemma groups_run_in_order_then_report_witness :
  run_all_checks env_complete init
  = Ok true (state_of (run_all_checks env_complete init)) /\
  groups_started (console (state_of (run_all_checks env_complete init)))
  = all_groups /\
  fst (main env_complete) = SysExit 0.
Proof.
  assert (H : run_all_checks env_complete init
              = Ok true (state_of (run_all_checks env_complete init)))
    by (vm_compute; reflexivity).
  split; [exact H|].
  destruct (proj1 (proj2 (groups_run_in_order_then_report env_complete)) true _ H)
    as (s1 & s2 & s3 & s4 & s5 & s6 & s7 & _ & _ & _ & _ & _ & Hg & _).
  split; [exact Hg|]. vm_compute. reflexivity.
Defined.

(** C10.  When [android/app/build.gradle] is absent, the Android group
    does nothing beyond the existence check of [google-services.json]: the
    plugin check and the BoM check record nothing, and the group performs
    one check; when the file is there with readable text it performs three.
    Likewise the iOS group performs one check without
    [ios/Runner/Info.plist] and two with it.  The group returns in these
    cases unless [exists()] fails on its credentials file.  So the number of
    checks of a run varies with these files: putting a readable
    [build.gradle] into a project without one raises the total of a
    completed run by two, and a readable [Info.plist] raises it by one.  The
    complete sample project totals 22 checks, 20 without [build.gradle], 21
    without [Info.plist]. *)
Theorem content_checks_skipped_without_file :
  (forall e,
      fs e !! "android/app/build.gradle" = None ->
      forall s,
        check_android_config e s =
        (check_file_exists e "android/app/google-services.json"
           "Google Services JSON" ;; ret tt) (add_lines [header Android] s) /\
        (forall s',
            check_android_config e s = Ok tt s' ->
            total_checks s' = total_checks s + 1) /\
        ((forall x, fs e !! "android/app/google-services.json"
                    <> Some (Inaccessible x)) ->
         exists s',
           check_android_config e s = Ok tt s' /\
           total_checks s' = total_checks s + 1)) /\
  (forall e content,
      fs e !! "android/app/build.gradle" = Some (Text content) ->
      forall s,
        (forall s',
            check_android_config e s = Ok tt s' ->
            total_checks s' = total_checks s + 3) /\
        ((forall x, fs e !! "android/app/google-services.json"
                    <> Some (Inaccessible x)) ->
         exists s',
           check_android_config e s = Ok tt s' /\
           total_checks s' = total_checks s + 3)) /\
  (forall e,
      fs e !! "ios/Runner/Info.plist" = None ->
      forall s,
        check_ios_config e s =
        (check_file_exists e "ios/Runner/GoogleService-Info.plist"
           "GoogleService-Info.plist" ;; ret tt) (add_lines [header Ios] s) /\
        (forall s',
            check_ios_config e s = Ok tt s' ->
            total_checks s' = total_checks s + 1) /\
        ((forall x, fs e !! "ios/Runner/GoogleService-Info.plist"
                    <> Some (Inaccessible x)) ->
         exists s',
           check_ios_config e s = Ok tt s' /\
           total_checks s' = total_checks s + 1)) /\
  (forall e content,
      fs e !! "ios/Runner/Info.plist" = Some (Text content) ->
      forall s,
        (forall s',
            check_ios_config e s = Ok tt s' ->
            total_checks s' = total_checks s + 2) /\
        ((forall x, fs e !! "ios/Runner/GoogleService-Info.plist"
                    <> Some (Inaccessible x)) ->
         exists s',
           check_ios_config e s = Ok tt s' /\
           total_checks s' = total_checks s + 2)) /\
  (forall e content b1 s1 b2 s2,
      fs e !! "android/app/build.gradle" = None ->
      run_all_checks e init = Ok b1 s1 ->
      run_all_checks (with_file "android/app/build.gradle" (Text content) e) init
      = Ok b2 s2 ->
      total_checks s2 = total_checks s1 + 2) /\
  (forall e content b1 s1 b2 s2,
      fs e !! "ios/Runner/Info.plist" = None ->
      run_all_checks e init = Ok b1 s1 ->
      run_all_checks (with_file "ios/Runner/Info.plist" (Text content) e) init
      = Ok b2 s2 ->
      total_checks s2 = total_checks s1 + 1) /\
  total_checks (state_of (run_all_checks env_complete init)) = 22 /\
  total_checks (state_of (run_all_checks env_no_build_gradle init)) = 20 /\
  total_checks (state_of (run_all_checks env_no_info_plist init)) = 21.
Proof.
  split; [|split; [|split; [|split; [|split; [|split]]]]].
  - intros e Hp s. split; [exact (check_android_config_absent e s Hp)|]. split.
    + intros s' E. exact (adds_total_android_without_gradle e Hp _ _ _ E).
    + intros Ha.
      destruct (returns_adds total_checks 1 (check_android_config e) s
                  (returns_android_without_gradle e Ha Hp)
                  (adds_total_android_without_gradle e Hp))
        as ([] & s' & E & Ht).
      now exists s'.
  - intros e content Hp s. split.
    + intros s' E. exact (adds_total_android_with_gradle e content Hp _ _ _ E).
    + intros Ha.
      destruct (returns_adds total_checks 3 (check_android_config e) s
                  (returns_android_with_gradle e content Ha Hp)
                  (adds_total_android_with_gradle e content Hp))
        as ([] & s' & E & Ht).
      now exists s'.
  - intros e Hp s. split; [exact (check_ios_config_absent e s Hp)|]. split.
    + intros s' E. exact (adds_total_ios_without_info_plist e Hp _ _ _ E).
    + intros Ha.
      destruct (returns_adds total_checks 1 (check_ios_config e) s
                  (returns_ios_without_info_plist e Ha Hp)
                  (adds_total_ios_without_info_plist e Hp))
        as ([] & s' & E & Ht).
      now exists s'.
  - intros e content Hp s. split.
    + intros s' E. exact (adds_total_ios_with_info_plist e content Hp _ _ _ E).
    + intros Ha.
      destruct (returns_adds total_checks 2 (check_ios_config e) s
                  (returns_ios_with_info_plist e content Ha Hp)
                  (adds_total_ios_with_info_plist e content Hp))
        as ([] & s' & E & Ht).
      now exists s'.
  - exact run_total_with_build_gradle.
  - exact run_total_with_info_plist.
  - split; [vm_compute; reflexivity|]. split; vm_compute; reflexivity.
Qed.

Lemma content_checks_skipped_without_file_witness :
  fs env_no_build_gradle !! "android/app/build.gradle" = None /\
  (exists s',
     check_android_config env_no_build_gradle init = Ok tt s' /\
     total_checks s' = total_checks init + 1) /\
  total_checks
    (state_of
       (run_all_checks
          (with_file "android/app/build.gradle" (Text "dependencies {}")
             env_no_build_gradle) init))
  = total_checks (state_of (run_all_checks env_no_build_gradle init)) + 2.
Proof.
  assert (Hp : fs env_no_build_gradle !! "android/app/build.gradle" = None)
    by (vm_compute; reflexivity).
  assert (Ha : forall x, fs env_no_build_gradle
                           !! "android/app/google-services.json"
                         <> Some (Inaccessible x))
    by (intros x H; vm_compute in H; discriminate H).
  destruct content_checks_skipped_without_file
    as (T1 & _ & _ & _ & T5 & _).
  split; [exact Hp|].
  split; [exact (proj2 (proj2 (T1 env_no_build_gradle Hp init)) Ha)|].
  refine (T5 env_no_build_gradle "dependencies {}" true _ false _ Hp _ _);
    vm_compute; reflexivity.
Defined.

(** * Further properties of the script *)

(** ** Nothing recorded or printed is ever taken back *)

Lemma extends_refl s : extends s s.
Proof. unfold extends. repeat split; (reflexivity || lia). Qed.

Ltac stable_extends :=
  let s := fresh "s" in
  let H := fresh "H" in
  intros s H; unfold extends in *; cbn;
  destruct H as (Hi & Hw & Hs & Ht & Hc);
  repeat split; try (now apply prefix_app_r); try assumption; lia.

Lemma run_all_checks_extends s0 e :
  stable (extends s0) (run_all_checks e).
Proof.
  unfold run_all_checks; unfold_groups; unroll_lists; stable_split;
    stable_extends.
Qed.

(** X1.  Whatever a run of [run_all_checks] does from a state, returning or
    raising, the state it ends in keeps the issues, the warnings and the
    console lines it started with, in place and in order, as prefixes, and no
    count has gone down. *)
Theorem run_only_appends e s : extends s (state_of (run_all_checks e s)).
Proof. apply run_all_checks_extends, extends_refl. Qed.

(** ** The console agrees with the tallies *)

Lemma lines_with_snoc_other mark l line :
  String.prefix mark line = false ->
  lines_with mark (l ++ [line]) = lines_with mark l.
Proof.
  intros H. unfold lines_with. rewrite List.filter_app. cbn [List.filter].
  rewrite H. apply app_nil_r.
Qed.

Lemma lines_with_snoc_same mark l message :
  lines_with mark (l ++ [mark +:+ message])
  = lines_with mark l ++ [mark +:+ message].
Proof.
  unfold lines_with. rewrite List.filter_app. cbn [List.filter].
  now rewrite prefix_app.
Qed.

Lemma console_agrees_print line :
  String.prefix "❌ " line = false ->
  String.prefix "⚠️  " line = false ->
  String.prefix "✅ " line = false ->
  stable console_agrees (print line).
Proof.
  intros He Hw Hs s (H1 & H2 & H3). unfold console_agrees.
  cbn -[String.append lines_with].
  rewrite (lines_with_snoc_other "❌ "), (lines_with_snoc_other "⚠️  "),
    (lines_with_snoc_other "✅ ") by assumption.
  now repeat split.
Qed.

Lemma console_agrees_log_success message :
  stable console_agrees (log_success message).
Proof.
  intros s (H1 & H2 & H3). unfold console_agrees.
  cbn -[String.append lines_with].
  rewrite (lines_with_snoc_other "❌ "), (lines_with_snoc_other "⚠️  ")
    by reflexivity.
  rewrite lines_with_snoc_same. unfold len in *. rewrite length_app.
  cbn [length]. repeat split; try assumption. lia.
Qed.

Lemma console_agrees_log_warning message :
  stable console_agrees (log_warning message).
Proof.
  intros s (H1 & H2 & H3). unfold console_agrees.
  cbn -[String.append lines_with].
  rewrite (lines_with_snoc_other "❌ "), (lines_with_snoc_other "✅ ")
    by reflexivity.
  rewrite lines_with_snoc_same, map_app, H2. now repeat split.
Qed.

Lemma console_agrees_log_error message :
  stable console_agrees (log_error message).
Proof.
  intros s (H1 & H2 & H3). unfold console_agrees.
  cbn -[String.append lines_with].
  rewrite (lines_with_snoc_other "⚠️  "), (lines_with_snoc_other "✅ ")
    by reflexivity.
  rewrite lines_with_snoc_same, map_app, H1. now repeat split.
Qed.

Ltac stable_console_agrees :=
  first
    [ apply console_agrees_log_success
    | apply console_agrees_log_warning
    | apply console_agrees_log_error
    | apply console_agrees_print; reflexivity ].

Lemma console_agrees_groups e :
  stable console_agrees (check_firebase_options e) /\
  stable console_agrees (check_android_config e) /\
  stable console_agrees (check_ios_config e) /\
  stable console_agrees (check_web_config e) /\
  stable console_agrees (check_dependencies e) /\
  stable console_agrees (check_security_rules e) /\
  stable console_agrees (check_build_status e).
Proof.
  repeat apply conj; unfold_groups; unroll_lists; stable_split;
    stable_console_agrees.
Qed.

(** X2.  Up to the report, the console and the tallies agree.  In the state
    a completed run renders its report from, and in the state a run that
    raises stops in, the console lines marked as errors are exactly the
    recorded issues in order, the lines marked as warnings are exactly the
    recorded warnings in order, and the number of lines marked as successes
    is [success_count]. *)
Theorem console_agrees_until_report e :
  match run_all_checks e init with
  | Ok b s' =>
      exists s7, console_agrees s7 /\ s' = add_lines (report_lines s7) s7
  | Raise x t => console_agrees t
  end.
Proof.
  destruct (console_agrees_groups e) as (A1 & A2 & A3 & A4 & A5 & A6 & A7).
  pose proof (run_all_checks_steps console_agrees console_agrees console_agrees
                console_agrees console_agrees console_agrees console_agrees
                console_agrees e init) as H.
  assert (H0 : console_agrees (add_lines opening_lines init))
    by (unfold console_agrees; now repeat split).
  specialize (H H0 A1 A2 A3 A4 A5 A6 A7).
  destruct (run_all_checks e init) as [b s'|x t].
  - destruct H as (s7 & H7 & E & _). now exists s7.
  - tauto.
Qed.

(** ** The report *)

Lemma lines_with_marked mark l :
  lines_with mark (map (String.append mark) l) = map (String.append mark) l.
Proof.
  unfold lines_with. induction l as [|x l IH]; cbn [map List.filter].
  - reflexivity.
  - now rewrite prefix_app, IH.
Qed.

Lemma lines_with_app mark l1 l2 :
  lines_with mark (l1 ++ l2) = lines_with mark l1 ++ lines_with mark l2.
Proof. apply List.filter_app. Qed.

Lemma lines_with_cons_other mark line l :
  String.prefix mark line = false ->
  lines_with mark (line :: l) = lines_with mark l.
Proof. intros H. unfold lines_with. cbn [List.filter]. now rewrite H. Qed.

Lemma lines_with_section header l :
  String.prefix "   • " header = false ->
  lines_with "   • "
    (if nonempty l then header :: map (fun x => "   • " +:+ x) l else [])
  = map (String.append "   • ") l.
Proof.
  intros H. destruct l as [|x l]; cbn [nonempty]; [reflexivity|].
  rewrite (lines_with_cons_other _ _ _ H).
  change (map (fun x0 => "   • " +:+ x0) (x :: l))
    with (map (String.append "   • ") (x :: l)).
  apply lines_with_marked.
Qed.

(** X3.  [generate_report] only prints: it returns, leaves both lists and
    both counters as they are, and adds its lines after the console it
    found.  The bulleted lines it prints are exactly the recorded issues
    followed by the recorded warnings, each once and in recording order. *)
Theorem report_lists_issues_then_warnings s :
  exists lines,
    generate_report s = Ok tt (add_lines lines s) /\
    lines_with "   • " lines =
      map (String.append "   • ") (issues s ++ warnings s).
Proof.
  exists (report_lines s). split; [apply generate_report_eq|].
  unfold report_lines, report_title, ready_banner, not_ready_banner.
  rewrite !lines_with_app, !lines_with_section by reflexivity.
  rewrite map_app.
  replace (lines_with "   • " [Str.nl +:+ Str.repeat "=" 60]) with (@nil string)
    by reflexivity.
  match goal with
  | |- lines_with _ ?head ++ _ = _ =>
      replace (lines_with "   • " head) with (@nil string) by reflexivity
  end.
  destruct (nonempty (issues s)); cbn [negb];
    match goal with
    | |- context [lines_with "   • " [?a; ?b]] =>
        replace (lines_with "   • " [a; b]) with (@nil string) by reflexivity
    end;
    cbn [app]; now rewrite app_nil_r.
Qed.

(** X4.  The report has its issues section exactly when at least one issue
    was recorded, and its warnings section exactly when at least one warning
    was recorded; with nothing recorded neither heading is printed. *)
Theorem report_sections_only_when_nonempty s :
  (In (Str.nl +:+ "❌ CRITICAL ISSUES TO FIX:") (report_lines s)
   <-> issues s <> []) /\
  (In (Str.nl +:+ "⚠️  WARNINGS TO ADDRESS:") (report_lines s)
   <-> warnings s <> []) /\
  generate_report s = Ok tt (add_lines (report_lines s) s).
Proof.
  split; [|split; [|apply generate_report_eq]];
    unfold report_lines, report_title, ready_banner, not_ready_banner;
    destruct (issues s) as [|i iss]; destruct (warnings s) as [|w ws];
    cbn [nonempty negb app];
    (split; intros H;
     [ first [discriminate | exfalso; in_lines_refute H]
     | first [exfalso; now apply H | in_lines_find] ]).
Qed.

(** ** How the build check and the dependency check grade what they find *)

Lemma app_one_ne {A} (l : list A) x : l ++ [x] <> l.
Proof.
  intros H. apply (f_equal (@length A)) in H. rewrite length_app in H.
  cbn in H. lia.
Qed.

(** X5.  The build check adds to [issues] unless the build completed with
    return code 0 or ran into the timeout: those two outcomes leave [issues]
    as it was, and every other outcome, a non-zero return code or any other
    exception of [subprocess.run], appends one message to it. *)
Theorem build_adds_issue_unless_ok_or_timeout e s :
  let s' := state_of (check_build_status e s) in
  (issues s' = issues s <->
   (exists stderr, flutter_build e = Completed 0 stderr) \/
   (exists x, flutter_build e = BuildRaises x /\ exn_cls x = TimeoutExpired)) /\
  (issues s' = issues s \/ exists message, issues s' = issues s ++ [message]).
Proof.
  cbn zeta. rewrite check_build_status_cases.
  destruct (flutter_build e) as [rc err|x].
  - destruct (rc =? 0) eqn:E.
    + apply Z.eqb_eq in E. subst rc. cbn. split; [|now left].
      split; [intros _; left; now exists err | reflexivity].
    + cbn. split; [|right; now eexists].
      split.
      * intros H. now apply app_one_ne in H.
      * intros [[err' H]|[x [H _]]]; [|discriminate].
        injection H as -> _. discriminate.
  - destruct (exn_cls x) eqn:E; cbn.
    2-6: split; [|right; now eexists];
      (split; [intros H; now apply app_one_ne in H
              |intros [[err' H]|[x' [H Hx]]]; [discriminate|];
               injection H as <-; congruence]).
    split; [|now left].
    split; [intros _; right; now exists x | reflexivity].
Qed.

(** X6.  On a [pubspec.yaml] with readable text the dependency check
    returns after exactly seven checks, one per Firebase package in the order
    of the list: a Success when the package name occurs in the text, a
    Warning when it does not.  It never adds to [issues]. *)
Theorem dependencies_checked_one_by_one e content s :
  fs e !! "pubspec.yaml" = Some (Text content) ->
  exists s',
    check_dependencies e s = Ok tt s' /\
    issues s' = issues s /\
    warnings s' =
      warnings s ++
      map (fun package => package +:+ " dependency missing")
        (List.filter (fun package => negb (Str.str_in package content))
           firebase_packages) /\
    success_count s' =
      success_count s +
      len (List.filter (fun package => Str.str_in package content)
             firebase_packages) /\
    total_checks s' = total_checks s + 7.
Proof.
  intros Hf. unfold check_dependencies.
  rewrite (bind_Ok _ _ _ _ _ (print_eq _ _)).
  change (project_root </> "pubspec.yaml") with "pubspec.yaml".
  destruct (read_text_Text _ _ _ Hf) as [-> ->].
  rewrite (bind_ret true); cbv beta. cbn [negb].
  rewrite (bind_Ok (ret content) _ _ content _ eq_refl).
  destruct (for_each_success_or_warning
              (fun package => Str.str_in package content)
              (fun package => package +:+ " dependency present")
              (fun package => package +:+ " dependency missing")
              firebase_packages (add_lines [header Dependencies] s))
    as (s' & E & Hi & Hw & Hs & Ht).
  exists s'. split; [exact E|]. now repeat split.
Qed.

Lemma dependencies_checked_one_by_one_witness :
  fs env_complete !! "pubspec.yaml"
  = Some (Text "firebase_core firebase_auth cloud_firestore firebase_storage firebase_messaging firebase_analytics firebase_remote_config") /\
  exists s',
    check_dependencies env_complete init = Ok tt s' /\
    total_checks s' = total_checks init + 7.
Proof.
  assert (Hf : fs env_complete !! "pubspec.yaml"
               = Some (Text "firebase_core firebase_auth cloud_firestore firebase_storage firebase_messaging firebase_analytics firebase_remote_config"))
    by (vm_compute; reflexivity).
  split; [exact Hf|].
  destruct (dependencies_checked_one_by_one env_complete _ init Hf)
    as (s' & E & _ & _ & _ & Ht).
  exists s'. split; [exact E | exact Ht].
Defined.

(** ** When a run raises *)

(** X7.  A run returns exactly when no check group meets a fault, that is
    when every path handed to [exists()] can be examined and every file
    whose text is read is absent or readable.  Otherwise it raises, out of
    [run_all_checks] and out of [main], the exception of the first fault in
    the order of the calls: the options file, [google-services.json],
    [build.gradle], [GoogleService-Info.plist], [Info.plist], [index.html],
    [pubspec.yaml], [firestore.rules], [storage.rules]; at a path that is
    read, [exists()] comes before [read_text()]. *)
Theorem run_raises_first_fault e :
  (readable e <-> first_fault e = None) /\
  match first_fault e with
  | None => exists b s', run_all_checks e init = Ok b s'
  | Some x =>
      exists t, run_all_checks e init = Raise x t /\ main e = (Traceback x, t)
  end.
Proof.
  split; [apply readable_first_fault|].
  pose proof (run_first_fault e) as H.
  destruct (first_fault e) as [x|]; [|exact H].
  destruct H as (t & E). exists t. split; [exact E|].
  unfold main. now rewrite E.
Qed.

(** ** The issues of a completed run, read off the project *)

Lemma options_issues_added e s s' :
  check_firebase_options e s = Ok tt s' ->
  issues s' = issues s ++ options_issues e.
Proof.
  intros H. no_fault_of H F. unfold options_issues.
  change "lib/firebase_options.dart" with options_path.
  destruct (fault_at_read_None _ _ F) as [Hf|[content Hf]]; rewrite Hf.
  - rewrite (check_firebase_options_absent _ _ Hf) in H.
    now injection H as <-.
  - destruct (check_firebase_options_Text e content s Hf) as (t & E & Hi & _).
    rewrite E in H. injection H as <-. exact Hi.
Qed.

Lemma android_issues_added e s s' :
  check_android_config e s = Ok tt s' ->
  issues s' = issues s ++ android_issues e.
Proof.
  unfold check_android_config, check_file_exists, android_issues,
    path_exists, present, read_text.
  change (project_root </> "android/app/google-services.json")
    with "android/app/google-services.json".
  change (project_root </> "android" </> "app" </> "build.gradle")
    with "android/app/build.gradle".
  destruct (fs e !! "android/app/google-services.json") as [[c0|x0|x0]|];
    destruct (fs e !! "android/app/build.gradle") as [[content|x|x]|];
    intros H; cbn -[String.append] in H; try discriminate H;
    repeat match type of H with
      | context [if ?c then _ else _] => destruct c; cbn -[String.append] in H
      end;
    injection H as <-;
    cbn -[String.append]; rewrite <- ?app_assoc, ?app_nil_r; reflexivity.
Qed.

Lemma ios_issues_added e s s' :
  check_ios_config e s = Ok tt s' ->
  issues s' = issues s ++ ios_issues e.
Proof.
  unfold check_ios_config, check_file_exists, ios_issues, path_exists, present,
    read_text.
  change (project_root </> "ios/Runner/GoogleService-Info.plist")
    with "ios/Runner/GoogleService-Info.plist".
  change (project_root </> "ios" </> "Runner" </> "Info.plist")
    with "ios/Runner/Info.plist".
  destruct (fs e !! "ios/Runner/GoogleService-Info.plist") as [[c0|x0|x0]|];
    destruct (fs e !! "ios/Runner/Info.plist") as [[content|x|x]|];
    intros H; cbn -[String.append] in H; try discriminate H;
    repeat match type of H with
      | context [if ?c then _ else _] => destruct c; cbn -[String.append] in H
      end;
    injection H as <-;
    cbn -[String.append]; rewrite <- ?app_assoc, ?app_nil_r; reflexivity.
Qed.

Lemma dependencies_issues_added e s s' :
  check_dependencies e s = Ok tt s' ->
  issues s' = issues s ++ dependencies_issues e.
Proof.
  intros H. no_fault_of H F. unfold dependencies_issues, present.
  change "pubspec.yaml" with pubspec_path.
  destruct (fault_at_read_None _ _ F) as [Hf|[content Hf]]; rewrite Hf.
  - rewrite (check_dependencies_absent _ _ Hf) in H. now injection H as <-.
  - destruct (read_text_Text _ _ _ Hf) as [Hpe Hrt].
    unfold check_dependencies in H.
    rewrite (bind_Ok _ _ _ _ _ (print_eq _ _)) in H.
    change (project_root </> "pubspec.yaml") with pubspec_path in H.
    rewrite Hpe, Hrt, (bind_ret true) in H. cbn [negb] in H.
    rewrite (bind_Ok (ret content) _ _ content _ eq_refl) in H.
    destruct (for_each_success_or_warning
                (fun package => Str.str_in package content)
                (fun package => package +:+ " dependency present")
                (fun package => package +:+ " dependency missing")
                firebase_packages (add_lines [header Dependencies] s))
      as (t & E & Hi & _).
    assert (E' : Ok tt t = Ok tt s') by (rewrite <- E; exact H).
    injection E' as <-. rewrite Hi. cbn [add_lines issues].
    now rewrite app_nil_r.
Qed.

Lemma build_issues_added e s s' :
  check_build_status e s = Ok tt s' ->
  issues s' = issues s ++ build_issues e.
Proof.
  rewrite check_build_status_cases. unfold build_issues.
  destruct (flutter_build e) as [rc err|x];
    [destruct (rc =? 0) | destruct (exn_cls x)];
    intros H; cbn -[String.append] in H; injection H as <-;
    cbn -[String.append]; rewrite ?app_nil_r; reflexivity.
Qed.

Lemma run_issues_expected e b s' :
  run_all_checks e init = Ok b s' ->
  issues s' = expected_issues e /\ b = (len (expected_issues e) =? 0).
Proof.
  intros H.
  apply run_all_checks_Ok_inv in H as (-> & s1 & s2 & s3 & s4 & s5 & s6 & s7 & H).
  destruct H as (G1 & G2 & G3 & G4 & G5 & G6 & G7 & G8).
  destruct (issues_kept_security_web e) as [Ks Kw].
  assert (Hi : issues s' = expected_issues e).
  { rewrite generate_report_eq in G8. injection G8 as <-.
    cbn [add_lines issues].
    rewrite (build_issues_added _ _ _ G7).
    rewrite (stable_Ok _ _ _ _ _ (Ks (issues s5)) G6 eq_refl).
    rewrite (dependencies_issues_added _ _ _ G5).
    rewrite (stable_Ok _ _ _ _ _ (Kw (issues s3)) G4 eq_refl).
    rewrite (ios_issues_added _ _ _ G3), (android_issues_added _ _ _ G2),
      (options_issues_added _ _ _ G1).
    unfold expected_issues. cbn [add_lines issues init app].
    now rewrite <- !app_assoc. }
  split; [exact Hi | now rewrite Hi].
Qed.

(** X8.  The issues a completed run ends with are a function of the
    project alone: the errors of the options check, then those of the
    Android check, the iOS check, the dependency check and the build check,
    each in the order the group logs them.  The web and security-rule checks
    contribute none.  The run returns [True] exactly when that list is
    empty. *)
Theorem issues_of_completed_run e b s' :
  run_all_checks e init = Ok b s' ->
  issues s' = expected_issues e /\ b = (len (expected_issues e) =? 0).
Proof. apply run_issues_expected. Qed.

Lemma issues_of_completed_run_witness :
  run_all_checks env_placeholder init
  = Ok false (state_of (run_all_checks env_placeholder init)) /\
  issues (state_of (run_all_checks env_placeholder init))
  = [ "Found placeholder pattern: your-project-id";
      "Found placeholder pattern: your-api-key";
      "Real Firebase project ID not found" ].
Proof.
  assert (H : run_all_checks env_placeholder init
              = Ok false (state_of (run_all_checks env_placeholder init)))
    by (vm_compute; reflexivity).
  split; [exact H|].
  rewrite (proj1 (issues_of_completed_run env_placeholder false _ H)).
  vm_compute. reflexivity.
Defined.

Lemma filter_nil_iff {A} (c : A -> bool) l :
  List.filter c l = [] <-> forall x, In x l -> c x = false.
Proof.
  induction l as [|y l IH]; cbn [List.filter In].
  - split; [intros _ x [] | reflexivity].
  - destruct (c y) eqn:E; split.
    + discriminate.
    + intros H. specialize (H y (or_introl eq_refl)). congruence.
    + intros H x [<-|Hx]; [exact E | now apply IH].
    + intros H. apply IH. intros x Hx. apply H. now right.
Qed.

Lemma options_issues_nil e :
  fault_at e true options_path = None ->
  options_issues e = [] <->
  exists content,
    fs e !! "lib/firebase_options.dart" = Some (Text content) /\
    (forall pattern, In pattern placeholder_patterns ->
                     Str.re_search pattern content = false) /\
    Str.str_in "lca5kr3efmasxydmsi1rvyjoizifj4" content = true.
Proof.
  unfold fault_at, options_issues, options_path.
  destruct (fs e !! "lib/firebase_options.dart") as [[content|x|x]|];
    try discriminate; intros _.
  - split.
    + intros H. apply app_eq_nil in H as [Hm Hid]. exists content.
      split; [reflexivity|]. split.
      * apply filter_nil_iff. now destruct (List.filter _ placeholder_patterns).
      * now destruct (Str.str_in _ content).
    + intros (c & [= <-] & Hp & Hid). rewrite Hid.
      apply filter_nil_iff in Hp. now rewrite Hp.
  - split; [discriminate | intros (c & Hc & _); discriminate].
Qed.

Lemma android_issues_nil e :
  android_issues e = [] <->
  present e "android/app/google-services.json" = true /\
  (forall content,
      fs e !! "android/app/build.gradle" = Some (Text content) ->
      Str.str_in "com.google.gms.google-services" content = true).
Proof.
  unfold android_issues.
  destruct (present e "android/app/google-services.json"); cbn [app].
  - split.
    + intros H. split; [reflexivity|]. intros content Hc. rewrite Hc in H.
      now destruct (Str.str_in "com.google.gms.google-services" content).
    + intros [_ Hg].
      destruct (fs e !! "android/app/build.gradle") as [[content|x|x]|];
        try reflexivity.
      now rewrite (Hg content eq_refl).
  - split; [discriminate | intros [Hf _]; discriminate].
Qed.

Lemma build_issues_nil e :
  build_issues e = [] <->
  (exists stderr, flutter_build e = Completed 0 stderr) \/
  (exists x, flutter_build e = BuildRaises x /\ exn_cls x = TimeoutExpired).
Proof.
  unfold build_issues.
  destruct (flutter_build e) as [rc err|x].
  - destruct (rc =? 0) eqn:E; split.
    + intros _. left. apply Z.eqb_eq in E. subst. now exists err.
    + reflexivity.
    + discriminate.
    + intros [[err' [= -> _]]|[x [H _]]]; discriminate.
  - destruct (exn_cls x) eqn:E; split; try discriminate;
      try (intros [[err H]|[y [[= <-] Hy]]]; [discriminate | congruence]).
    intros _. right. now exists x.
Qed.

(** X9.  What a Ready verdict stands for.  A completed run returns [True]
    exactly when: the options file has readable text that matches no
    placeholder pattern and holds the project identifier;
    [google-services.json] exists; [build.gradle], if it is there, names the
    Google Services plugin; [GoogleService-Info.plist] and [pubspec.yaml]
    exist; and the build completed with return code 0 or ran into the
    timeout.  Nothing else bears on the verdict. *)
Theorem ready_exactly_when e b s' :
  run_all_checks e init = Ok b s' ->
  (b = true <->
   (exists content,
       fs e !! "lib/firebase_options.dart" = Some (Text content) /\
       (forall pattern, In pattern placeholder_patterns ->
                        Str.re_search pattern content = false) /\
       Str.str_in "lca5kr3efmasxydmsi1rvyjoizifj4" content = true) /\
   present e "android/app/google-services.json" = true /\
   (forall content,
       fs e !! "android/app/build.gradle" = Some (Text content) ->
       Str.str_in "com.google.gms.google-services" content = true) /\
   present e "ios/Runner/GoogleService-Info.plist" = true /\
   present e "pubspec.yaml" = true /\
   ((exists stderr, flutter_build e = Completed 0 stderr) \/
    (exists x, flutter_build e = BuildRaises x /\ exn_cls x = TimeoutExpired))).
Proof.
  intros H.
  assert (Hu : fault_at e true options_path = None).
  { apply run_all_checks_Ok_inv in H as (_ & s1 & _ & _ & _ & _ & _ & _ & G1 & _).
    exact (group_Ok_no_fault e Options _ _ G1). }
  destruct (run_issues_expected e b s' H) as [_ ->].
  rewrite len_zero_iff. unfold expected_issues. rewrite !app_nil.
  pose proof (options_issues_nil e Hu) as Io.
  pose proof (android_issues_nil e) as Ia.
  pose proof (build_issues_nil e) as Ib.
  assert (Ii : ios_issues e = [] <->
               present e "ios/Runner/GoogleService-Info.plist" = true)
    by (unfold ios_issues;
        destruct (present e "ios/Runner/GoogleService-Info.plist");
        split; congruence).
  assert (Id : dependencies_issues e = [] <->
               present e "pubspec.yaml" = true)
    by (unfold dependencies_issues; destruct (present e "pubspec.yaml");
        split; congruence).
  tauto.
Qed.

Lemma ready_exactly_when_witness :
  run_all_checks env_timeout init
  = Ok true (state_of (run_all_checks env_timeout init)) /\
  present env_timeout "pubspec.yaml" = true.
Proof.
  assert (H : run_all_checks env_timeout init
              = Ok true (state_of (run_all_checks env_timeout init)))
    by (vm_compute; reflexivity).
  split; [exact H|].
  destruct (proj1 (ready_exactly_when env_timeout true _ H) eq_refl)
    as (_ & _ & _ & _ & Hp & _).
  exact Hp.
Defined.

(** ** How many checks a run performs *)

(** X10.  A completed run performs between 8 and 28 checks, whatever the
    project holds.  Both bounds are reached: 8 in an empty directory without
    Flutter, 28 in a complete project whose options file still holds every
    placeholder. *)
Theorem checks_of_a_run_bounded :
  (forall e b s',
      run_all_checks e init = Ok b s' -> 8 <= total_checks s' <= 28) /\
  (exists b s', run_all_checks env_bare init = Ok b s' /\ total_checks s' = 8) /\
  (exists b s',
      run_all_checks env_all_placeholders init = Ok b s' /\
      total_checks s' = 28).
Proof.
  split; [exact run_checks_between|]. split.
  - exists false, (state_of (run_all_checks env_bare init)).
    split; vm_compute; reflexivity.
  - exists false, (state_of (run_all_checks env_all_placeholders init)).
    split; vm_compute; reflexivity.
Qed.

Lemma checks_of_a_run_bounded_witness :
  run_all_checks env_complete init
  = Ok true (state_of (run_all_checks env_complete init)) /\
  8 <= total_checks (state_of (run_all_checks env_complete init)) <= 28.
Proof.
  assert (H : run_all_checks env_complete init
              = Ok true (state_of (run_all_checks env_complete init)))
    by (vm_compute; reflexivity).
  split; [exact H|].
  exact (proj1 checks_of_a_run_bounded env_complete true _ H).
Defined.

(** ** The verdict, shown three ways *)

Lemma banner_on_console e b s' :
  run_all_checks e init = Ok b s' ->
  (In ready_banner (console s') <-> b = true) /\
  (In not_ready_banner (console s') <-> b = false).
Proof.
  intros H.
  apply run_all_checks_Ok_inv in H as (-> & s1 & s2 & s3 & s4 & s5 & s6 & s7 & H).
  pose proof (no_report_before_report _ _ _ _ _ _ _ _ _ H) as Hno.
  destruct H as (_ & _ & _ & _ & _ & _ & _ & G8).
  rewrite generate_report_eq in G8. injection G8 as <-.
  cbn [add_lines console issues]. rewrite !in_app_iff.
  rewrite report_lines_ready, report_lines_not_ready.
  pose proof (no_report_not_In ready_banner s7 Hno eq_refl) as N1.
  pose proof (no_report_not_In not_ready_banner s7 Hno eq_refl) as N2.
  unfold len. destruct (issues s7) as [|i l]; cbn [length Z.of_nat Z.eqb];
    intuition (try discriminate; try congruence).
Qed.

(** X11.  The three ways a completed run shows its verdict never disagree:
    [main] exits with status 0 exactly when the READY banner is on the
    console, exactly when the last line printed is the all-checks-passed
    line; it exits with status 1 exactly when the NOT READY banner is on the
    console.  [main] itself records nothing. *)
Theorem verdict_shown_consistently e b s' :
  run_all_checks e init = Ok b s' ->
  (exit_status (fst (main e)) = 0
   <-> In ready_banner (console (snd (main e)))) /\
  (exit_status (fst (main e)) = 1
   <-> In not_ready_banner (console (snd (main e)))) /\
  (exit_status (fst (main e)) = 0
   <-> last (console (snd (main e)))
       = Some (Str.nl +:+ "🎯 All checks passed! Your Firebase configuration is ready for deployment.")) /\
  issues (snd (main e)) = issues s' /\
  warnings (snd (main e)) = warnings s' /\
  total_checks (snd (main e)) = total_checks s'.
Proof.
  intros H. destruct (banner_on_console e b s' H) as [Hr Hn].
  unfold main. rewrite H.
  destruct b; cbn [fst snd exit_status state_of print modify
                     issues warnings total_checks console];
    rewrite !in_app_iff, last_snoc; cbn [In].
  all: repeat split; try tauto; try discriminate;
    try (intros [K|[K|[]]];
         [first [apply Hn in K | apply Hr in K]; discriminate
         | discriminate K]);
    try (intros [= K]; discriminate K).
Qed.

Lemma verdict_shown_consistently_witness :
  run_all_checks env_complete init
  = Ok true (state_of (run_all_checks env_complete init)) /\
  (exit_status (fst (main env_complete)) = 0
   <-> In ready_banner (console (snd (main env_complete)))).
Proof.
  assert (H : run_all_checks env_complete init
              = Ok true (state_of (run_all_checks env_complete init)))
    by (vm_compute; reflexivity).
  split; [exact H|].
  exact (proj1 (verdict_shown_consistently env_complete true _ H)).
Defined.

(** ** The web check does not mind letter case *)

Lemma lower_app a b : Str.lower (a +:+ b) = Str.lower a +:+ Str.lower b.
Proof.
  unfold Str.lower. induction a as [|c a IH]; [reflexivity|].
  change (String c a +:+ b) with (String c (a +:+ b)).
  cbn [Str.map_ascii]. rewrite IH. reflexivity.
Qed.

(** X12.  The web check finds Firebase in [index.html] in any letter case:
    whenever the text holds, anywhere, a word that lower-cases to
    [firebase], the check records the Success and nothing else. *)
Theorem web_check_ignores_case e pre word post s :
  fs e !! "web/index.html" = Some (Text (pre +:+ word +:+ post)) ->
  Str.lower word = "firebase" ->
  check_web_config e s =
  log_success "Firebase scripts in index.html" (add_lines [header Web] s).
Proof.
  intros Hf Hw. unfold check_web_config.
  rewrite (bind_Ok _ _ _ _ _ (print_eq _ _)).
  change (project_root </> "web" </> "index.html") with "web/index.html".
  destruct (read_text_Text _ _ _ Hf) as [-> ->].
  rewrite (bind_ret true); cbv beta.
  rewrite (bind_Ok (ret _) _ _ _ _ eq_refl).
  now rewrite !lower_app, Hw, str_in_app.
Qed.

Lemma web_check_ignores_case_witness :
  fs env_complete !! "web/index.html"
  = Some (Text ("<script src='" +:+ "Firebase" +:+ "-app.js'></script>")) /\
  check_web_config env_complete init =
  log_success "Firebase scripts in index.html" (add_lines [header Web] init).
Proof.
  assert (Hf : fs env_complete !! "web/index.html"
               = Some (Text ("<script src='" +:+ "Firebase" +:+ "-app.js'></script>")))
    by (vm_compute; reflexivity).
  split; [exact Hf|].
  exact (web_check_ignores_case env_complete _ _ _ init Hf eq_refl).
Defined.

(** ** The warnings of a completed run, read off the project *)

Ltac by_cases_on H :=
  cbn -[String.append] in H; try discriminate H;
  repeat match type of H with
    | context [if ?c then _ else _] => destruct c; cbn -[String.append] in H
    end;
  injection H as <-;
  cbn -[String.append]; rewrite <- ?app_assoc, ?app_nil_r; reflexivity.

Lemma options_warnings_added e s s' :
  check_firebase_options e s = Ok tt s' ->
  warnings s' = warnings s ++ options_warnings e.
Proof.
  intros H. no_fault_of H F. unfold options_warnings.
  change "lib/firebase_options.dart" with options_path.
  destruct (fault_at_read_None _ _ F) as [Hf|[content Hf]]; rewrite Hf.
  - rewrite (check_firebase_options_absent _ _ Hf) in H.
    injection H as <-. cbn. now rewrite app_nil_r.
  - destruct (check_firebase_options_Text e content s Hf) as (t & E & _ & Hw & _).
    rewrite E in H. injection H as <-. exact Hw.
Qed.

Lemma android_warnings_added e s s' :
  check_android_config e s = Ok tt s' ->
  warnings s' = warnings s ++ android_warnings e.
Proof.
  unfold check_android_config, check_file_exists, android_warnings,
    path_exists, read_text.
  change (project_root </> "android/app/google-services.json")
    with "android/app/google-services.json".
  change (project_root </> "android" </> "app" </> "build.gradle")
    with "android/app/build.gradle".
  destruct (fs e !! "android/app/google-services.json") as [[c0|x0|x0]|];
    destruct (fs e !! "android/app/build.gradle") as [[content|x|x]|];
    intros H; by_cases_on H.
Qed.

Lemma ios_warnings_added e s s' :
  check_ios_config e s = Ok tt s' ->
  warnings s' = warnings s ++ ios_warnings e.
Proof.
  unfold check_ios_config, check_file_exists, ios_warnings, path_exists,
    read_text.
  change (project_root </> "ios/Runner/GoogleService-Info.plist")
    with "ios/Runner/GoogleService-Info.plist".
  change (project_root </> "ios" </> "Runner" </> "Info.plist")
    with "ios/Runner/Info.plist".
  destruct (fs e !! "ios/Runner/GoogleService-Info.plist") as [[c0|x0|x0]|];
    destruct (fs e !! "ios/Runner/Info.plist") as [[content|x|x]|];
    intros H; by_cases_on H.
Qed.

Lemma web_warnings_added e s s' :
  check_web_config e s = Ok tt s' ->
  warnings s' = warnings s ++ web_warnings e.
Proof.
  unfold check_web_config, web_warnings, path_exists, read_text.
  change (project_root </> "web" </> "index.html") with "web/index.html".
  destruct (fs e !! "web/index.html") as [[content|x|x]|];
    intros H; by_cases_on H.
Qed.

Lemma dependencies_warnings_added e s s' :
  check_dependencies e s = Ok tt s' ->
  warnings s' = warnings s ++ dependencies_warnings e.
Proof.
  intros H. no_fault_of H F. unfold dependencies_warnings.
  change "pubspec.yaml" with pubspec_path.
  destruct (fault_at_read_None _ _ F) as [Hf|[content Hf]]; rewrite Hf.
  - rewrite (check_dependencies_absent _ _ Hf) in H.
    injection H as <-. cbn. now rewrite app_nil_r.
  - destruct (read_text_Text _ _ _ Hf) as [Hpe Hrt].
    unfold check_dependencies in H.
    rewrite (bind_Ok _ _ _ _ _ (print_eq _ _)) in H.
    change (project_root </> "pubspec.yaml") with pubspec_path in H.
    rewrite Hpe, Hrt, (bind_ret true) in H. cbn [negb] in H.
    rewrite (bind_Ok (ret content) _ _ content _ eq_refl) in H.
    destruct (for_each_success_or_warning
                (fun package => Str.str_in package content)
                (fun package => package +:+ " dependency present")
                (fun package => package +:+ " dependency missing")
                firebase_packages (add_lines [header Dependencies] s))
      as (t & E & _ & Hw & _).
    assert (E' : Ok tt t = Ok tt s') by (rewrite <- E; exact H).
    injection E' as <-. exact Hw.
Qed.

Lemma security_warnings_added e s s' :
  check_security_rules e s = Ok tt s' ->
  warnings s' = warnings s ++ security_warnings e.
Proof.
  unfold check_security_rules, security_warnings, path_exists, present.
  change (project_root </> "firestore.rules") with "firestore.rules".
  change (project_root </> "storage.rules") with "storage.rules".
  destruct (fs e !! "firestore.rules") as [[c0|x0|x0]|];
    destruct (fs e !! "storage.rules") as [[c1|x1|x1]|];
    intros H; by_cases_on H.
Qed.

Lemma build_warnings_added e s s' :
  check_build_status e s = Ok tt s' ->
  warnings s' = warnings s ++ build_warnings e.
Proof.
  rewrite check_build_status_cases. unfold build_warnings.
  destruct (flutter_build e) as [rc err|x];
    [destruct (rc =? 0) | destruct (exn_cls x)];
    intros H; by_cases_on H.
Qed.

Lemma run_warnings_expected e b s' :
  run_all_checks e init = Ok b s' -> warnings s' = expected_warnings e.
Proof.
  intros H.
  apply run_all_checks_Ok_inv in H as (_ & s1 & s2 & s3 & s4 & s5 & s6 & s7 & H).
  destruct H as (G1 & G2 & G3 & G4 & G5 & G6 & G7 & G8).
  rewrite generate_report_eq in G8. injection G8 as <-.
  cbn [add_lines warnings].
  rewrite (build_warnings_added _ _ _ G7), (security_warnings_added _ _ _ G6),
    (dependencies_warnings_added _ _ _ G5), (web_warnings_added _ _ _ G4),
    (ios_warnings_added _ _ _ G3), (android_warnings_added _ _ _ G2),
    (options_warnings_added _ _ _ G1).
  unfold expected_warnings. cbn [add_lines warnings init app].
  now rewrite <- !app_assoc.
Qed.

(** X13.  The warnings a completed run ends with are a function of the
    project alone: the platform warnings of the options check, then the BoM
    warning, the URL-scheme warning, the web warning, the missing packages,
    the missing rule files and the build timeout, each group in the order it
    logs them.  With the issues also fixed by the project, the number of
    successes is what is left of the total. *)
Theorem warnings_of_completed_run e b s' :
  run_all_checks e init = Ok b s' ->
  warnings s' = expected_warnings e /\
  success_count s' =
    total_checks s' - len (expected_warnings e) - len (expected_issues e).
Proof.
  intros H.
  pose proof (run_warnings_expected e b s' H) as Hw.
  destruct (run_issues_expected e b s' H) as [Hi _].
  split; [exact Hw|].
  pose proof (run_all_checks_counted e) as Hc. rewrite H in Hc.
  unfold counted in Hc. cbn [state_of] in Hc. rewrite Hw, Hi in Hc. lia.
Qed.

Lemma warnings_of_completed_run_witness :
  run_all_checks env_bare init
  = Ok false (state_of (run_all_checks env_bare init)) /\
  warnings (state_of (run_all_checks env_bare init))
  = [ "Web index.html not found";
      "Firestore security rules not found";
      "Storage security rules not found" ].
Proof.
  assert (H : run_all_checks env_bare init
              = Ok false (state_of (run_all_checks env_bare init)))
    by (vm_compute; reflexivity).
  split; [exact H|].
  rewrite (proj1 (warnings_of_completed_run env_bare false _ H)).
  vm_compute. reflexivity.
Defined.
